(** * Job distribution and fault-tolerant pipeline: a shallow embedding

    The development follows the Python sources of the pipeline layer:
    - [scraper/storage.py]              (module [Storage]),
    - [scraper/url_manager.py]          (module [UrlManager]),
    - [orchestrator.py]                 (module [Orchestrator]),
    - [scraper/fault_tolerant_scraper.py] (module [Scraper]),
    - [processor/normalizer.py]         (module [Normalizer]),
    - [processor/kafka_processor_worker.py] (module [Processor]).

    External collaborators (MongoDB driver, Kafka client, the spider, the
    HTML decoder, the embedding service, the wall clock and the random
    generator) are not code of the pipeline: their answers are taken from an
    explicit environment, and every theorem quantifies over it. *)

From Stdlib Require Import ZArith QArith Lia Lqa Ascii DecimalString.
From stdpp Require Import gmap strings list.

Local Open Scope string_scope.
Local Open Scope list_scope.
Local Open Scope Z_scope.

(** ** Python values, exceptions and results *)

Module Py.

(** The values a JSON-like [dict] of the pipeline carries. *)
Inductive value :=
| VStr (s : string)
| VInt (n : Z).

(** Exceptions, by the class the code can tell apart. *)
Inductive exn :=
| Exception (msg : string)
| KeyError (key : string)
| AttributeError (attr : string)
| TypeError (msg : string)
| UnboundLocalError (name : string)
| OverflowError (msg : string)
| ZeroDivisionError (msg : string)
| KafkaError (msg : string).

(** [str(e)] *)
Definition str (e : exn) : string :=
  match e with
  | Exception m => m
  | KeyError k => ("'" ++ k ++ "'")%string
  | AttributeError a =>
      ("'NoneType' object has no attribute '" ++ a ++ "'")%string
  | TypeError m => m
  | UnboundLocalError n =>
      ("cannot access local variable '" ++ n
         ++ "' where it is not associated with a value")%string
  | OverflowError m => m
  | ZeroDivisionError m => m
  | KafkaError m => m
  end.

(** A call either returns or raises. *)
Inductive result (A : Type) :=
| Ok (a : A)
| Raise (e : exn).
Arguments Ok {A} a.
Arguments Raise {A} e.

(** Sequencing: the first exception raised aborts the block. Written
    [x ← c; k] below. *)
#[global] Instance result_ret : MRet result := fun A a => Ok a.
#[global] Instance result_bind : MBind result := fun A B k r =>
  match r with
  | Ok a => k a
  | Raise e => Raise e
  end.

(** [x or d] for an optional dictionary or string. *)
Definition or_else {A} (x : option A) (d : A) : A :=
  match x with
  | Some a => a
  | None => d
  end.

End Py.

Import Py.

(** ** processor/normalizer.py *)

Module Normalizer.

(** A [float] of Python: a finite one, read as an exact rational, an
    infinity or NaN. *)
Inductive pyfloat :=
| Finite (q : Q)
| Infinity (negative : bool)
| NaN.

(** A number of Python: an [int] of any size, or a [float]. *)
Inductive number :=
| Int (n : Z)
| Float (x : pyfloat).

(** A normalized statistic is a number or, under the key ['per_game'],
    the dictionary of per-game averages. *)
Inductive stat_value :=
| Num (x : number)
| PerGame (d : gmap string pyfloat).

(** The dictionary [normalize_player_stats] returns: the four keys it
    fills, or no key at all when it returns [{}] from its exception
    handler. A field is [None] when the key is absent. *)
Record NormalizedStats := {
  player_name : option string;
  stats : option (gmap string stat_value);
  stats_raw : option (list (string * string));
  metadata : option (gmap string value)
}.

Definition empty_dict : NormalizedStats :=
  {| player_name := None; stats := None; stats_raw := None; metadata := None |}.

(** [STAT_MAPPING] *)
Definition STAT_MAPPING : gmap string string :=
  list_to_map
    [ ("GP", "games_played"); ("MIN", "minutes"); ("PTS", "points");
      ("FGM", "field_goals_made"); ("FGA", "field_goals_attempted");
      ("FG%", "field_goal_percentage"); ("3PM", "three_pointers_made");
      ("3PA", "three_pointers_attempted"); ("3P%", "three_point_percentage");
      ("FTM", "free_throws_made"); ("FTA", "free_throws_attempted");
      ("FT%", "free_throw_percentage"); ("OREB", "offensive_rebounds");
      ("DREB", "defensive_rebounds"); ("REB", "rebounds"); ("AST", "assists");
      ("STL", "steals"); ("BLK", "blocks"); ("TOV", "turnovers");
      ("EFG%", "effective_field_goal_percentage");
      ("TS%", "true_shooting_percentage"); ("PF", "personal_fouls") ].

(** [c in s], [s.replace(c, '')] and [s.replace(a, b)] for one character *)
Fixpoint contains (c : ascii) (s : string) : bool :=
  match s with
  | EmptyString => false
  | String x rest => bool_decide (x = c) || contains c rest
  end.

Fixpoint remove (c : ascii) (s : string) : string :=
  match s with
  | EmptyString => EmptyString
  | String x rest => if decide (x = c) then remove c rest else String x (remove c rest)
  end.

Fixpoint replace (a b : ascii) (s : string) : string :=
  match s with
  | EmptyString => EmptyString
  | String x rest => String (if decide (x = a) then b else x) (replace a b rest)
  end.

(** [x < n], [x > n] and [x == n] for a number [x] and an [int] literal
    [n]. Every comparison with NaN is false. *)
Definition num_lt (x : number) (n : Z) : bool :=
  match x with
  | Int m => m <? n
  | Float (Finite q) => negb (Qle_bool (inject_Z n) q)
  | Float (Infinity negative) => negative
  | Float NaN => false
  end.

Definition num_gt (x : number) (n : Z) : bool :=
  match x with
  | Int m => n <? m
  | Float (Finite q) => negb (Qle_bool q (inject_Z n))
  | Float (Infinity negative) => negb negative
  | Float NaN => false
  end.

Definition num_eq (x : number) (n : Z) : bool :=
  match x with
  | Int m => m =? n
  | Float (Finite q) => Qeq_bool q (inject_Z n)
  | Float (Infinity _) => false
  | Float NaN => false
  end.

Section Normalize.

(** Built-ins of the language, taken as they are: [float(s)] and
    [int(s)] ([None] for [ValueError]), [round(x, ndigits)] on a finite
    float, the division [x / y] of two numbers (which raises
    [OverflowError] when an [int] is beyond the range of floats),
    [s.lower()], [s.title()], [' '.join(s.split())] and
    [datetime.isoformat()]. *)
Variable float : string -> option pyfloat.
Variable int : string -> option Z.
Variable round : Q -> nat -> Q.
Variable truediv : number -> number -> result pyfloat.
Variable lower : string -> string.
Variable title : string -> string.
Variable join_split : string -> string.
Variable isoformat : Z -> string.

(** [round(x, ndigits)] on any float: infinities and NaN round to
    themselves. *)
Definition round_float (x : pyfloat) (ndigits : nat) : pyfloat :=
  match x with
  | Finite q => Finite (round q ndigits)
  | Infinity negative => Infinity negative
  | NaN => NaN
  end.

(** [_normalize_player_name] *)
Definition _normalize_player_name (name : string) : string :=
  match name with
  | "" => ""
  | _ => title (join_split name)
  end.

(** [_normalize_stat_value]: [None] for a placeholder or a value that
    does not parse, a [float] for a percentage or a value with a point,
    an [int] otherwise. *)
Definition _normalize_stat_value (stat_key value : string) : option number :=
  if decide (value = "" \/ value = "-" \/ value = "N/A") then None
  else
    let value := remove "," value in
    if contains "%" stat_key || contains "%" value then
      x ← float (remove "%" value); Some (Float (round_float x 1))
    else if contains "." value then
      x ← float value; Some (Float (round_float x 3))
    else
      Int <$> int value.

(** [avg_stats] of [_calculate_per_game_stats] *)
Definition avg_stats : list string :=
  [ "points"; "rebounds"; "assists"; "steals"; "blocks";
    "minutes"; "turnovers"; "field_goals_made"; "field_goals_attempted";
    "three_pointers_made"; "three_pointers_attempted";
    "free_throws_made"; "free_throws_attempted";
    "offensive_rebounds"; "defensive_rebounds" ].

(** The [for stat_key in avg_stats] loop of [_calculate_per_game_stats],
    on its accumulator [per_game]: a division that raises ends it. Every
    statistic is an [int] or a [float] at this point. *)
Fixpoint per_game_loop (nums : gmap string number) (games : number)
    (keys : list string) (per_game : gmap string pyfloat)
  : result (gmap string pyfloat) :=
  match keys with
  | [] => Ok per_game
  | stat_key :: rest =>
      match nums !! stat_key with
      | Some value =>
          q ← truediv value games;
          per_game_loop nums games rest (<[stat_key := round_float q 2]> per_game)
      | None => per_game_loop nums games rest per_game
      end
  end.

(** [_calculate_per_game_stats], on the numbers normalized so far. It
    has no handler of its own. *)
Definition _calculate_per_game_stats (nums : gmap string number)
  : result (gmap string pyfloat) :=
  let games := or_else (nums !! "games_played") (Int 0) in
  if num_eq games 0 then Ok ∅
  else per_game_loop nums games avg_stats ∅.

(** The [for key, value in stats.items()] loop, on its accumulators
    [stats_raw] and [stats]. *)
Fixpoint normalize_loop (items raw : list (string * string))
    (nums : gmap string number)
  : list (string * string) * gmap string number :=
  match items with
  | [] => (raw, nums)
  | (key, v) :: rest =>
      if bool_decide (key ∈ ["#"; "PLAYER"; "Player"; "stat_category"; "source_url"])
      then normalize_loop rest raw nums
      else
        let raw := raw ++ [(key, v)] in
        let norm_key := or_else (STAT_MAPPING !! key) (replace " " "_" (lower key)) in
        match _normalize_stat_value key v with
        | Some norm_value => normalize_loop rest raw (<[norm_key := norm_value]> nums)
        | None => normalize_loop rest raw nums
        end
  end.

(** The [try] block of [normalize_player_stats]. With string values the
    only step that can raise is the division of the per-game averages. *)
Definition normalize_player_stats_try (name : string) (row : list (string * string))
    (md : option (gmap string value)) (now : Z) : result NormalizedStats :=
  let given := or_else md ∅ in
  let season_type := or_else (given !! "season_type") (VStr "Regular Season") in
  let base : gmap string value :=
    {[ "normalized_at" := VStr (isoformat now); "season_type" := season_type ]} in
  let extra :=
    filter (fun kv => fst kv ∉ ["normalized_at"; "season_type"]) given in
  let '(raw, nums) := normalize_loop row [] ∅ in
  let numbers : gmap string stat_value := Num <$> nums in
  st ← match nums !! "games_played" with
       | Some _ =>
           per_game ← _calculate_per_game_stats nums;
           Ok (<["per_game" := PerGame per_game]> numbers)
       | None => Ok numbers
       end;
  Ok {| player_name := Some (_normalize_player_name name);
        stats := Some st;
        stats_raw := Some raw;
        metadata := Some (extra ∪ base) |}.

(** [normalize_player_stats]: any exception is logged and answered
    [{}]. *)
Definition normalize_player_stats (name : string) (row : list (string * string))
    (md : option (gmap string value)) (now : Z) : NormalizedStats :=
  match normalize_player_stats_try name row md now with
  | Ok normalized => normalized
  | Raise _ => empty_dict
  end.

End Normalize.

(** [percentages] of [validate_stats] *)
Definition percentages : list string :=
  [ "field_goal_percentage"; "three_point_percentage";
    "free_throw_percentage"; "effective_field_goal_percentage";
    "true_shooting_percentage" ].

(** [value < 0 or value > 100] *)
Definition out_of_range (v : number) : bool :=
  num_lt v 0 || num_gt v 100.

(** The [for pct_key in percentages] loop: [Ok false] is the early
    [return False], [Ok true] is falling out of the loop; comparing a
    dictionary with a number raises [TypeError]. *)
Fixpoint check_percentages (keys : list string) (st : gmap string stat_value)
  : result bool :=
  match keys with
  | [] => Ok true
  | pct_key :: rest =>
      match st !! pct_key with
      | None => check_percentages rest st
      | Some (Num v) =>
          if out_of_range v then Ok false else check_percentages rest st
      | Some (PerGame _) =>
          Raise (TypeError "'<' not supported between instances of 'dict' and 'int'")
      end
  end.

(** The [try] block of [validate_stats]. *)
Definition validate_stats_try (r : NormalizedStats) : result bool :=
  match player_name r with
  | None | Some "" => Ok false
  | Some _ =>
      match stats r with
      | None => Ok false
      | Some st =>
          if decide (st = ∅) then Ok false
          else check_percentages percentages st
      end
  end.

(** [validate_stats]: any exception is logged and answered [False]. *)
Definition validate_stats (r : NormalizedStats) : bool :=
  match validate_stats_try r with
  | Ok b => b
  | Raise _ => false
  end.

End Normalizer.

(** ** scraper/storage.py *)

Module Storage.

Definition ObjectId := nat.

(** A document of [raw_scraped_data]; its page is whatever the scraper
    was given, a string or [None]. *)
Record RawDoc := {
  raw_url : string;
  raw_html_content : option string;
  raw_status : string;
  raw_timestamp : Z;
  raw_metadata : gmap string value
}.

Record ProcessedDoc := {
  doc_player_name : string;
  doc_stats : gmap string Normalizer.stat_value;
  doc_season_type : string;
  doc_scraped_at : Z
}.

(** [dead_letter_doc] of [send_to_dead_letter_queue] *)
Record DeadLetterDoc := {
  dl_url : string;
  dl_error : string;
  dl_metadata : gmap string value;
  dl_worker_id : string;
  dl_failed_at : Z;
  dl_retry_count : nat;
  dl_status : string
}.

(** The database behind [MongoDBStorage]: its collections, and whether
    the server answers. While [online] is [false] every driver call
    raises. With [unique_url_index] the collection [raw_scraped_data]
    refuses a second document for a URL ([DuplicateKeyError]). *)
Record MongoDBStorage := {
  online : bool;
  unique_url_index : bool;
  raw_data : list RawDoc;
  processed_data : list ProcessedDoc;
  metadata : list string;
  dead_letter_queue : list DeadLetterDoc
}.

Definition server_error : exn := Exception "ServerSelectionTimeoutError".

Definition set_raw_data (s : MongoDBStorage) (l : list RawDoc) : MongoDBStorage :=
  {| online := online s; unique_url_index := unique_url_index s;
     raw_data := l; processed_data := processed_data s;
     metadata := metadata s; dead_letter_queue := dead_letter_queue s |}.

Definition set_processed_data (s : MongoDBStorage) (l : list ProcessedDoc)
  : MongoDBStorage :=
  {| online := online s; unique_url_index := unique_url_index s;
     raw_data := raw_data s; processed_data := l;
     metadata := metadata s; dead_letter_queue := dead_letter_queue s |}.

Definition set_dead_letter_queue (s : MongoDBStorage) (l : list DeadLetterDoc)
  : MongoDBStorage :=
  {| online := online s; unique_url_index := unique_url_index s;
     raw_data := raw_data s; processed_data := processed_data s;
     metadata := metadata s; dead_letter_queue := l |}.

(** [raw_data.count_documents({"url": url})] *)
Definition count_documents_url (s : MongoDBStorage) (url : string) : result nat :=
  if online s
  then Ok (length (filter (fun d => raw_url d = url) (raw_data s)))
  else Raise server_error.

(** [raw_data.find_one({'url': url})] *)
Definition find_one_url (s : MongoDBStorage) (url : string) : result (option RawDoc) :=
  if online s
  then Ok (head (filter (fun d => raw_url d = url) (raw_data s)))
  else Raise server_error.

(** [update_one({"url": url}, {"$set": ...})]: the first match changes. *)
Fixpoint update_first (url : string) (new : RawDoc) (l : list RawDoc) : list RawDoc :=
  match l with
  | [] => []
  | d :: rest =>
      if decide (raw_url d = url) then new :: rest
      else d :: update_first url new rest
  end.

(** [store_raw_html]: the inserted id, or [None] after an update of the
    existing document or after any driver error. *)
Definition store_raw_html (s : MongoDBStorage) (url : string)
    (html_content : option string) (status : string)
    (md : option (gmap string value)) (now : Z)
  : option ObjectId * MongoDBStorage :=
  let document :=
    {| raw_url := url; raw_html_content := html_content; raw_status := status;
       raw_timestamp := now; raw_metadata := or_else md ∅ |} in
  if online s then
    if unique_url_index s && bool_decide (Exists (fun d => raw_url d = url) (raw_data s))
    then (None, set_raw_data s (update_first url document (raw_data s)))
    else (Some (length (raw_data s)), set_raw_data s (raw_data s ++ [document]))
  else (None, s).

(** [url_exists] *)
Definition url_exists (s : MongoDBStorage) (url : string) : bool :=
  match count_documents_url s url with
  | Ok n => bool_decide (0 < n)%nat
  | Raise _ => false
  end.

(** What [store_processed_stats] answers: [str(upserted_id)], ["updated"],
    or [None]. *)
Inductive upsert_answer :=
| Upserted (id : ObjectId)
| Updated.

(** The upsert keyed by player name and season type. *)
Fixpoint upsert (new : ProcessedDoc) (l : list ProcessedDoc)
  : option (list ProcessedDoc) :=
  match l with
  | [] => None
  | d :: rest =>
      if decide (doc_player_name d = doc_player_name new
                 /\ doc_season_type d = doc_season_type new)
      then Some (new :: rest)
      else cons d <$> upsert new rest
  end.

Definition store_processed_stats (s : MongoDBStorage) (name : string)
    (st : gmap string Normalizer.stat_value) (season_type : string) (now : Z)
  : option upsert_answer * MongoDBStorage :=
  let document :=
    {| doc_player_name := name; doc_stats := st;
       doc_season_type := season_type; doc_scraped_at := now |} in
  if online s then
    match upsert document (processed_data s) with
    | Some l => (Some Updated, set_processed_data s l)
    | None =>
        (Some (Upserted (length (processed_data s))),
         set_processed_data s (processed_data s ++ [document]))
    end
  else (None, s).

(** [get_stats_count]: the four counters, or [{}] after a driver error. *)
Definition get_stats_count (s : MongoDBStorage) : gmap string Z :=
  if online s then
    {[ "raw_data_count" := Z.of_nat (length (raw_data s));
       "processed_stats_count" := Z.of_nat (length (processed_data s));
       "unique_players" :=
         Z.of_nat (length (remove_dups (doc_player_name <$> processed_data s)));
       "metadata_count" := Z.of_nat (length (metadata s)) ]}
  else ∅.

(** [db.dead_letter_queue.insert_one(doc)] *)
Definition dead_letter_insert_one (s : MongoDBStorage) (doc : DeadLetterDoc)
  : result MongoDBStorage :=
  if online s
  then Ok (set_dead_letter_queue s (dead_letter_queue s ++ [doc]))
  else Raise server_error.




End Storage.

(** ** scraper/url_manager.py *)

Module UrlManager.

(** [settings.KAFKA_SCRAPING_TASKS_TOPIC] and its siblings (config.py) *)
Definition KAFKA_SCRAPING_TASKS_TOPIC : string := "scraping-tasks".
Definition KAFKA_SCRAPING_RESULTS_TOPIC : string := "scraping-results".

(** The JSON messages of the three topics. *)
Inductive Message :=
| TaskMsg (url : string) (metadata : gmap string value) (priority : Z)
| ResultMsg (url status : string) (data : gmap string value)
| DeadLetterMsg (url error : string) (timestamp : Z).

(** What becomes of one record handed to [producer.send]: the broker
    writes it and acknowledges it while [future.get(timeout=10)] waits;
    or it is never written ([send] raises, or the delivery fails for good
    and the future raises); or the broker writes it, but the
    acknowledgement comes after the wait has timed out, so that
    [future.get] raises all the same while the record is still in the
    producer's buffer. *)
Inductive delivery :=
| Acked
| Lost
| Late.

(** A [KafkaProducer]: the records of this producer the broker writes,
    per topic and in the order of the [send] calls (where the broker puts
    a late record among the ones sent after it is not modelled); those of
    them still in the producer's buffer, waiting for their
    acknowledgement; and what becomes of each later [send], every send
    being acknowledged once the list is used up. *)
Record KafkaProducer := {
  sent : list (string * Message);
  in_flight : list (string * Message);
  send_faults : list delivery
}.

(** [producer.send(topic, value=message)] followed by
    [future.get(timeout=10)] *)
Definition send_and_get (p : KafkaProducer) (topic : string) (m : Message)
  : result unit * KafkaProducer :=
  match send_faults p with
  | Lost :: faults =>
      (Raise (KafkaError "KafkaError"),
       {| sent := sent p; in_flight := in_flight p; send_faults := faults |})
  | Late :: faults =>
      (Raise (KafkaError "KafkaTimeoutError"),
       {| sent := sent p ++ [(topic, m)];
          in_flight := in_flight p ++ [(topic, m)];
          send_faults := faults |})
  | Acked :: faults =>
      (Ok tt,
       {| sent := sent p ++ [(topic, m)]; in_flight := in_flight p;
          send_faults := faults |})
  | [] =>
      (Ok tt,
       {| sent := sent p ++ [(topic, m)]; in_flight := in_flight p;
          send_faults := [] |})
  end.

(** [producer.send(topic, value=message)] whose future nobody awaits: a
    lost message goes unnoticed. *)
Definition send (p : KafkaProducer) (topic : string) (m : Message) : KafkaProducer :=
  snd (send_and_get p topic m).

(** [producer.flush()]: returns once no record is left in the buffer. *)
Definition flush (p : KafkaProducer) : KafkaProducer :=
  {| sent := sent p; in_flight := []; send_faults := send_faults p |}.

(** What a [KafkaConsumer] of group ['count-checker'] answers. *)
Record KafkaConsumer := {
  partitions_for_topic : string -> result (option (list nat));
  assign : list nat -> result unit;
  end_offsets : list nat -> result (gmap nat Z);
  committed : nat -> result (option Z);
  close : result unit
}.

(** [KafkaURLManager]: [producer] is [None] when the constructor could
    not reach the broker; [connect] is the answer of a later
    [KafkaConsumer(bootstrap_servers=...)]. *)
Record KafkaURLManager := {
  scraping_topic : string;
  results_topic : string;
  producer : option KafkaProducer;
  connect : result KafkaConsumer
}.

Definition set_producer (m : KafkaURLManager) (p : KafkaProducer) : KafkaURLManager :=
  {| scraping_topic := scraping_topic m; results_topic := results_topic m;
     producer := Some p; connect := connect m |}.

(** [submit_url] *)
Definition submit_url (m : KafkaURLManager) (url : string)
    (metadata : option (gmap string value)) (priority : Z)
  : bool * KafkaURLManager :=
  match producer m with
  | None => (false, m)
  | Some p =>
      let message := TaskMsg url (or_else metadata ∅) priority in
      match send_and_get p (scraping_topic m) message with
      | (Ok _, p') => (true, set_producer m p')
      | (Raise _, p') => (false, set_producer m p')
      end
  end.

(** The [for url in urls] loop of [submit_urls_batch]. *)
Fixpoint submit_loop (m : KafkaURLManager) (urls : list string)
    (metadata : option (gmap string value)) (success_count : nat)
  : nat * KafkaURLManager :=
  match urls with
  | [] => (success_count, m)
  | url :: rest =>
      match submit_url m url metadata 0 with
      | (true, m') => submit_loop m' rest metadata (S success_count)
      | (false, m') => submit_loop m' rest metadata success_count
      end
  end.

(** [submit_urls_batch]: the loop, then [self.producer.flush()] on the
    producer, which is still there (only the constructor sets the
    field). *)
Definition submit_urls_batch (m : KafkaURLManager) (urls : list string)
    (metadata : option (gmap string value))
  : nat * KafkaURLManager :=
  match producer m with
  | None => (0%nat, m)
  | Some _ =>
      let '(success_count, m) := submit_loop m urls metadata 0%nat in
      match producer m with
      | Some p => (success_count, set_producer m (flush p))
      | None => (success_count, m)
      end
  end.

(** The [for tp in topic_partitions] loop of [get_pending_count]. *)
Fixpoint pending_loop (c : KafkaConsumer) (offsets : gmap nat Z)
    (topic_partitions : list nat) (pending : Z) : result Z :=
  match topic_partitions with
  | [] => Ok pending
  | tp :: rest =>
      co ← committed c tp;
      let committed_offset := or_else co 0 in
      match offsets !! tp with
      | None => Raise (KeyError "TopicPartition")
      | Some end_offset =>
          pending_loop c offsets rest (pending + (end_offset - committed_offset))
      end
  end.

(** The [try] block of [get_pending_count]. *)
Definition get_pending_count_try (m : KafkaURLManager) : result Z :=
  consumer ← connect m;
  partitions ← partitions_for_topic consumer (scraping_topic m);
  match partitions with
  | None | Some [] =>
      _ ← close consumer; Ok 0
  | Some topic_partitions =>
      _ ← assign consumer topic_partitions;
      offsets ← end_offsets consumer topic_partitions;
      pending ← pending_loop consumer offsets topic_partitions 0;
      _ ← close consumer;
      Ok pending
  end.

(** [get_pending_count]: any exception is logged and answered [0]. *)
Definition get_pending_count (m : KafkaURLManager) : Z :=
  match get_pending_count_try m with
  | Ok pending => pending
  | Raise _ => 0
  end.

(** [create_consumer]: [None] when the constructor raises. *)
Definition create_consumer (m : KafkaURLManager) : option KafkaConsumer :=
  match connect m with
  | Ok consumer => Some consumer
  | Raise _ => None
  end.

Section Consume.

(** The callback works on a state of its own and may raise. *)
Context {State : Type}.
Variable callback : Message -> State -> result unit * State.

(** What [consume_urls] leaves behind: [message_count], the number of
    messages handed to the callback, the callback's state, and whether the
    consumer was closed. *)
Record Consumed := {
  message_count : Z;
  offered : nat;
  final_state : State;
  closed : bool
}.

(** The [for message in consumer] loop, over the messages the consumer
    yields before the iteration ends. [max_messages and message_count >=
    max_messages] is false for [None] and for [0]. *)
Fixpoint consume_loop (messages : list Message) (max_messages : option Z)
    (message_count : Z) (offered : nat) (st : State) : Z * nat * State :=
  match messages with
  | [] => (message_count, offered, st)
  | message :: rest =>
      match callback message st with
      | (Ok _, st) =>
          let message_count := message_count + 1 in
          let limit_reached :=
            match max_messages with
            | None | Some 0 => false
            | Some limit => limit <=? message_count
            end in
          if limit_reached then (message_count, S offered, st)
          else consume_loop rest max_messages message_count (S offered) st
      | (Raise _, st) =>
          consume_loop rest max_messages message_count (S offered) st
      end
  end.

(** [consume_urls]: nothing happens without a consumer; otherwise the
    loop runs and the consumer is closed in the [finally] block. *)
Definition consume_urls (m : KafkaURLManager) (messages : list Message)
    (max_messages : option Z) (st : State) : Consumed :=
  match create_consumer m with
  | None =>
      {| message_count := 0; offered := 0; final_state := st; closed := false |}
  | Some consumer =>
      let '(message_count, offered, st) :=
        consume_loop messages max_messages 0 0%nat st in
      {| message_count := message_count; offered := offered;
         final_state := st; closed := true |}
  end.

End Consume.

End UrlManager.

(** ** orchestrator.py *)

Module Orchestrator.
Import Storage UrlManager.

Record JobOrchestrator := {
  url_manager : KafkaURLManager;
  storage : MongoDBStorage
}.

(** The dictionary [submit_scraping_job] returns; the key ['new_urls'] is
    absent from the ['no_new_urls'] answer. *)
Record Submission := {
  status : string;
  total_urls : nat;
  skipped : nat;
  submitted : nat;
  new_urls : option (list string)
}.

(** The filtering loop of [submit_scraping_job], on its two
    accumulators [new_urls] and [skipped]. *)
Fixpoint filter_loop (st : MongoDBStorage) (urls : list string)
    (new_urls : list string) (skipped : nat) : list string * nat :=
  match urls with
  | [] => (new_urls, skipped)
  | url :: rest =>
      if url_exists st url
      then filter_loop st rest new_urls (S skipped)
      else filter_loop st rest (new_urls ++ [url]) skipped
  end.

(** [submit_scraping_job] *)
Definition submit_scraping_job (o : JobOrchestrator) (urls : list string)
    (metadata : option (gmap string value))
  : Submission * JobOrchestrator :=
  let '(new_urls, skipped) := filter_loop (storage o) urls [] 0%nat in
  match new_urls with
  | [] =>
      ({| status := "no_new_urls"; total_urls := length urls;
          skipped := skipped; submitted := 0; new_urls := None |}, o)
  | _ =>
      let '(submitted, m) := submit_urls_batch (url_manager o) new_urls metadata in
      ({| status := "success"; total_urls := length urls;
          skipped := skipped; submitted := submitted;
          new_urls := Some new_urls |},
       {| url_manager := m; storage := storage o |})
  end.

(** What the monitor can see of the outside at one reading: the whole
    seconds elapsed since [start_time] (for the integer [timeout],
    [time.time() - start_time < timeout] holds exactly when the floor of
    the difference is below it), the queue and the database. *)
Record Snapshot := {
  elapsed : Z;
  queue : KafkaURLManager;
  database : MongoDBStorage
}.

(** The outside over time: the [n]-th evaluation of the loop condition
    and the reads that follow it see [w n]. The monitor itself changes
    nothing. *)
Definition World := nat -> Snapshot.

Record Progress := {
  progress_status : string;
  elapsed_time : Z;
  final_stats : gmap string Z
}.

(** The [while] loop of [monitor_job_progress]. [pending] is the local
    variable of that name, unbound ([None]) until the body has run once;
    [n] counts the evaluations of the loop condition so far. The answer
    is the value of [pending] and the index of the snapshot the code
    after the loop reads. [None]: the loop is still running when the
    fuel is spent. *)
Fixpoint monitor_loop (fuel : nat) (w : World) (timeout : Z) (n : nat)
    (last_count : Z) (pending : option Z) : option (result (option Z * nat)) :=
  match fuel with
  | O => None
  | S fuel' =>
      if elapsed (w n) <? timeout then
        let pending := get_pending_count (queue (w n)) in
        let stats := get_stats_count (database (w n)) in
        match stats !! "processed_stats_count" with
        | None => Some (Raise (KeyError "processed_stats_count"))
        | Some count =>
            if (pending =? 0) && (last_count <? count)
            then Some (Ok (Some pending, S n))
            else monitor_loop fuel' w timeout (S n) count (Some pending)
        end
      else Some (Ok (pending, n))
  end.

(** [monitor_job_progress(timeout, poll_interval)]; [poll_interval] only
    feeds [time.sleep], whose effect is in the clock of the world. *)
Definition monitor_job_progress (fuel : nat) (w : World) (timeout : Z)
  : option (result Progress) :=
  match monitor_loop fuel w timeout 0 0 None with
  | None => None
  | Some (Raise e) => Some (Raise e)
  | Some (Ok (pending, n)) =>
      let final_stats := get_stats_count (database (w n)) in
      match pending with
      | None => Some (Raise (UnboundLocalError "pending"))
      | Some pending =>
          Some (Ok {| progress_status :=
                        if pending =? 0 then "completed" else "timeout";
                      elapsed_time := elapsed (w n);
                      final_stats := final_stats |})
      end
  end.

(** The dictionary [run_scraping_job] returns: the submission, with the
    key ['progress'] when the job was monitored. *)
Record JobResult := {
  submission : Submission;
  progress : option Progress
}.

(** [run_scraping_job] *)
Definition run_scraping_job (fuel : nat) (w : World) (o : JobOrchestrator)
    (urls : list string) (metadata : option (gmap string value))
    (monitor : bool) (timeout : Z)
  : option (result JobResult) * JobOrchestrator :=
  let '(submission_result, o) := submit_scraping_job o urls metadata in
  if decide (status submission_result ≠ "success") then
    (Some (Ok {| submission := submission_result; progress := None |}), o)
  else if monitor && bool_decide (0 < submitted submission_result)%nat then
    match monitor_job_progress fuel w timeout with
    | None => (None, o)
    | Some (Raise e) => (Some (Raise e), o)
    | Some (Ok p) =>
        (Some (Ok {| submission := submission_result; progress := Some p |}), o)
    end
  else
    (Some (Ok {| submission := submission_result; progress := None |}), o).

End Orchestrator.

(** ** scraper/fault_tolerant_scraper.py *)

Module Scraper.
Import Storage UrlManager.

(** [class RetryConfig] *)
Record RetryConfig := {
  MAX_RETRIES : nat;
  INITIAL_BACKOFF : Z;
  MAX_BACKOFF : Z;
  BACKOFF_MULTIPLIER : Z
}.

(** The constants of the class, which every instance shares. *)
Definition defaults : RetryConfig :=
  {| MAX_RETRIES := 3;
     INITIAL_BACKOFF := 5;
     MAX_BACKOFF := 300;
     BACKOFF_MULTIPLIER := 2 |}.

(** [min(INITIAL_BACKOFF * (BACKOFF_MULTIPLIER ** attempt), MAX_BACKOFF)]:
    integer arithmetic, [attempt] ranges over [range(MAX_RETRIES)]. *)
Definition base_delay (cfg : RetryConfig) (attempt : nat) : Z :=
  Z.min (INITIAL_BACKOFF cfg * BACKOFF_MULTIPLIER cfg ^ Z.of_nat attempt)
        (MAX_BACKOFF cfg).

(** [random.uniform(a, b)] is [a + (b - a) * random.random()]; the draw
    [u] of [random.random()] lies in [0, 1). Floats are read as exact
    rationals. *)
Definition uniform (a b u : Q) : Q := (a + (b - a) * u)%Q.

(** [jitter = random.uniform(0, delay * 0.1)] *)
Definition jitter (delay : Z) (u : Q) : Q :=
  uniform 0 (inject_Z delay * (1 # 10)) u.

(** [exponential_backoff(attempt)]: [delay + jitter]. *)
Definition exponential_backoff (cfg : RetryConfig) (attempt : nat) (u : Q) : Q :=
  let delay := base_delay cfg attempt in
  (inject_Z delay + jitter delay u)%Q.

(** [self.stats] *)
Record Stats := {
  processed : nat;
  succeeded : nat;
  failed : nat;
  retried : nat;
  dead_lettered : nat
}.

(** The worker: its fields, the two shared collaborators it reaches
    through them, and two records of what it did to the outside that the
    code itself does not keep: the number of [run_spider] calls and the
    delays passed to [time.sleep]. *)
Record FaultTolerantScraper := {
  worker_id : string;
  url_manager : KafkaURLManager;
  storage : MongoDBStorage;
  retry_config : RetryConfig;
  stats : Stats;
  spider_calls : nat;
  slept : list Q
}.

(** [FaultTolerantScraper.__init__] *)
Definition init (worker_id : string) (m : KafkaURLManager) (st : MongoDBStorage)
  : FaultTolerantScraper :=
  {| worker_id := worker_id; url_manager := m; storage := st;
     retry_config := defaults;
     stats := {| processed := 0; succeeded := 0; failed := 0;
                 retried := 0; dead_lettered := 0 |};
     spider_calls := 0; slept := [] |}.

Definition set_stats (s : FaultTolerantScraper) (x : Stats) : FaultTolerantScraper :=
  {| worker_id := worker_id s; url_manager := url_manager s;
     storage := storage s; retry_config := retry_config s; stats := x;
     spider_calls := spider_calls s; slept := slept s |}.

Definition set_storage (s : FaultTolerantScraper) (x : MongoDBStorage)
  : FaultTolerantScraper :=
  {| worker_id := worker_id s; url_manager := url_manager s;
     storage := x; retry_config := retry_config s; stats := stats s;
     spider_calls := spider_calls s; slept := slept s |}.

Definition set_url_manager (s : FaultTolerantScraper) (x : KafkaURLManager)
  : FaultTolerantScraper :=
  {| worker_id := worker_id s; url_manager := x;
     storage := storage s; retry_config := retry_config s; stats := stats s;
     spider_calls := spider_calls s; slept := slept s |}.

Definition count_spider_call (s : FaultTolerantScraper) : FaultTolerantScraper :=
  {| worker_id := worker_id s; url_manager := url_manager s;
     storage := storage s; retry_config := retry_config s; stats := stats s;
     spider_calls := S (spider_calls s); slept := slept s |}.

(** [time.sleep(delay)] *)
Definition sleep (s : FaultTolerantScraper) (delay : Q) : FaultTolerantScraper :=
  {| worker_id := worker_id s; url_manager := url_manager s;
     storage := storage s; retry_config := retry_config s; stats := stats s;
     spider_calls := spider_calls s; slept := slept s ++ [delay] |}.

(** [self.stats["succeeded"] += 1] and its siblings *)
Definition incr_processed (x : Stats) : Stats :=
  {| processed := S (processed x); succeeded := succeeded x; failed := failed x;
     retried := retried x; dead_lettered := dead_lettered x |}.
Definition incr_succeeded (x : Stats) : Stats :=
  {| processed := processed x; succeeded := S (succeeded x); failed := failed x;
     retried := retried x; dead_lettered := dead_lettered x |}.
Definition incr_failed (x : Stats) : Stats :=
  {| processed := processed x; succeeded := succeeded x; failed := S (failed x);
     retried := retried x; dead_lettered := dead_lettered x |}.
Definition incr_retried (x : Stats) : Stats :=
  {| processed := processed x; succeeded := succeeded x; failed := failed x;
     retried := S (retried x); dead_lettered := dead_lettered x |}.
Definition incr_dead_lettered (x : Stats) : Stats :=
  {| processed := processed x; succeeded := succeeded x; failed := failed x;
     retried := retried x; dead_lettered := S (dead_lettered x) |}.

(** The dictionary [run_spider] answers, read through [.get]: a key
    may be absent ([None] here); under ['html'] and ['error'] the
    dictionary holds a string or Python's [None]. The status is only
    compared with 'success'. *)
Record SpiderResult := {
  spider_status : option string;
  spider_html : option (option string);
  spider_error : option (option string)
}.

(** What one [process_task] call meets outside the worker: the answer of
    the [run_spider] call of each attempt (or the exception the call, or
    the reading of an answer that is no dictionary, raises), the draw of
    [random.random()] at each attempt, and [datetime.utcnow()]. *)
Record Env := {
  run_spider : nat -> result SpiderResult;
  random : nat -> Q;
  utcnow : Z
}.

(** The dictionary [scrape_with_retry] returns. *)
Inductive ScrapeResult :=
| Success (url : string) (doc_id : option ObjectId) (attempts : nat)
          (html_length : nat)
| Failed (url : string) (error : string) (attempts : nat).

Definition result_status (r : ScrapeResult) : string :=
  match r with
  | Success _ _ _ _ => "success"
  | Failed _ _ _ => "failed"
  end.

(** [send_to_dead_letter_queue]: a failed insert is logged and nothing
    else happens; a failed publication to the topic is logged. *)
Definition send_to_dead_letter_queue (s : FaultTolerantScraper) (e : Env)
    (url error : string) (md : option (gmap string value))
  : FaultTolerantScraper :=
  let dead_letter_doc :=
    {| dl_url := url; dl_error := error; dl_metadata := or_else md ∅;
       dl_worker_id := worker_id s; dl_failed_at := utcnow e;
       dl_retry_count := MAX_RETRIES (retry_config s);
       dl_status := "dead_letter" |} in
  match dead_letter_insert_one (storage s) dead_letter_doc with
  | Raise _ => s
  | Ok st =>
      let s := set_storage s st in
      match producer (url_manager s) with
      | None => s
      | Some p =>
          set_url_manager s
            (set_producer (url_manager s)
               (send p "dead-letter-queue" (DeadLetterMsg url error (utcnow e))))
      end
  end.

(** The [try] block of one attempt: [Ok] is the [return] of the success
    branch, [Raise] enters the handler. In the success branch the page is
    stored and the success counted before the answer is built; building it
    takes [len(html_content)], which raises for a page that is [None]. *)
Definition try_attempt (s : FaultTolerantScraper) (e : Env) (url : string)
    (md : gmap string value) (attempt : nat)
  : result ScrapeResult * FaultTolerantScraper :=
  let s := count_spider_call s in
  match run_spider e attempt with
  | Raise x => (Raise x, s)
  | Ok result =>
      if decide (spider_status result = Some "success") then
        let html_content := or_else (spider_html result) (Some "") in
        let '(doc_id, st) :=
          store_raw_html (storage s) url html_content "success"
            (Some (<["attempts" := VInt (Z.of_nat attempt + 1)]>
                     (<["worker_id" := VStr (worker_id s)]> md)))
            (utcnow e) in
        let s := set_storage s st in
        let s := set_stats s (incr_succeeded (stats s)) in
        match html_content with
        | Some html =>
            (Ok (Success url doc_id (attempt + 1) (String.length html)), s)
        | None =>
            (Raise (TypeError "object of type 'NoneType' has no len()"), s)
        end
      else
        let error :=
          match spider_error result with
          | None => "Unknown error"
          | Some None => "None"
          | Some (Some error) => error
          end in
        (Raise (Exception ("Scraping failed: " ++ error)%string), s)
  end.

(** The [for attempt in range(MAX_RETRIES)] loop of [scrape_with_retry],
    from the attempts still to make. *)
Fixpoint retry_loop (attempts : list nat) (s : FaultTolerantScraper) (e : Env)
    (url : string) (md : gmap string value)
  : ScrapeResult * FaultTolerantScraper :=
  match attempts with
  | [] =>
      (Failed url "Unknown error after all retries" (MAX_RETRIES (retry_config s)), s)
  | attempt :: rest =>
      match try_attempt s e url md attempt with
      | (Ok r, s) => (r, s)
      | (Raise x, s) =>
          let last_error := str x in
          if Z.of_nat attempt <? Z.of_nat (MAX_RETRIES (retry_config s)) - 1 then
            let delay := exponential_backoff (retry_config s) attempt (random e attempt) in
            let s := sleep s delay in
            let s := set_stats s (incr_retried (stats s)) in
            retry_loop rest s e url md
          else
            let s := send_to_dead_letter_queue s e url last_error (Some md) in
            let s := set_stats s (incr_failed (stats s)) in
            let s := set_stats s (incr_dead_lettered (stats s)) in
            (Failed url last_error (MAX_RETRIES (retry_config s)), s)
      end
  end.

(** [scrape_with_retry] *)
Definition scrape_with_retry (s : FaultTolerantScraper) (e : Env) (url : string)
    (metadata : option (gmap string value))
  : ScrapeResult * FaultTolerantScraper :=
  let md := or_else metadata ∅ in
  retry_loop (seq 0 (MAX_RETRIES (retry_config s))) s e url md.

(** A task message, read through [.get]. *)
Record Task := {
  task_url : string;
  task_metadata : option (gmap string value)
}.

(** [process_task] *)
Definition process_task (s : FaultTolerantScraper) (e : Env) (task : Task)
  : ScrapeResult * FaultTolerantScraper :=
  let s := set_stats s (incr_processed (stats s)) in
  scrape_with_retry s e (task_url task) (Some (or_else (task_metadata task) ∅)).

(** A worker's life: [process_task] on one task after the other, each in
    the environment it meets. *)
Fixpoint process_tasks (s : FaultTolerantScraper) (work : list (Env * Task))
  : FaultTolerantScraper :=
  match work with
  | [] => s
  | (e, task) :: rest => process_tasks (snd (process_task s e task)) rest
  end.




End Scraper.

(** ** processor/kafka_processor_worker.py *)

Module Processor.
Import Storage Normalizer.

(** One entry of the vector store. *)
Record Embedded := {
  emb_player_name : string;
  emb_text : string;
  emb_embedding : list Q;
  emb_season_type : option string
}.

(** The worker: its id, the shared database, and the entries it has
    added to the vector store. *)
Record ProcessorWorker := {
  worker_id : string;
  storage : MongoDBStorage;
  vector_store : list (string * Embedded)
}.

(** A result message of the results topic, read through [.get]. *)
Record FetchResult := {
  result_url : option string;
  result_status : option string
}.

(** The dictionary [process_scraped_data] returns. *)
Inductive Outcome :=
| Skipped (url : option string) (reason : string) (worker : string)
| Failed (url : option string) (error : string) (worker : string)
| NoData (url : option string) (worker : string)
| Success (url : option string) (players_processed players_embedded : nat)
          (worker : string).

Definition outcome_status (o : Outcome) : string :=
  match o with
  | Skipped _ _ _ => "skipped"
  | Failed _ _ _ => "failed"
  | NoData _ _ => "no_data"
  | Success _ _ _ _ => "success"
  end.

Section Process.

(** The collaborators of the worker: the built-ins the normalizer
    uses, the decoding of a stored page into the rows of its ['data']
    ([json.loads], or the table parser for real HTML; a page that is
    [None] makes [json.loads] raise), the embedding
    service, the vector store's [add_embeddings] and the clock. *)
Variable float : string -> option Normalizer.pyfloat.
Variable int : string -> option Z.
Variable round : Q -> nat -> Q.
Variable truediv : Normalizer.number -> Normalizer.number -> result Normalizer.pyfloat.
Variable lower title join_split : string -> string.
Variable isoformat : Z -> string.
Variable decode : option string -> result (list (list (string * string))).
Variable embed_players_batch : list NormalizedStats -> result (list Embedded).
Variable add_embeddings_ok : bool.
Variable utcnow : Z.

(** [player_data.get('PLAYER', '')] *)
Fixpoint get_player (row : list (string * string)) : string :=
  match row with
  | [] => ""
  | (k, v) :: rest => if decide (k = "PLAYER") then v else get_player rest
  end.

(** The [for player_data in data] loop, on the database and its
    accumulators [players_processed] and [players_embedded]. *)
Fixpoint players_loop (data : list (list (string * string))) (url : option string)
    (st : MongoDBStorage) (players_processed : nat)
    (players_embedded : list NormalizedStats)
  : MongoDBStorage * nat * list NormalizedStats :=
  match data with
  | [] => (st, players_processed, players_embedded)
  | player_data :: rest =>
      let name := get_player player_data in
      if decide (name = "") then
        players_loop rest url st players_processed players_embedded
      else
        let md : gmap string value :=
          match url with
          | Some u => {[ "season_type" := VStr "Regular Season"; "source_url" := VStr u ]}
          | None => {[ "season_type" := VStr "Regular Season" ]}
          end in
        let normalized :=
          normalize_player_stats float int round truediv lower title join_split
            isoformat name player_data (Some md) utcnow in
        if validate_stats normalized then
          let '(_, st) :=
            store_processed_stats st
              (or_else (player_name normalized) "")
              (or_else (stats normalized) ∅) "Regular Season" utcnow in
          players_loop rest url st (S players_processed)
            (players_embedded ++ [normalized])
        else
          players_loop rest url st players_processed players_embedded
  end.

(** [raw_data.find_one({'url': url})]; no stored page has a null URL. *)
Definition find_raw (st : MongoDBStorage) (url : option string)
  : result (option RawDoc) :=
  match url with
  | Some u => find_one_url st u
  | None => if online st then Ok None else Raise server_error
  end.

(** The [try] block of [process_scraped_data], entered for a
    successful fetch only. *)
Definition process_success (w : ProcessorWorker) (url : option string)
  : result Outcome * ProcessorWorker :=
  match find_raw (storage w) url with
  | Raise e => (Raise e, w)
  | Ok None => (Ok (Failed url "Raw data not found" (worker_id w)), w)
  | Ok (Some raw_doc) =>
      match decode (raw_html_content raw_doc) with
      | Raise e => (Raise e, w)
      | Ok [] => (Ok (NoData url (worker_id w)), w)
      | Ok data =>
          let '(st, players_processed, players_embedded) :=
            players_loop data url (storage w) 0%nat [] in
          let w := {| worker_id := worker_id w; storage := st;
                      vector_store := vector_store w |} in
          let answer :=
            Success url players_processed (length players_embedded) (worker_id w) in
          match players_embedded with
          | [] => (Ok answer, w)
          | _ =>
              match embed_players_batch players_embedded with
              | Raise e => (Raise e, w)
              | Ok [] => (Ok answer, w)
              | Ok embedded_players =>
                  if add_embeddings_ok then
                    (Ok answer,
                     {| worker_id := worker_id w; storage := storage w;
                        vector_store :=
                          vector_store w ++
                          ((fun p => (("player_" ++ replace " " "_" (emb_player_name p))%string, p))
                             <$> embedded_players) |})
                  else (Ok answer, w)
              end
          end
      end
  end.

(** [process_scraped_data] *)
Definition process_scraped_data (w : ProcessorWorker) (result : FetchResult)
  : Outcome * ProcessorWorker :=
  let url := result_url result in
  let status := result_status result in
  if decide (status ≠ Some "success") then
    (Skipped url "scraping_failed" (worker_id w), w)
  else
    match process_success w url with
    | (Ok o, w) => (o, w)
    | (Raise e, w) => (Failed url (str e) (worker_id w), w)
    end.

End Process.

End Processor.

(** * Vocabulary of the statements *)

Module Spec.
Import Storage UrlManager.

(** A record as [normalize_player_stats] shapes it: apart from
    ['per_game'], every statistic is a number. *)
Definition normalized_shape (r : Normalizer.NormalizedStats) : Prop :=
  forall st k v,
    Normalizer.stats r = Some st -> st !! k = Some v -> k ≠ "per_game" ->
    exists q, v = Normalizer.Num q.

(** The canonical key is empty; the normalized field set is empty. *)
Definition key_empty (r : Normalizer.NormalizedStats) : Prop :=
  Normalizer.player_name r = None \/ Normalizer.player_name r = Some "".

Definition fields_empty (r : Normalizer.NormalizedStats) : Prop :=
  Normalizer.stats r = None \/ Normalizer.stats r = Some ∅.

(** A number within [0, 100]: an infinity is not, and neither is NaN. *)
Definition within_percent (x : Normalizer.number) : Prop :=
  match x with
  | Normalizer.Int n => 0 <= n <= 100
  | Normalizer.Float (Normalizer.Finite q) => (0 <= q /\ q <= 100)%Q
  | Normalizer.Float (Normalizer.Infinity _) => False
  | Normalizer.Float Normalizer.NaN => False
  end.

(** Some percentage field holds a value outside [0, 100]. *)
Definition percentage_out_of_range (r : Normalizer.NormalizedStats) : Prop :=
  exists st k x,
    Normalizer.stats r = Some st /\ k ∈ Normalizer.percentages /\
    st !! k = Some (Normalizer.Num x) /\ ~ within_percent x.

(** Some percentage field compares below 0 or above 100. *)
Definition percentage_rejected (r : Normalizer.NormalizedStats) : Prop :=
  exists st k x,
    Normalizer.stats r = Some st /\ k ∈ Normalizer.percentages /\
    st !! k = Some (Normalizer.Num x) /\ Normalizer.out_of_range x = true.

(** Some percentage field holds NaN. *)
Definition percentage_nan (r : Normalizer.NormalizedStats) : Prop :=
  exists st k,
    Normalizer.stats r = Some st /\ k ∈ Normalizer.percentages /\
    st !! k = Some (Normalizer.Num (Normalizer.Float Normalizer.NaN)).

(** The URLs of a submission the Dedup Store already knows, and the
    others, in the order of the list. *)
Definition known (st : MongoDBStorage) (urls : list string) : list string :=
  filter (fun u => url_exists st u = true) urls.

Definition fresh (st : MongoDBStorage) (urls : list string) : list string :=
  filter (fun u => url_exists st u = false) urls.

(** The messages of a manager's producer that the broker writes, on all
    topics. *)
Definition published (m : KafkaURLManager) : list (string * Message) :=
  match producer m with
  | Some p => sent p
  | None => []
  end.

(** Those of them still waiting in the producer's buffer. *)
Definition unacknowledged (m : KafkaURLManager) : list (string * Message) :=
  match producer m with
  | Some p => in_flight p
  | None => []
  end.


(** The Task a URL is published as. *)
Definition task_of (m : KafkaURLManager) (md : option (gmap string value))
    (url : string) : string * Message :=
  (scraping_topic m, TaskMsg url (or_else md ∅) 0).

(** A submission counts the known URLs as skipped and publishes exactly
    the others as Tasks, counting them as submitted. *)
Definition publishes_exactly_fresh (o : Orchestrator.JobOrchestrator)
    (urls : list string) (md : option (gmap string value)) : Prop :=
  let r := fst (Orchestrator.submit_scraping_job o urls md) in
  let o' := snd (Orchestrator.submit_scraping_job o urls md) in
  Orchestrator.skipped r = length (known (Orchestrator.storage o) urls) /\
  Orchestrator.submitted r = length (fresh (Orchestrator.storage o) urls) /\
  published (Orchestrator.url_manager o')
  = published (Orchestrator.url_manager o)
    ++ (task_of (Orchestrator.url_manager o) md <$> fresh (Orchestrator.storage o) urls).

(** The loop of [get_pending_count] raises [e] on the partitions still
    to visit: at the first of them whose committed offset the broker
    refuses, or whose end offset is missing. *)
Inductive loop_raises (c : KafkaConsumer) (offsets : gmap nat Z)
  : list nat -> exn -> Prop :=
| committed_raises tp rest e :
    committed c tp = Raise e ->
    loop_raises c offsets (tp :: rest) e
| end_offset_missing tp rest co :
    committed c tp = Ok co -> offsets !! tp = None ->
    loop_raises c offsets (tp :: rest) (KeyError "TopicPartition")
| later_raises tp rest co end_offset e :
    committed c tp = Ok co -> offsets !! tp = Some end_offset ->
    loop_raises c offsets rest e ->
    loop_raises c offsets (tp :: rest) e.

(** Querying the broker for the backlog raises [e]: the broker is not
    there, or one of the calls made on the consumer fails. *)
Inductive query_raises (m : KafkaURLManager) : exn -> Prop :=
| broker_unavailable e :
    connect m = Raise e ->
    query_raises m e
| partitions_raise c e :
    connect m = Ok c ->
    partitions_for_topic c (scraping_topic m) = Raise e ->
    query_raises m e
| close_raises_without_partitions c ps e :
    connect m = Ok c ->
    partitions_for_topic c (scraping_topic m) = Ok ps ->
    ps = None \/ ps = Some [] ->
    close c = Raise e ->
    query_raises m e
| assign_raises c tp tps e :
    connect m = Ok c ->
    partitions_for_topic c (scraping_topic m) = Ok (Some (tp :: tps)) ->
    assign c (tp :: tps) = Raise e ->
    query_raises m e
| end_offsets_raise c tp tps u e :
    connect m = Ok c ->
    partitions_for_topic c (scraping_topic m) = Ok (Some (tp :: tps)) ->
    assign c (tp :: tps) = Ok u ->
    end_offsets c (tp :: tps) = Raise e ->
    query_raises m e
| offsets_raise c tp tps u offsets e :
    connect m = Ok c ->
    partitions_for_topic c (scraping_topic m) = Ok (Some (tp :: tps)) ->
    assign c (tp :: tps) = Ok u ->
    end_offsets c (tp :: tps) = Ok offsets ->
    loop_raises c offsets (tp :: tps) e ->
    query_raises m e
| close_raises c tp tps u offsets pending e :
    connect m = Ok c ->
    partitions_for_topic c (scraping_topic m) = Ok (Some (tp :: tps)) ->
    assign c (tp :: tps) = Ok u ->
    end_offsets c (tp :: tps) = Ok offsets ->
    pending_loop c offsets (tp :: tps) 0 = Ok pending ->
    close c = Raise e ->
    query_raises m e.

(** A consumer of a reachable broker whose only partition is read to
    its end: an empty backlog. *)
Definition drained_consumer : KafkaConsumer :=
  {| partitions_for_topic := fun _ => Ok (Some [0%nat]);
     assign := fun _ => Ok tt;
     end_offsets := fun _ => Ok {[ 0%nat := 7 ]};
     committed := fun _ => Ok (Some 7);
     close := Ok tt |}.

(** The same manager in front of that broker. *)
Definition drained (m : KafkaURLManager) : KafkaURLManager :=
  {| scraping_topic := scraping_topic m; results_topic := results_topic m;
     producer := producer m; connect := Ok drained_consumer |}.

(** The same world with another queue at every reading. *)
Definition map_queue (f : KafkaURLManager -> KafkaURLManager)
    (w : Orchestrator.World) : Orchestrator.World :=
  fun n =>
    {| Orchestrator.elapsed := Orchestrator.elapsed (w n);
       Orchestrator.queue := f (Orchestrator.queue (w n));
       Orchestrator.database := Orchestrator.database (w n) |}.

(** What the [n]-th poll of the monitor observes: the backlog, the
    persisted-record count (absent when the database does not answer),
    and the count of the observation before it, 0 before the first. *)
Definition pending_at (w : Orchestrator.World) (n : nat) : Z :=
  get_pending_count (Orchestrator.queue (w n)).

Definition count_at (w : Orchestrator.World) (n : nat) : option Z :=
  get_stats_count (Orchestrator.database (w n)) !! "processed_stats_count".

Definition last_count_at (w : Orchestrator.World) (n : nat) : Z :=
  match n with
  | O => 0
  | S k => or_else (count_at w k) 0
  end.

(** At observation [n] the backlog is zero and the count has increased
    since the observation before. *)
Definition appears_complete (w : Orchestrator.World) (n : nat) : Prop :=
  pending_at w n = 0 /\
  exists c, count_at w n = Some c /\ last_count_at w n < c.

(** Observation [k] is the last one the monitor makes: every reading up
    to it is before the deadline, no earlier observation appears
    complete, and either [k] does or the deadline has passed at the
    next reading. *)
Definition last_observation (w : Orchestrator.World) (timeout : Z) (k : nat)
  : Prop :=
  (forall j, (j <= k)%nat -> Orchestrator.elapsed (w j) < timeout) /\
  (forall j, (j < k)%nat -> ~ appears_complete w j) /\
  (appears_complete w k \/
   (~ appears_complete w k /\ timeout <= Orchestrator.elapsed (w (S k)))).

(** The status as the spec words it: 'completed' exactly when some
    observation made before the deadline appears complete, 'timeout' in
    every other case. *)
Definition status_as_stated (w : Orchestrator.World) (timeout : Z)
    (r : Orchestrator.Progress) : Prop :=
  (Orchestrator.progress_status r = "completed" <->
   exists n, Orchestrator.elapsed (w n) < timeout /\ appears_complete w n) /\
  (~ (exists n, Orchestrator.elapsed (w n) < timeout /\ appears_complete w n) ->
   Orchestrator.progress_status r = "timeout").

(** The fetch of attempt [i] succeeds: [run_spider] returns a dictionary
    whose status is 'success'. *)
Definition fetch_ok (e : Scraper.Env) (i : nat) : bool :=
  match Scraper.run_spider e i with
  | Ok r => bool_decide (Scraper.spider_status r = Some "success")
  | Raise _ => false
  end.

(** Attempt [i] succeeds: the fetch does, and the page it brings has a
    length (the answer has no key 'html', or a string under it). *)
Definition attempt_ok (e : Scraper.Env) (i : nat) : bool :=
  match Scraper.run_spider e i with
  | Ok r => bool_decide (Scraper.spider_status r = Some "success")
            && bool_decide (Scraper.spider_html r ≠ Some None)
  | Raise _ => false
  end.

(** The fetch of attempt [i] succeeds with a page that is [None]. *)
Definition page_is_none (e : Scraper.Env) (i : nat) : bool :=
  match Scraper.run_spider e i with
  | Ok r => bool_decide (Scraper.spider_status r = Some "success")
            && bool_decide (Scraper.spider_html r = Some None)
  | Raise _ => false
  end.

(** The dead letters of a worker's database. *)
Definition dead_letters (s : Scraper.FaultTolerantScraper) : list DeadLetterDoc :=
  dead_letter_queue (Scraper.storage s).

(** One DeadLetterRecord for [url], with the retry count [n], was added
    between [s] and [s']. *)
Definition one_dead_letter (s s' : Scraper.FaultTolerantScraper) (url : string)
    (n : nat) : Prop :=
  exists doc,
    dead_letters s' = dead_letters s ++ [doc] /\
    dl_url doc = url /\ dl_retry_count doc = n.

(** Dead-letter exactness of one [scrape_with_retry] call: when every
    fetch fails there are exactly MAX_RETRIES calls of the spider and then
    one DeadLetterRecord with that retry count; when some fetch succeeds
    no DeadLetterRecord is written. *)
Definition dead_letter_exact (s : Scraper.FaultTolerantScraper) (e : Scraper.Env)
    (url : string) (md : option (gmap string value)) : Prop :=
  let n := Scraper.MAX_RETRIES (Scraper.retry_config s) in
  let s' := snd (Scraper.scrape_with_retry s e url md) in
  ((forall i, (i < n)%nat -> fetch_ok e i = false) ->
   Scraper.spider_calls s' = (Scraper.spider_calls s + n)%nat /\
   one_dead_letter s s' url n) /\
  ((exists i, (i < n)%nat /\ fetch_ok e i = true) ->
   dead_letters s' = dead_letters s).

(** The invariant of the worker's counters. *)
Definition stats_invariant (x : Scraper.Stats) : Prop :=
  Scraper.processed x = (Scraper.succeeded x + Scraper.failed x)%nat /\
  Scraper.failed x = Scraper.dead_lettered x.

(** The pages stored for a URL. *)
Definition pages (st : MongoDBStorage) (url : string) : list RawDoc :=
  filter (fun d => raw_url d = url) (raw_data st).

(** No URL has more than one stored page. *)
Definition at_most_one_page (st : MongoDBStorage) : Prop :=
  forall url, (length (pages st url) <= 1)%nat.

(** The natural key of a processed record, and the stores in which no two
    records share it. *)
Definition stats_key (d : ProcessedDoc) : string * string :=
  (doc_player_name d, doc_season_type d).



(** The fields of a scraped row that are not statistics, and the values
    that stand for a missing statistic. *)
Definition non_stat_fields : list string :=
  ["#"; "PLAYER"; "Player"; "stat_category"; "source_url"].

Definition placeholders : list string := [""; "-"; "N/A"].

(** A key without a space. *)
Definition spaceless (k : string) : Prop := Normalizer.contains " " k = false.

Section Rows.

Variable float : string -> option Normalizer.pyfloat.
Variable int : string -> option Z.
Variable round : Q -> nat -> Q.
Variable truediv : Normalizer.number -> Normalizer.number -> result Normalizer.pyfloat.
Variable lower title join_split : string -> string.
Variable isoformat : Z -> string.
Variable utcnow : Z.
Variable decode : option string -> result (list (list (string * string))).

(** The record the processor stores for a scraped row: none for a row
    without player or one that does not pass validation, else the
    normalized name and statistics. *)
Definition row_record (url : option string) (row : list (string * string))
  : option (string * gmap string Normalizer.stat_value) :=
  let name := Processor.get_player row in
  if decide (name = "") then None
  else
    let md : gmap string value :=
      match url with
      | Some u => {[ "season_type" := VStr "Regular Season"; "source_url" := VStr u ]}
      | None => {[ "season_type" := VStr "Regular Season" ]}
      end in
    let normalized :=
      Normalizer.normalize_player_stats float int round truediv lower title join_split
        isoformat name row (Some md) utcnow in
    if Normalizer.validate_stats normalized
    then Some (or_else (Normalizer.player_name normalized) "",
               or_else (Normalizer.stats normalized) ∅)
    else None.

(** The records of the rows of a page, and the database after storing
    them one after the other. *)
Definition records (url : option string) (data : list (list (string * string)))
  : list (string * gmap string Normalizer.stat_value) :=
  omap (row_record url) data.

Definition store_all (st : MongoDBStorage)
    (recs : list (string * gmap string Normalizer.stat_value)) : MongoDBStorage :=
  foldl (fun st r => snd (store_processed_stats st (fst r) (snd r)
                            "Regular Season" utcnow)) st recs.

(** The records of a fetch result: those of the rows of its stored
    page, none when the fetch failed, the page is missing or does not
    decode. *)
Definition job_records (st : MongoDBStorage) (r : Processor.FetchResult)
  : list (string * gmap string Normalizer.stat_value) :=
  if decide (Processor.result_status r ≠ Some "success") then []
  else
    match Processor.find_raw st (Processor.result_url r) with
    | Ok (Some raw_doc) =>
        match decode (raw_html_content raw_doc) with
        | Ok data => records (Processor.result_url r) data
        | Raise _ => []
        end
    | _ => []
    end.

End Rows.

End Spec.

(** * Concrete inputs *)

Module Sample.
Import Storage UrlManager Normalizer.

(** Built-ins that parse nothing, for statements that never reach them. *)
Definition no_float (_ : string) : option pyfloat := None.
Definition no_int (_ : string) : option Z := None.
Definition no_round (x : Q) (_ : nat) : Q := x.
Definition no_truediv (_ _ : number) : result pyfloat :=
  Raise (ZeroDivisionError "division by zero").

(** [float(s)] on the one string the example below gives it. *)
Definition float_nan (s : string) : option pyfloat :=
  if decide (s = "nan") then Some NaN else None.

(** [int(s)] on a string of decimal digits. *)
Definition int_of_digits (s : string) : option Z :=
  Z.of_uint <$> NilZero.uint_of_string s.

(** [x / y] on two [int]s, all that the example below divides: the
    quotient, or [OverflowError] when it is beyond the range of floats. *)
Definition int_truediv (x y : number) : result pyfloat :=
  match x, y with
  | Int a, Int b =>
      if b =? 0 then Raise (ZeroDivisionError "division by zero")
      else if 2 ^ 1024 <=? Z.abs a / Z.abs b
      then Raise (OverflowError "integer division result too large for a float")
      else Ok (Finite (inject_Z a / inject_Z b))
  | _, _ => Raise (TypeError "unsupported operand")
  end.

(** A row whose points are a 1 followed by 400 zeros. *)
Fixpoint zeros (n : nat) : string :=
  match n with
  | O => ""
  | S n => String "0" (zeros n)
  end.

Definition big_row : list (string * string) :=
  [("PLAYER", "Big Total"); ("GP", "1"); ("PTS", String "1" (zeros 400))].
Definition no_decode (_ : option string) : result (list (list (string * string))) :=
  Ok [].
Definition no_embed (_ : list NormalizedStats) : result (list Processor.Embedded) :=
  Ok [].

Definition empty_storage : MongoDBStorage :=
  {| online := true; unique_url_index := false; raw_data := [];
     processed_data := []; Storage.metadata := []; dead_letter_queue := [] |}.

Definition page (url : string) : RawDoc :=
  {| raw_url := url; raw_html_content := Some "{}"; raw_status := "success";
     raw_timestamp := 0; raw_metadata := ∅ |}.

(** A database that already holds the page of a.com/1. *)
Definition storage_with_a1 : MongoDBStorage :=
  {| online := true; unique_url_index := false; raw_data := [page "a.com/1"];
     processed_data := []; Storage.metadata := []; dead_letter_queue := [] |}.

(** A database that holds both pages. *)
Definition storage_with_both : MongoDBStorage :=
  {| online := true; unique_url_index := false;
     raw_data := [page "a.com/1"; page "a.com/2"];
     processed_data := []; Storage.metadata := []; dead_letter_queue := [] |}.

Definition no_broker : result KafkaConsumer :=
  Raise (KafkaError "NoBrokersAvailable").

(** A manager whose producer works and has published nothing yet. *)
Definition manager : KafkaURLManager :=
  {| scraping_topic := KAFKA_SCRAPING_TASKS_TOPIC;
     results_topic := KAFKA_SCRAPING_RESULTS_TOPIC;
     producer := Some {| sent := []; in_flight := []; send_faults := [] |};
     connect := no_broker |}.

(** A manager whose first send is acknowledged too late. *)
Definition manager_late : KafkaURLManager :=
  {| scraping_topic := KAFKA_SCRAPING_TASKS_TOPIC;
     results_topic := KAFKA_SCRAPING_RESULTS_TOPIC;
     producer := Some {| sent := []; in_flight := []; send_faults := [Late] |};
     connect := no_broker |}.

(** A manager whose constructor could not create the producer. *)
Definition manager_without_producer : KafkaURLManager :=
  {| scraping_topic := KAFKA_SCRAPING_TASKS_TOPIC;
     results_topic := KAFKA_SCRAPING_RESULTS_TOPIC;
     producer := None;
     connect := no_broker |}.

Definition two_urls : list string := ["a.com/1"; "a.com/2"].

Definition orchestrator : Orchestrator.JobOrchestrator :=
  {| Orchestrator.url_manager := manager;
     Orchestrator.storage := storage_with_a1 |}.

Definition orchestrator_done : Orchestrator.JobOrchestrator :=
  {| Orchestrator.url_manager := manager;
     Orchestrator.storage := storage_with_both |}.

Definition orchestrator_without_producer : Orchestrator.JobOrchestrator :=
  {| Orchestrator.url_manager := manager_without_producer;
     Orchestrator.storage := storage_with_a1 |}.

(** A database whose server does not answer. *)
Definition storage_offline : MongoDBStorage :=
  {| online := false; unique_url_index := false; raw_data := [];
     processed_data := []; Storage.metadata := []; dead_letter_queue := [] |}.

(** A spider that never gets the page, and one that gets it at the
    second attempt. *)
Definition always_failing : Scraper.Env :=
  {| Scraper.run_spider := fun _ => Raise (Exception "net::ERR_NAME_NOT_RESOLVED");
     Scraper.random := fun _ => (1 # 2)%Q;
     Scraper.utcnow := 0 |}.

Definition second_time_lucky : Scraper.Env :=
  {| Scraper.run_spider := fun i =>
       match i with
       | 1%nat => Ok {| Scraper.spider_status := Some "success";
                        Scraper.spider_html := Some (Some "<html></html>");
                        Scraper.spider_error := None |}
       | _ => Ok {| Scraper.spider_status := Some "error";
                    Scraper.spider_html := None;
                    Scraper.spider_error := Some (Some "timeout") |}
       end;
     Scraper.random := fun _ => (1 # 2)%Q;
     Scraper.utcnow := 0 |}.

(** A spider that answers {'status': 'success', 'html': None} at every
    attempt. *)
Definition page_none : Scraper.Env :=
  {| Scraper.run_spider := fun _ =>
       Ok {| Scraper.spider_status := Some "success";
             Scraper.spider_html := Some None;
             Scraper.spider_error := None |};
     Scraper.random := fun _ => (1 # 2)%Q;
     Scraper.utcnow := 0 |}.

Definition scraper : Scraper.FaultTolerantScraper :=
  Scraper.init "ft-scraper-1" manager empty_storage.

Definition scraper_offline : Scraper.FaultTolerantScraper :=
  Scraper.init "ft-scraper-1" manager storage_offline.

(** A world read every five seconds: the queue is drained and no
    record is ever persisted. *)
Definition idle_world : Orchestrator.World :=
  fun n =>
    {| Orchestrator.elapsed := 5 * Z.of_nat n;
       Orchestrator.queue := Spec.drained manager;
       Orchestrator.database := empty_storage |}.

(** The same clock and database behind a broker nobody can reach. *)
Definition unreachable_world : Orchestrator.World :=
  fun n =>
    {| Orchestrator.elapsed := 5 * Z.of_nat n;
       Orchestrator.queue := manager;
       Orchestrator.database := empty_storage |}.

Definition lebron : NormalizedStats :=
  {| player_name := Some "Lebron James";
     stats := Some {[ "field_goal_percentage" := Num (Float (Finite (505 # 10)));
                      "points" := Num (Int 40474) ]};
     stats_raw := Some [("FG%", "50.5"); ("PTS", "40,474")];
     metadata := Some ∅ |}.

Definition failed_fetch : Processor.FetchResult :=
  {| Processor.result_url := Some "a.com/1";
     Processor.result_status := Some "failed" |}.

Definition processor : Processor.ProcessorWorker :=
  {| Processor.worker_id := "processor-1";
     Processor.storage := empty_storage;
     Processor.vector_store := [] |}.

(** A consumer of a broker with three partitions: one committed, one
    never committed, one read to its end. *)
Definition three_partitions : KafkaConsumer :=
  {| partitions_for_topic := fun _ => Ok (Some [0; 1; 2]%nat);
     assign := fun _ => Ok tt;
     end_offsets := fun _ => Ok {[ 0%nat := 10; 1%nat := 4; 2%nat := 6 ]};
     committed := fun tp =>
       match tp with
       | 0%nat => Ok (Some 7)
       | 1%nat => Ok None
       | _ => Ok (Some 6)
       end;
     close := Ok tt |}.

Definition manager_three_partitions : KafkaURLManager :=
  {| scraping_topic := KAFKA_SCRAPING_TASKS_TOPIC;
     results_topic := KAFKA_SCRAPING_RESULTS_TOPIC;
     producer := None;
     connect := Ok three_partitions |}.

(** A callback that counts the tasks it is given and raises on every
    other kind of message. *)
Definition counting_callback (m : Message) (n : nat) : result unit * nat :=
  match m with
  | TaskMsg _ _ _ => (Ok tt, S n)
  | _ => (Raise (Exception "not a task"), n)
  end.

Definition some_messages : list Message :=
  [ TaskMsg "a.com/1" ∅ 0; DeadLetterMsg "a.com/9" "boom" 0;
    TaskMsg "a.com/2" ∅ 0; TaskMsg "a.com/3" ∅ 0 ].

(** A world whose database stops answering at the second reading. *)
Definition failing_world : Orchestrator.World :=
  fun n =>
    {| Orchestrator.elapsed := 5 * Z.of_nat n;
       Orchestrator.queue := manager_three_partitions;
       Orchestrator.database :=
         match n with
         | O => empty_storage
         | _ => storage_offline
         end |}.

(** A database that holds one processed record from an earlier job. *)
Definition storage_with_record : MongoDBStorage :=
  {| online := true; unique_url_index := false; raw_data := [];
     processed_data :=
       [ {| doc_player_name := "Lebron James"; doc_stats := ∅;
            doc_season_type := "Regular Season"; doc_scraped_at := 0 |} ];
     Storage.metadata := []; dead_letter_queue := [] |}.

Definition stale_world : Orchestrator.World :=
  fun n =>
    {| Orchestrator.elapsed := 5 * Z.of_nat n;
       Orchestrator.queue := Spec.drained manager;
       Orchestrator.database := storage_with_record |}.

(** A row of the leaders table in which no statistic is filled in. *)
Definition blank_row : list (string * string) :=
  [("#", "1"); ("PLAYER", "LeBron James"); ("GP", "-"); ("PTS", "N/A"); ("FG%", "")].

(** Built-ins and collaborators for one page with one row. *)
Definition int_of_points (v : string) : option Z :=
  if decide (v = "40474") then Some 40474 else None.

Definition one_row_page (_ : option string)
  : result (list (list (string * string))) :=
  Ok [ [("PLAYER", "LeBron James"); ("PTS", "40,474")] ].

Definition successful_fetch : Processor.FetchResult :=
  {| Processor.result_url := Some "a.com/1";
     Processor.result_status := Some "success" |}.

Definition processor_with_page : Processor.ProcessorWorker :=
  {| Processor.worker_id := "processor-1";
     Processor.storage := storage_with_a1;
     Processor.vector_store := [] |}.

End Sample.

(** * Theorems *)

(** ** Backoff *)

Section BackoffFacts.
Import Scraper.

Lemma base_delay_default (attempt : nat) :
  base_delay defaults attempt = Z.min (5 * 2 ^ Z.of_nat attempt) 300.
Proof. reflexivity. Qed.

Lemma base_delay_mono (a b : nat) :
  (a <= b)%nat -> base_delay defaults a <= base_delay defaults b.
Proof.
  intros Hab. rewrite !base_delay_default.
  apply Z.min_le_compat_r.
  apply Z.mul_le_mono_nonneg_l; [lia|].
  apply Z.pow_le_mono_r; lia.
Qed.

Lemma base_delay_capped (a : nat) :
  base_delay defaults a <= MAX_BACKOFF defaults.
Proof. rewrite base_delay_default. cbn. lia. Qed.

Lemma base_delay_nonneg (a : nat) : 0 <= base_delay defaults a.
Proof.
  rewrite base_delay_default.
  apply Z.min_glb; [|lia].
  apply Z.mul_nonneg_nonneg; [lia|]. apply Z.pow_nonneg. lia.
Qed.

Lemma jitter_range (d : Z) (u : Q) :
  0 <= d -> (0 <= u)%Q -> (u < 1)%Q ->
  (0 <= jitter d u)%Q /\ (jitter d u <= (1 # 10) * inject_Z d)%Q.
Proof.
  intros Hd Hu0 Hu1. unfold jitter, uniform.
  assert (Hb : (0 <= inject_Z d)%Q).
  { change 0%Q with (inject_Z 0). rewrite <- Zle_Qle. exact Hd. }
  generalize dependent (inject_Z d). intros b Hb. split; nra.
Qed.

(** C3. With the default constants MAX_RETRIES = 3, INITIAL_BACKOFF = 5,
    BACKOFF_MULTIPLIER = 2 and MAX_BACKOFF = 300, for attempts
    [attempt <= next] below MAX_RETRIES the base delay
    [min(INITIAL_BACKOFF * MULTIPLIER^attempt, MAX_BACKOFF)] does not
    decrease from [attempt] to [next], never exceeds MAX_BACKOFF, and the
    delay [exponential_backoff] returns is that base plus a jitter
    between 0 and a tenth of the base. *)
Theorem exponential_backoff_spec (attempt next : nat) (u : Q) :
  (attempt <= next)%nat -> (next < MAX_RETRIES defaults)%nat ->
  (0 <= u)%Q -> (u < 1)%Q ->
  (MAX_RETRIES defaults = 3%nat /\ INITIAL_BACKOFF defaults = 5 /\
   BACKOFF_MULTIPLIER defaults = 2 /\ MAX_BACKOFF defaults = 300) /\
  base_delay defaults attempt
    = Z.min (INITIAL_BACKOFF defaults * BACKOFF_MULTIPLIER defaults ^ Z.of_nat attempt)
            (MAX_BACKOFF defaults) /\
  base_delay defaults attempt <= base_delay defaults next /\
  base_delay defaults next <= MAX_BACKOFF defaults /\
  exists j : Q,
    exponential_backoff defaults attempt u
      = (inject_Z (base_delay defaults attempt) + j)%Q /\
    (0 <= j)%Q /\ (j <= (1 # 10) * inject_Z (base_delay defaults attempt))%Q.
Proof.
  intros Hle Hlt Hu0 Hu1.
  split; [repeat split|].
  split; [reflexivity|].
  split; [apply base_delay_mono; exact Hle|].
  split; [apply base_delay_capped|].
  exists (jitter (base_delay defaults attempt) u).
  split; [reflexivity|].
  apply jitter_range; [apply base_delay_nonneg | exact Hu0 | exact Hu1].
Qed.

Lemma exponential_backoff_spec_witness :
  base_delay defaults 1 <= base_delay defaults 2 /\
  base_delay defaults 2 <= MAX_BACKOFF defaults.
Proof.
  assert (H1 : (1 <= 2)%nat) by lia.
  assert (H2 : (2 < MAX_RETRIES defaults)%nat) by (simpl; lia).
  assert (H3 : (0 <= 1 # 2)%Q) by (vm_compute; discriminate).
  assert (H4 : (1 # 2 < 1)%Q) by reflexivity.
  destruct (exponential_backoff_spec 1 2 (1 # 2) H1 H2 H3 H4)
    as (_ & _ & Hmono & Hcap & _).
  split; [exact Hmono | exact Hcap].
Defined.

(** The delays of the three attempts, before jitter. *)
Example base_delays :
  base_delay defaults <$> seq 0 (MAX_RETRIES defaults) = [5; 10; 20].
Proof. reflexivity. Qed.

End BackoffFacts.

(** ** Validation of normalized records *)

Section NormalizerFacts.
Import Normalizer Spec.

(** The range test rejects exactly the numbers outside [0, 100] other
    than NaN, with which every comparison is false. *)
Lemma out_of_range_iff (x : number) :
  out_of_range x = true <-> ~ within_percent x /\ x ≠ Float NaN.
Proof.
  unfold out_of_range. destruct x as [n|[q|negative|]]; simpl.
  - rewrite orb_true_iff, !Z.ltb_lt. split.
    + intros H. split; [lia | discriminate].
    + intros [H _]. lia.
  - rewrite orb_true_iff, !negb_true_iff.
    change (inject_Z 0) with 0%Q. change (inject_Z 100) with 100%Q.
    destruct (Qle_bool 0 q) eqn:H0; destruct (Qle_bool q 100) eqn:H1.
    + apply Qle_bool_iff in H0, H1.
      split; [intros [?|?]; discriminate | intros [H _]; tauto].
    + split; [intros _|auto].
      split; [intros [_ H]; apply Qle_bool_iff in H; congruence | discriminate].
    + split; [intros _|auto].
      split; [intros [H _]; apply Qle_bool_iff in H; congruence | discriminate].
    + split; [intros _|auto].
      split; [intros [H _]; apply Qle_bool_iff in H; congruence | discriminate].
  - destruct negative; simpl; (split; [intros _; split; [tauto | discriminate] | reflexivity]).
  - split; [discriminate | intros [_ H]; congruence].
Qed.

(** The loop over the percentage keys answers, and answers [False]
    exactly when one of them is out of range, as long as what it compares
    are numbers. *)
Lemma check_percentages_spec (keys : list string) (st : gmap string stat_value) :
  (forall k v, k ∈ keys -> st !! k = Some v -> exists q, v = Num q) ->
  exists b,
    check_percentages keys st = Ok b /\
    (b = false <->
     exists k q, k ∈ keys /\ st !! k = Some (Num q) /\ out_of_range q = true).
Proof.
  induction keys as [|key rest IH]; intros Hnum; simpl.
  - exists true. split; [reflexivity|].
    split; [discriminate | intros (k & q & Hk & _); inversion Hk].
  - destruct IH as (b & Hb & Hiff).
    { intros k v Hk. apply Hnum. right. exact Hk. }
    destruct (st !! key) as [v|] eqn:Hlook.
    + destruct (Hnum key v) as [q ->]; [left | exact Hlook |].
      destruct (out_of_range q) eqn:Hq.
      * exists false. split; [reflexivity|].
        split; [|reflexivity]. intros _. exists key, q.
        split; [left | split; assumption].
      * exists b. split; [exact Hb|]. rewrite Hiff.
        split; intros (k & q' & Hk & Hl & Ho); exists k, q'.
        -- split; [right; exact Hk | split; assumption].
        -- apply elem_of_cons in Hk as [->|Hk].
           ++ rewrite Hlook in Hl. injection Hl as <-. congruence.
           ++ split; [exact Hk | split; assumption].
    + exists b. split; [exact Hb|]. rewrite Hiff.
      split; intros (k & q' & Hk & Hl & Ho); exists k, q'.
      * split; [right; exact Hk | split; assumption].
      * apply elem_of_cons in Hk as [->|Hk]; [congruence|].
        split; [exact Hk | split; assumption].
Qed.

Lemma per_game_not_percentage : "per_game" ∉ percentages.
Proof.
  intros H. apply list_elem_of_In in H. simpl in H. intuition discriminate.
Qed.

(** What [normalize_player_stats] returns has the shape the validation
    expects, whatever the built-ins answer. *)
Lemma normalize_player_stats_shape float int round truediv lower title join_split
    isoformat name row md now :
  normalized_shape
    (normalize_player_stats float int round truediv lower title join_split isoformat
       name row md now).
Proof.
  unfold normalized_shape, normalize_player_stats, normalize_player_stats_try.
  destruct (normalize_loop _ _ _ _ _ _ _) as [raw nums].
  intros st k v Hst Hk Hne.
  destruct (nums !! "games_played") as [games|].
  - destruct (_calculate_per_game_stats round truediv nums) as [per_game|x];
      simpl in Hst; [|discriminate].
    injection Hst as <-.
    rewrite lookup_insert_ne in Hk by congruence.
    rewrite lookup_fmap in Hk. destruct (nums !! k) as [q|]; [|discriminate].
    injection Hk as <-. exists q. reflexivity.
  - simpl in Hst. injection Hst as <-.
    rewrite lookup_fmap in Hk. destruct (nums !! k) as [q|]; [|discriminate].
    injection Hk as <-. exists q. reflexivity.
Qed.

(** What [validate_stats] decides on a normalized record: it returns
    False exactly when the canonical key is empty, the normalized field
    set is empty, or one of the percentage fields compares below 0 or
    above 100. *)
Lemma validate_stats_compares (r : NormalizedStats) :
  normalized_shape r ->
  (validate_stats r = false <->
   key_empty r \/ fields_empty r \/ percentage_rejected r).
Proof.
  intros Hshape.
  unfold validate_stats, validate_stats_try, key_empty, fields_empty,
    percentage_rejected.
  destruct (player_name r) as [[|c name]|] eqn:Hname.
  - split; [intros _; left; right; reflexivity | reflexivity].
  - destruct (stats r) as [st|] eqn:Hstats.
    + destruct (decide (st = ∅)) as [->|Hne].
      * split; [intros _; right; left; right; reflexivity | reflexivity].
      * destruct (check_percentages_spec percentages st) as (b & -> & Hiff).
        { intros k v Hk Hl. apply (Hshape st k v); [exact Hstats | exact Hl |].
          intros ->. exact (per_game_not_percentage Hk). }
        rewrite Hiff. split.
        -- intros (k & q & Hk & Hl & Ho). right. right. exists st, k, q. auto.
        -- intros [[?|?]|[[?|?]|(st' & k & q & Hs & Hk & Hl & Ho)]];
             try congruence.
           injection Hs as <-. exists k, q. auto.
    + split; [intros _; right; left; left; reflexivity | reflexivity].
  - split; [intros _; left; left; reflexivity | reflexivity].
Qed.

(** As long as no percentage field holds NaN, the percentage fields that
    are rejected are those outside [0, 100]. *)
Lemma validate_stats_without_nan (r : NormalizedStats) :
  normalized_shape r -> ~ percentage_nan r ->
  (validate_stats r = false <->
   key_empty r \/ fields_empty r \/ percentage_out_of_range r).
Proof.
  intros Hshape Hnan. rewrite (validate_stats_compares r Hshape).
  assert (Hiff : percentage_rejected r <-> percentage_out_of_range r).
  { unfold percentage_rejected, percentage_out_of_range.
    split; intros (st & k & x & Hst & Hk & Hl & Hx); exists st, k, x.
    - apply out_of_range_iff in Hx as [Hx _]. auto.
    - repeat split; try assumption. apply out_of_range_iff.
      split; [exact Hx|]. intros ->. apply Hnan. exists st, k. auto. }
  rewrite Hiff. reflexivity.
Qed.

(** A percentage that reads 'nan' is normalized to NaN. *)
Lemma normalize_stat_value_nan (float : string -> option pyfloat)
    (int : string -> option Z) (round : Q -> nat -> Q) :
  float "nan" = Some NaN ->
  _normalize_stat_value float int round "FG%" "nan" = Some (Float NaN).
Proof.
  intros Hfloat. unfold _normalize_stat_value.
  destruct (decide ("nan" = "" \/ "nan" = "-" \/ "nan" = "N/A")) as [H|_];
    [destruct H as [H|[H|H]]; discriminate H|].
  change (remove "," "nan") with "nan".
  change (contains "%" "FG%") with true.
  cbn [orb]. change (remove "%" "nan") with "nan".
  rewrite Hfloat. reflexivity.
Qed.

(** C7. [validate_stats] accepts a percentage that is NaN. The row
    {'FG%': 'nan'} of a named player is normalized to a record whose
    field_goal_percentage is NaN ([float('nan')] parses and [round] leaves
    it as it is); NaN is not a value of [0, 100], yet both comparisons of
    the range test are false of it and [validate_stats] returns True. *)
Theorem validate_stats_accepts_nan float int round truediv lower title join_split
    isoformat (name : string) (md : option (gmap string value)) (now : Z) :
  float "nan" = Some NaN ->
  _normalize_player_name title join_split name ≠ "" ->
  let r := normalize_player_stats float int round truediv lower title join_split
             isoformat name [("FG%", "nan")] md now in
  stats r = Some {[ "field_goal_percentage" := Num (Float NaN) ]} /\
  percentage_out_of_range r /\
  ~ (key_empty r \/ fields_empty r) /\
  validate_stats r = true.
Proof.
  intros Hfloat Hname r.
  assert (Hr : r = {| player_name := Some (_normalize_player_name title join_split name);
                      stats := Some {[ "field_goal_percentage" := Num (Float NaN) ]};
                      stats_raw := Some [("FG%", "nan")];
                      metadata := Normalizer.metadata r |}).
  { subst r. unfold normalize_player_stats, normalize_player_stats_try.
    cbn [normalize_loop].
    rewrite (bool_decide_eq_false_2
               ("FG%" ∈ ["#"; "PLAYER"; "Player"; "stat_category"; "source_url"]))
      by (intros H; repeat (apply elem_of_cons in H as [H|H]; [discriminate H|]);
          inversion H).
    rewrite (normalize_stat_value_nan float int round Hfloat).
    change (STAT_MAPPING !! "FG%") with (Some "field_goal_percentage").
    cbn [or_else app].
    rewrite lookup_insert_ne by discriminate. rewrite lookup_empty.
    cbn [mbind result_bind Normalizer.metadata].
    rewrite insert_empty, map_fmap_singleton. reflexivity. }
  assert (Hstats : stats r = Some {[ "field_goal_percentage" := Num (Float NaN) ]})
    by (rewrite Hr; reflexivity).
  assert (Hpct : "field_goal_percentage" ∈ percentages) by (left).
  assert (Hshape : normalized_shape r)
    by (subst r; apply normalize_player_stats_shape).
  clearbody r.
  split; [exact Hstats|]. split.
  { exists {[ "field_goal_percentage" := Num (Float NaN) ]},
           "field_goal_percentage", (Float NaN).
    split; [exact Hstats|]. split; [exact Hpct|].
    split; [apply lookup_singleton_eq | simpl; tauto]. }
  split.
  { unfold key_empty, fields_empty. rewrite Hstats, Hr. cbn [player_name].
    intros [[H|H]|[H|H]];
      first [ discriminate H
            | apply (inj Some) in H;
              first [contradiction | exact (map_non_empty_singleton _ _ H)] ]. }
  destruct (validate_stats r) eqn:Hv; [reflexivity|]. exfalso.
  apply (validate_stats_compares r Hshape) in Hv.
  destruct Hv as [[H|H]|[[H|H]|(st & k & x & Hst & Hk & Hl & Hx)]].
  - rewrite Hr in H. discriminate H.
  - rewrite Hr in H. cbn [player_name] in H. injection H as H. contradiction.
  - rewrite Hstats in H. discriminate H.
  - rewrite Hstats in H. apply (inj Some) in H.
    exact (map_non_empty_singleton _ _ H).
  - rewrite Hstats in Hst. apply (inj Some) in Hst. subst st.
    apply lookup_singleton_Some in Hl as [_ Hl]. injection Hl as <-.
    discriminate Hx.
Qed.

Lemma validate_stats_accepts_nan_witness :
  validate_stats
    (normalize_player_stats Sample.float_nan Sample.no_int Sample.no_round
       Sample.no_truediv id id id (fun _ => "") "LeBron James" [("FG%", "nan")]
       None 0) = true.
Proof.
  assert (Hfloat : Sample.float_nan "nan" = Some NaN) by reflexivity.
  assert (Hname : _normalize_player_name id id "LeBron James" ≠ "")
    by (simpl; discriminate).
  exact (proj2 (proj2 (proj2
    (validate_stats_accepts_nan Sample.float_nan Sample.no_int Sample.no_round
       Sample.no_truediv id id id (fun _ => "") "LeBron James" None 0
       Hfloat Hname)))).
Defined.

Example lebron_is_valid : validate_stats Sample.lebron = true.
Proof. vm_compute. reflexivity. Qed.

Example empty_dict_is_invalid : validate_stats empty_dict = false.
Proof. reflexivity. Qed.

End NormalizerFacts.

(** ** The processor's guard *)

Section ProcessorFacts.
Import Processor.

(** C6. For every FetchResult whose status is not 'success', the
    processor worker answers 'skipped' and leaves the worker, its
    database included, as it was: no record is normalized, validated or
    upserted, whatever the collaborators would have answered. *)
Theorem process_scraped_data_skips float int round truediv lower title join_split
    isoformat decode embed_players_batch add_embeddings_ok utcnow
    (w : ProcessorWorker) (result : FetchResult) :
  result_status result ≠ Some "success" ->
  process_scraped_data float int round truediv lower title join_split isoformat
    decode embed_players_batch add_embeddings_ok utcnow w result
  = (Skipped (result_url result) "scraping_failed" (worker_id w), w)
  /\ outcome_status
       (fst (process_scraped_data float int round truediv lower title join_split
               isoformat decode embed_players_batch add_embeddings_ok utcnow
               w result)) = "skipped"
  /\ Storage.processed_data
       (storage (snd (process_scraped_data float int round truediv lower title
                        join_split isoformat decode embed_players_batch
                        add_embeddings_ok utcnow w result)))
     = Storage.processed_data (storage w).
Proof.
  intros Hstatus. unfold process_scraped_data.
  destruct (decide (result_status result ≠ Some "success")) as [_|Hno];
    [|contradiction].
  repeat split; reflexivity.
Qed.

Lemma process_scraped_data_skips_witness :
  outcome_status
    (fst (process_scraped_data Sample.no_float Sample.no_int Sample.no_round Sample.no_truediv
            id id id (fun _ => "") Sample.no_decode Sample.no_embed true 0
            Sample.processor Sample.failed_fetch)) = "skipped".
Proof.
  assert (H : result_status Sample.failed_fetch ≠ Some "success")
    by (simpl; discriminate).
  exact (proj1 (proj2
    (process_scraped_data_skips Sample.no_float Sample.no_int Sample.no_round Sample.no_truediv
       id id id (fun _ => "") Sample.no_decode Sample.no_embed true 0
       Sample.processor Sample.failed_fetch H))).
Defined.

End ProcessorFacts.

(** ** Submission *)

Section SubmissionFacts.
Import Storage UrlManager Orchestrator Spec.

Lemma filter_loop_spec (st : MongoDBStorage) (urls acc : list string) (n : nat) :
  filter_loop st urls acc n
  = (acc ++ fresh st urls, (n + length (known st urls))%nat).
Proof.
  revert acc n. induction urls as [|url rest IH]; intros acc n; simpl.
  - rewrite app_nil_r. f_equal. lia.
  - unfold fresh, known in *. rewrite !filter_cons.
    destruct (url_exists st url) eqn:Hex.
    + rewrite IH.
      destruct (decide (true = true)); [|congruence].
      destruct (decide (true = false)); [congruence|].
      simpl. f_equal. lia.
    + rewrite IH.
      destruct (decide (false = true)); [congruence|].
      destruct (decide (false = false)); [|congruence].
      simpl. rewrite <- (assoc_L (++)). simpl. reflexivity.
Qed.

Lemma known_all (st : MongoDBStorage) (urls : list string) :
  Forall (fun u => url_exists st u = true) urls ->
  known st urls = urls /\ fresh st urls = [].
Proof.
  intros Hall. unfold known, fresh.
  induction Hall as [|u rest Hu _ [IHk IHf]]; [split; reflexivity|].
  rewrite !filter_cons, Hu.
  destruct (decide (true = true)); [|congruence].
  destruct (decide (true = false)); [congruence|].
  rewrite IHk, IHf. split; reflexivity.
Qed.

(** The dictionary of the 'no_new_urls' answer. *)
Lemma submit_nothing_fresh (o : JobOrchestrator) (urls : list string)
    (md : option (gmap string value)) :
  fresh (storage o) urls = [] ->
  submit_scraping_job o urls md
  = ({| status := "no_new_urls"; total_urls := length urls;
        skipped := length (known (storage o) urls); submitted := 0;
        new_urls := None |}, o).
Proof.
  intros Hfresh. unfold submit_scraping_job.
  rewrite filter_loop_spec, Hfresh. reflexivity.
Qed.

(** C5. When every URL of the list already exists in the Dedup Store,
    [submit_scraping_job] returns normally with status 'no_new_urls',
    submitted = 0 and skipped equal to the length of the list, and leaves
    the orchestrator, its queue included, as it was: nothing is
    published. So a list whose pages are all stored is resubmitted with
    submitted = 0. *)
Theorem submit_all_known (o : JobOrchestrator) (urls : list string)
    (md : option (gmap string value)) :
  Forall (fun u => url_exists (storage o) u = true) urls ->
  submit_scraping_job o urls md
  = ({| status := "no_new_urls"; total_urls := length urls;
        skipped := length urls; submitted := 0; new_urls := None |}, o)
  /\ published (url_manager (snd (submit_scraping_job o urls md)))
     = published (url_manager o).
Proof.
  intros Hall. destruct (known_all _ _ Hall) as [Hk Hf].
  rewrite (submit_nothing_fresh o urls md Hf), Hk.
  split; reflexivity.
Qed.

Lemma submit_all_known_witness :
  submitted (fst (submit_scraping_job Sample.orchestrator_done Sample.two_urls None))
  = 0%nat.
Proof.
  assert (H : Forall (fun u => url_exists (storage Sample.orchestrator_done) u = true)
                Sample.two_urls).
  { repeat constructor. }
  rewrite (proj1 (submit_all_known Sample.orchestrator_done Sample.two_urls None H)).
  reflexivity.
Defined.

(** While the database answers, the known URLs are those with a stored
    page; when it does not, no URL is known. *)
Lemma url_exists_online (st : MongoDBStorage) (url : string) :
  online st = true ->
  (url_exists st url = true <-> exists d, d ∈ raw_data st /\ raw_url d = url).
Proof.
  intros Hon. unfold url_exists, count_documents_url. rewrite Hon.
  rewrite bool_decide_eq_true. split.
  - intros Hlen.
    destruct (filter (fun d => raw_url d = url) (raw_data st)) as [|d l] eqn:Hf;
      [simpl in Hlen; lia|].
    assert (Hd : d ∈ filter (fun d => raw_url d = url) (raw_data st))
      by (rewrite Hf; left).
    apply list_elem_of_filter in Hd as [Hurl Hin]. exists d. auto.
  - intros (d & Hin & Hurl).
    assert (Hd : d ∈ filter (fun d => raw_url d = url) (raw_data st))
      by (apply list_elem_of_filter; auto).
    destruct (filter _ _); [inversion Hd | simpl; lia].
Qed.

Lemma url_exists_offline (st : MongoDBStorage) (url : string) :
  online st = false -> url_exists st url = false.
Proof.
  intros Hoff. unfold url_exists, count_documents_url. rewrite Hoff. reflexivity.
Qed.


(** A producer stays in place through the batch loop, and the final
    [flush] changes nothing of what the broker writes. *)
Lemma submit_url_producer (m : KafkaURLManager) url md prio (p : KafkaProducer) :
  producer m = Some p ->
  exists p', producer (snd (submit_url m url md prio)) = Some p'.
Proof.
  intros Hp. unfold submit_url. rewrite Hp.
  destruct (send_and_get p (scraping_topic m) _) as [[u|x] p']; simpl; eauto.
Qed.

Lemma submit_loop_producer (urls : list string) (md : option (gmap string value)) :
  forall (m : KafkaURLManager) (p : KafkaProducer) (n : nat),
    producer m = Some p ->
    exists p', producer (snd (submit_loop m urls md n)) = Some p'.
Proof.
  induction urls as [|url rest IH]; intros m p n Hp; simpl; [eauto|].
  destruct (submit_url_producer m url md 0 p Hp) as (p1 & Hp1).
  destruct (submit_url m url md 0) as [[|] m1]; simpl in Hp1; eauto.
Qed.

Lemma submit_urls_batch_flush (m : KafkaURLManager) (urls : list string)
    (md : option (gmap string value)) (p : KafkaProducer) :
  producer m = Some p ->
  exists p',
    producer (snd (submit_loop m urls md 0)) = Some p' /\
    submit_urls_batch m urls md
    = (fst (submit_loop m urls md 0),
       set_producer (snd (submit_loop m urls md 0)) (flush p')).
Proof.
  intros Hp. destruct (submit_loop_producer urls md m p 0 Hp) as (p' & Hp').
  exists p'. split; [exact Hp'|].
  unfold submit_urls_batch. rewrite Hp.
  destruct (submit_loop m urls md 0) as [n m']. simpl in *. rewrite Hp'.
  reflexivity.
Qed.

Lemma published_flush (m : KafkaURLManager) (p : KafkaProducer) :
  producer m = Some p -> published (set_producer m (flush p)) = published m.
Proof. intros Hp. unfold published. simpl. rewrite Hp. reflexivity. Qed.

(** While every send is acknowledged, the batch loop publishes every URL
    it is given, in order, and counts it. *)
Lemma submit_loop_healthy (urls : list string) (md : option (gmap string value)) :
  forall (m : KafkaURLManager) (p : KafkaProducer) (n : nat),
    producer m = Some p ->
    Forall (fun f => f = Acked) (send_faults p) ->
    exists m',
      submit_loop m urls md n = ((n + length urls)%nat, m') /\
      scraping_topic m' = scraping_topic m /\
      published m' = published m ++ (task_of m md <$> urls).
Proof.
  induction urls as [|url rest IH]; intros m p n Hp Hok; simpl.
  - exists m. rewrite app_nil_r. repeat split. f_equal. lia.
  - unfold submit_url. rewrite Hp. unfold send_and_get.
    destruct (send_faults p) as [|[| |] faults] eqn:Hfaults.
    + edestruct (IH (set_producer m
                       {| sent := sent p ++ [task_of m md url];
                          in_flight := in_flight p; send_faults := [] |}))
        as (m' & Hrun & Htopic & Hpub); [reflexivity | constructor |].
      exists m'. unfold task_of in *. rewrite Hrun. simpl in *.
      split; [f_equal; lia|]. split; [exact Htopic|].
      rewrite Hpub. unfold published. simpl. rewrite Hp.
      rewrite <- (assoc_L (++)). reflexivity.
    + edestruct (IH (set_producer m
                       {| sent := sent p ++ [task_of m md url];
                          in_flight := in_flight p; send_faults := faults |}))
        as (m' & Hrun & Htopic & Hpub);
        [reflexivity | simpl; inversion Hok; assumption |].
      exists m'. unfold task_of in *. rewrite Hrun. simpl in *.
      split; [f_equal; lia|]. split; [exact Htopic|].
      rewrite Hpub. unfold published. simpl. rewrite Hp.
      rewrite <- (assoc_L (++)). reflexivity.
    + inversion Hok; discriminate.
    + inversion Hok; discriminate.
Qed.

(** The same of the whole batch. *)
Lemma submit_urls_batch_healthy (m : KafkaURLManager) (urls : list string)
    (md : option (gmap string value)) (p : KafkaProducer) :
  producer m = Some p ->
  Forall (fun f => f = Acked) (send_faults p) ->
  fst (submit_urls_batch m urls md) = length urls /\
  published (snd (submit_urls_batch m urls md))
  = published m ++ (task_of m md <$> urls).
Proof.
  intros Hp Hok.
  destruct (submit_urls_batch_flush m urls md p Hp) as (p' & Hp' & ->).
  destruct (submit_loop_healthy urls md m p 0 Hp Hok) as (m' & Hrun & _ & Hpub).
  rewrite Hrun in *. simpl in *.
  split; [reflexivity|]. rewrite (published_flush m' p' Hp'). exact Hpub.
Qed.

(** Whatever the broker does, the known URLs are the skipped ones, and
    the database is only read. *)
Lemma submit_skipped (o : JobOrchestrator) (urls : list string)
    (md : option (gmap string value)) :
  skipped (fst (submit_scraping_job o urls md)) = length (known (storage o) urls)
  /\ storage (snd (submit_scraping_job o urls md)) = storage o.
Proof.
  unfold submit_scraping_job. rewrite filter_loop_spec. simpl.
  destruct (fresh (storage o) urls) as [|u l]; [split; reflexivity|].
  destruct (submit_urls_batch _ _ _) as [n m]. split; reflexivity.
Qed.

(** C4, as the code has it. When the manager has a producer and no send
    fails, every URL that already exists in the Dedup Store is counted in
    'skipped' and not published, and exactly the remaining URLs are
    published as Tasks, in order, and counted in 'submitted'. *)
Theorem submit_publishes_fresh (o : JobOrchestrator) (urls : list string)
    (md : option (gmap string value)) (p : KafkaProducer) :
  producer (url_manager o) = Some p ->
  Forall (fun f => f = Acked) (send_faults p) ->
  publishes_exactly_fresh o urls md.
Proof.
  intros Hp Hok. unfold publishes_exactly_fresh.
  split; [apply submit_skipped|].
  unfold submit_scraping_job. rewrite filter_loop_spec. simpl.
  destruct (fresh (storage o) urls) as [|u l] eqn:Hfresh.
  - simpl. rewrite app_nil_r. split; reflexivity.
  - destruct (submit_urls_batch_healthy (url_manager o) (u :: l) md p Hp Hok)
      as (Hcount & Hpub).
    destruct (submit_urls_batch (url_manager o) (u :: l) md) as [n m'].
    simpl in *. split; [exact Hcount | exact Hpub].
Qed.

(** The scenario of the spec: a.com/1 is stored, a.com/2 is not. *)
Lemma submit_publishes_fresh_witness :
  let r := fst (submit_scraping_job Sample.orchestrator Sample.two_urls None) in
  let o' := snd (submit_scraping_job Sample.orchestrator Sample.two_urls None) in
  (submitted r = 1%nat /\ skipped r = 1%nat) /\
  published (url_manager o')
  = [(KAFKA_SCRAPING_TASKS_TOPIC, TaskMsg "a.com/2" ∅ 0)].
Proof.
  assert (Hp : producer (url_manager Sample.orchestrator)
               = Some {| sent := []; in_flight := []; send_faults := [] |}) by reflexivity.
  assert (Hok : Forall (fun f => f = Acked)
                  (send_faults {| sent := []; in_flight := []; send_faults := [] |}))
    by constructor.
  destruct (submit_publishes_fresh Sample.orchestrator Sample.two_urls None _ Hp Hok)
    as (Hskip & Hsub & Hpub).
  cbv zeta. rewrite Hskip, Hsub, Hpub. repeat split.
Defined.

(** C4, as stated, fails without a producer: a.com/2 is not in the Dedup
    Store, yet it is neither published nor counted as submitted. *)
Lemma submit_without_producer :
  ~ publishes_exactly_fresh Sample.orchestrator_without_producer
      Sample.two_urls None.
Proof.
  intros (_ & Hsub & _). vm_compute in Hsub. discriminate Hsub.
Qed.

End SubmissionFacts.

(** ** The fault-tolerant scraper *)

Section ScraperFacts.
Import Storage UrlManager Scraper Spec.

Lemma store_raw_html_frame (st : MongoDBStorage) url html status md now :
  dead_letter_queue (snd (store_raw_html st url html status md now))
  = dead_letter_queue st.
Proof.
  unfold store_raw_html.
  destruct (online st); [|reflexivity].
  destruct (unique_url_index st && _); reflexivity.
Qed.

(** An attempt ends in one of three ways: the fetch fails; it succeeds
    with a page that has a length; it succeeds with a page that is
    [None]. *)
Lemma attempt_cases (e : Env) (i : nat) :
  (fetch_ok e i = false /\ attempt_ok e i = false /\ page_is_none e i = false) \/
  (fetch_ok e i = true /\ attempt_ok e i = true /\ page_is_none e i = false) \/
  (fetch_ok e i = true /\ attempt_ok e i = false /\ page_is_none e i = true).
Proof.
  unfold fetch_ok, attempt_ok, page_is_none.
  destruct (run_spider e i) as [r|x]; [|left; auto].
  destruct (bool_decide (spider_status r = Some "success")); [|left; auto].
  right. destruct (spider_html r) as [[html|]|]; [left | right | left];
    repeat split; reflexivity.
Qed.

(** A failed fetch enters the handler, having called the spider once
    and touched nothing else. *)
Lemma try_attempt_fails s e url md i :
  fetch_ok e i = false ->
  exists x, try_attempt s e url md i = (Raise x, count_spider_call s).
Proof.
  unfold fetch_ok, try_attempt. intros Hfail.
  destruct (run_spider e i) as [r|x]; [|eauto].
  apply bool_decide_eq_false in Hfail.
  destruct (decide (spider_status r = Some "success")); [contradiction|eauto].
Qed.

(** A successful attempt returns from the loop: one call of the spider,
    one more success counted, no dead letter. *)
Lemma try_attempt_succeeds s e url md i :
  attempt_ok e i = true ->
  exists r s',
    try_attempt s e url md i = (Ok r, s') /\
    result_status r = "success" /\
    stats s' = incr_succeeded (stats s) /\
    retry_config s' = retry_config s /\
    spider_calls s' = S (spider_calls s) /\
    dead_letters s' = dead_letters s.
Proof.
  unfold attempt_ok, try_attempt. intros Hok.
  destruct (run_spider e i) as [r|x]; [|discriminate].
  apply andb_true_iff in Hok as [Hok Hpage].
  apply bool_decide_eq_true in Hok. apply bool_decide_eq_true in Hpage.
  destruct (decide (spider_status r = Some "success")); [|contradiction].
  destruct (store_raw_html _ _ _ _ _ _) as [doc_id st] eqn:Hstore.
  assert (Hdl : dead_letter_queue st = dead_letter_queue (storage s)).
  { change st with (snd (doc_id, st)). rewrite <- Hstore.
    apply store_raw_html_frame. }
  destruct (spider_html r) as [[html|]|]; [|congruence|];
    (eexists _, _; split; [reflexivity|]; simpl; repeat split; exact Hdl).
Qed.

(** A fetch that succeeds with a page that is [None]: the page is
    stored and the success counted, and then the attempt raises. *)
Lemma try_attempt_none s e url md i :
  page_is_none e i = true ->
  try_attempt s e url md i
  = (Raise (TypeError "object of type 'NoneType' has no len()"),
     set_stats
       (set_storage (count_spider_call s)
          (snd (store_raw_html (storage s) url None "success"
                  (Some (<["attempts" := VInt (Z.of_nat i + 1)]>
                           (<["worker_id" := VStr (worker_id s)]> md)))
                  (utcnow e))))
       (incr_succeeded (stats s))).
Proof.
  unfold page_is_none, try_attempt. intros Hnone.
  destruct (run_spider e i) as [r|x]; [|discriminate].
  apply andb_true_iff in Hnone as [Hok Hpage].
  apply bool_decide_eq_true in Hok. apply bool_decide_eq_true in Hpage.
  destruct (decide (spider_status r = Some "success")); [|contradiction].
  rewrite Hpage. cbn [or_else storage count_spider_call worker_id].
  destruct (store_raw_html _ _ _ _ _ _) as [doc_id st]. reflexivity.
Qed.

(** An attempt that does not succeed enters the handler: it has called
    the spider once, counted at most a success, and left the
    configuration, the dead letters, the queue and the other counters as
    they were. *)
Lemma try_attempt_raises s e url md i :
  attempt_ok e i = false ->
  exists x s',
    try_attempt s e url md i = (Raise x, s') /\
    retry_config s' = retry_config s /\
    spider_calls s' = S (spider_calls s) /\
    dead_letters s' = dead_letters s /\
    url_manager s' = url_manager s /\
    processed (stats s') = processed (stats s) /\
    failed (stats s') = failed (stats s) /\
    retried (stats s') = retried (stats s) /\
    dead_lettered (stats s') = dead_lettered (stats s) /\
    (succeeded (stats s) <= succeeded (stats s') <= S (succeeded (stats s)))%nat /\
    (page_is_none e i = false -> succeeded (stats s') = succeeded (stats s)).
Proof.
  intros Hno.
  destruct (attempt_cases e i) as [(Hf & _ & Hn)|[(_ & Ha & _)|(_ & _ & Hn)]];
    [| congruence |].
  - destruct (try_attempt_fails s e url md i Hf) as (x & ->).
    eexists _, _. split; [reflexivity|]. simpl. repeat split; lia.
  - rewrite (try_attempt_none s e url md i Hn).
    eexists _, _. split; [reflexivity|]. simpl.
    split; [reflexivity|]. split; [reflexivity|].
    split; [unfold dead_letters; simpl; apply store_raw_html_frame|].
    repeat split; try lia. congruence.
Qed.

Lemma send_to_dead_letter_queue_frame s e url err md :
  stats (send_to_dead_letter_queue s e url err md) = stats s /\
  retry_config (send_to_dead_letter_queue s e url err md) = retry_config s /\
  spider_calls (send_to_dead_letter_queue s e url err md) = spider_calls s.
Proof.
  unfold send_to_dead_letter_queue.
  destruct (dead_letter_insert_one _ _) as [st|x]; [|repeat split].
  simpl. destruct (producer (url_manager s)); repeat split.
Qed.

(** What [send_to_dead_letter_queue] leaves in the dead letter store:
    one more record while the database answers, nothing otherwise. *)
Lemma send_to_dead_letter_queue_store s e url err md :
  (online (storage s) = true ->
   one_dead_letter s (send_to_dead_letter_queue s e url err md) url
     (MAX_RETRIES (retry_config s))) /\
  (online (storage s) = false ->
   dead_letters (send_to_dead_letter_queue s e url err md) = dead_letters s).
Proof.
  unfold send_to_dead_letter_queue, dead_letter_insert_one, one_dead_letter,
    dead_letters.
  split; intros Hon; rewrite Hon; [|reflexivity].
  simpl. eexists. destruct (producer (url_manager s)); simpl;
    (split; [reflexivity | split; reflexivity]).
Qed.

(** The loop keeps the configuration. *)
Lemma retry_loop_config e url md (attempts : list nat) :
  forall s : FaultTolerantScraper,
    retry_config (snd (retry_loop attempts s e url md)) = retry_config s.
Proof.
  induction attempts as [|k rest IH]; intros s; [reflexivity|].
  cbn [retry_loop].
  destruct (attempt_ok e k) eqn:Hok.
  - destruct (try_attempt_succeeds s e url md k Hok)
      as (r & s1 & -> & _ & _ & Hcfg & _ & _). exact Hcfg.
  - destruct (try_attempt_raises s e url md k Hok)
      as (x & s1 & -> & Hcfg & _).
    cbn beta iota.
    destruct (Z.of_nat k <? Z.of_nat (MAX_RETRIES (retry_config s1)) - 1).
    + rewrite IH. exact Hcfg.
    + simpl.
      destruct (send_to_dead_letter_queue_frame s1 e url (str x) (Some md))
        as (_ & -> & _). exact Hcfg.
Qed.

(** The counters after the retry loop, started at attempt [k] with [n]
    attempts left, when no page is [None]: the task is counted once, as a
    success or as a failure that is dead-lettered. *)
Lemma retry_loop_stats e url md (n : nat) :
  forall (k : nat) (s : FaultTolerantScraper),
    (1 <= n)%nat -> (k + n = MAX_RETRIES (retry_config s))%nat ->
    (forall i, (k <= i < k + n)%nat -> page_is_none e i = false) ->
    let s' := snd (retry_loop (seq k n) s e url md) in
    processed (stats s') = processed (stats s) /\
    ((succeeded (stats s') = S (succeeded (stats s)) /\
      failed (stats s') = failed (stats s) /\
      dead_lettered (stats s') = dead_lettered (stats s)) \/
     (succeeded (stats s') = succeeded (stats s) /\
      failed (stats s') = S (failed (stats s)) /\
      dead_lettered (stats s') = S (dead_lettered (stats s)))).
Proof.
  induction n as [|n IH]; intros k s Hn Hk Hsized; [lia|].
  cbn [seq retry_loop].
  destruct (attempt_ok e k) eqn:Hok.
  - destruct (try_attempt_succeeds s e url md k Hok)
      as (r & s1 & -> & _ & Hstats & _ & _ & _).
    simpl. rewrite Hstats. simpl. split; [reflexivity|].
    left. repeat split.
  - destruct (try_attempt_raises s e url md k Hok)
      as (x & s1 & -> & Hcfg & _ & _ & _ & Hp & Hf & _ & Hd & _ & Hs).
    specialize (Hs (Hsized k ltac:(lia))).
    cbn beta iota. rewrite Hcfg.
    destruct (Z.of_nat k <? Z.of_nat (MAX_RETRIES (retry_config s)) - 1) eqn:Hlast.
    + apply Z.ltb_lt in Hlast.
      destruct (IH (S k)
                  (set_stats
                     (sleep s1 (exponential_backoff (retry_config s) k (random e k)))
                     (incr_retried (stats s1))))
        as (Hproc & Hcases);
        [lia | simpl; rewrite Hcfg; lia | intros i Hi; apply Hsized; lia |].
      cbv zeta. cbn [stats sleep].
      cbn [processed succeeded failed dead_lettered stats set_stats incr_retried]
        in Hproc, Hcases.
      split; [lia|]. lia.
    + cbv zeta. cbn [stats set_stats].
      destruct (send_to_dead_letter_queue_frame s1 e url (str x) (Some md))
        as (-> & _ & _).
      simpl. split; [exact Hp|]. right. repeat split; lia.
Qed.

(** When every remaining fetch fails, the loop calls the spider once per
    remaining attempt and hands the task to the dead letter queue once,
    with the database as it was at the start. *)
Lemma retry_loop_all_fail e url md (n : nat) :
  forall (k : nat) (s : FaultTolerantScraper),
    (1 <= n)%nat -> (k + n = MAX_RETRIES (retry_config s))%nat ->
    (forall i, (k <= i < k + n)%nat -> fetch_ok e i = false) ->
    exists (s0 : FaultTolerantScraper) (err : string),
      storage s0 = storage s /\ retry_config s0 = retry_config s /\
      spider_calls s0 = (spider_calls s + n)%nat /\
      snd (retry_loop (seq k n) s e url md)
      = set_stats
          (set_stats (send_to_dead_letter_queue s0 e url err (Some md))
             (incr_failed (stats (send_to_dead_letter_queue s0 e url err (Some md)))))
          (incr_dead_lettered
             (incr_failed (stats (send_to_dead_letter_queue s0 e url err (Some md))))) /\
      fst (retry_loop (seq k n) s e url md)
      = Failed url err (MAX_RETRIES (retry_config s)).
Proof.
  induction n as [|n IH]; intros k s Hn Hk Hfail; [lia|].
  simpl.
  destruct (try_attempt_fails s e url md k) as (x & ->); [apply Hfail; lia|].
  simpl.
  destruct (Z.of_nat k <? Z.of_nat (MAX_RETRIES (retry_config s)) - 1) eqn:Hlast.
  - apply Z.ltb_lt in Hlast.
    destruct (IH (S k)
                (set_stats
                   (sleep (count_spider_call s)
                      (exponential_backoff (retry_config s) k (random e k)))
                   (incr_retried (stats s))))
      as (s0 & err & Hst & Hcfg & Hcalls & Hsnd & Hfst);
      [lia | simpl; lia | intros i Hi; apply Hfail; lia |].
    simpl in *. exists s0, err.
    split; [exact Hst|]. split; [exact Hcfg|].
    split; [lia|]. split; [exact Hsnd | exact Hfst].
  - apply Z.ltb_ge in Hlast.
    exists (count_spider_call s), (str x). simpl.
    split; [reflexivity|]. split; [reflexivity|].
    split; [lia|]. split; [reflexivity|].
    destruct (send_to_dead_letter_queue_frame (count_spider_call s) e url
                (str x) (Some md)) as (_ & Hcfg & _).
    rewrite Hcfg. reflexivity.
Qed.

(** When some remaining attempt succeeds, the loop returns a success and
    the dead letter store is as it was. *)
Lemma retry_loop_some_success e url md (n : nat) :
  forall (k : nat) (s : FaultTolerantScraper),
    (k + n = MAX_RETRIES (retry_config s))%nat ->
    (exists i, (k <= i < k + n)%nat /\ attempt_ok e i = true) ->
    result_status (fst (retry_loop (seq k n) s e url md)) = "success" /\
    dead_letters (snd (retry_loop (seq k n) s e url md)) = dead_letters s.
Proof.
  induction n as [|n IH]; intros k s Hk (i & Hi & Hok); [lia|].
  cbn [seq retry_loop].
  destruct (attempt_ok e k) eqn:Hattempt.
  - destruct (try_attempt_succeeds s e url md k Hattempt)
      as (r & s1 & -> & Hr & _ & _ & _ & Hdl).
    simpl. split; [exact Hr | exact Hdl].
  - destruct (try_attempt_raises s e url md k Hattempt)
      as (x & s1 & -> & Hcfg & _ & Hdl & _).
    cbn beta iota. rewrite Hcfg.
    assert (Hik : i ≠ k) by (intros ->; congruence).
    destruct (Z.of_nat k <? Z.of_nat (MAX_RETRIES (retry_config s)) - 1) eqn:Hlast.
    + destruct (IH (S k)
                  (set_stats
                     (sleep s1 (exponential_backoff (retry_config s) k (random e k)))
                     (incr_retried (stats s1))))
        as (Hr & Hdl');
        [simpl; rewrite Hcfg; lia | exists i; split; [lia | exact Hok] |].
      split; [exact Hr|]. etransitivity; [exact Hdl' | exact Hdl].
    + apply Z.ltb_ge in Hlast. lia.
Qed.

(** C2, as the code has it. With the default MAX_RETRIES = 3: for a
    task whose fetch fails on every attempt, [scrape_with_retry] calls the
    spider exactly 3 times, answers 'failed', and then writes exactly one
    DeadLetterRecord with retry_count = 3 provided the dead letter store
    accepts the insert; when the store does not answer, the failure is
    logged and no record is written. If any attempt succeeds, its fetch
    answering 'success' with a page that has a length, the answer is
    'success' and no DeadLetterRecord is written. *)
Theorem scrape_with_retry_dead_letter (s : FaultTolerantScraper) (e : Env)
    (url : string) (md : option (gmap string value)) :
  retry_config s = defaults ->
  let s' := snd (scrape_with_retry s e url md) in
  ((forall i, (i < 3)%nat -> fetch_ok e i = false) ->
   spider_calls s' = (spider_calls s + 3)%nat /\
   (exists err, fst (scrape_with_retry s e url md) = Failed url err 3) /\
   (online (storage s) = true -> one_dead_letter s s' url 3) /\
   (online (storage s) = false -> dead_letters s' = dead_letters s)) /\
  ((exists i, (i < 3)%nat /\ attempt_ok e i = true) ->
   result_status (fst (scrape_with_retry s e url md)) = "success" /\
   dead_letters s' = dead_letters s).
Proof.
  intros Hcfg s'. subst s'. unfold scrape_with_retry. rewrite Hcfg.
  change (MAX_RETRIES defaults) with 3%nat.
  split.
  - intros Hfail.
    destruct (retry_loop_all_fail e url (or_else md ∅) 3 0 s)
      as (s0 & err & Hst & Hcfg0 & Hcalls & -> & ->);
      [lia | rewrite Hcfg; reflexivity | intros i Hi; apply Hfail; lia |].
    rewrite Hcfg. change (MAX_RETRIES defaults) with 3%nat.
    destruct (send_to_dead_letter_queue_frame s0 e url err (Some (or_else md ∅)))
      as (_ & _ & Hcalls').
    destruct (send_to_dead_letter_queue_store s0 e url err (Some (or_else md ∅)))
      as (Hon & Hoff).
    rewrite Hst, Hcfg0, Hcfg in Hon. rewrite Hst in Hoff.
    change (MAX_RETRIES defaults) with 3%nat in Hon.
    unfold one_dead_letter, dead_letters in *. simpl.
    rewrite Hst in Hon, Hoff.
    split; [rewrite Hcalls', Hcalls; reflexivity|].
    split; [exists err; reflexivity|].
    split; [exact Hon | exact Hoff].
  - intros (i & Hi & Hok).
    apply retry_loop_some_success;
      [rewrite Hcfg; reflexivity | exists i; split; [lia | exact Hok]].
Qed.

Lemma scrape_with_retry_dead_letter_witness :
  one_dead_letter Sample.scraper
    (snd (scrape_with_retry Sample.scraper Sample.always_failing "a.com/1" None))
    "a.com/1" 3
  /\ dead_letters
       (snd (scrape_with_retry Sample.scraper Sample.second_time_lucky "a.com/1" None))
     = dead_letters Sample.scraper.
Proof.
  assert (Hcfg : retry_config Sample.scraper = defaults) by reflexivity.
  split.
  - destruct (scrape_with_retry_dead_letter Sample.scraper Sample.always_failing
                "a.com/1" None Hcfg) as [Hall _].
    destruct Hall as (_ & _ & Hon & _); [intros i _; reflexivity|].
    apply Hon. reflexivity.
  - destruct (scrape_with_retry_dead_letter Sample.scraper Sample.second_time_lucky
                "a.com/1" None Hcfg) as [_ Hsome].
    destruct Hsome as [_ Hdl]; [|exact Hdl].
    exists 1%nat. split; [lia | reflexivity].
Defined.

(** C2, as stated, fails when the dead letter store does not answer:
    every fetch failed three times, and no DeadLetterRecord exists. *)
Lemma dead_letter_lost_offline :
  ~ dead_letter_exact Sample.scraper_offline Sample.always_failing "a.com/1" None.
Proof.
  intros [Hall _].
  destruct Hall as (_ & doc & Hdl & _); [intros i _; reflexivity|].
  vm_compute in Hdl. discriminate Hdl.
Qed.

Example always_failing_run :
  let '(r, s) := scrape_with_retry Sample.scraper Sample.always_failing "a.com/1" None in
  r = Failed "a.com/1" "net::ERR_NAME_NOT_RESOLVED" 3 /\
  stats s = {| processed := 0; succeeded := 0; failed := 1; retried := 2;
               dead_lettered := 1 |} /\
  spider_calls s = 3%nat /\ length (slept s) = 2%nat /\
  length (dead_letters s) = 1%nat.
Proof. vm_compute. repeat split. Qed.

Example second_time_lucky_run :
  let '(r, s) :=
    scrape_with_retry Sample.scraper Sample.second_time_lucky "a.com/1" None in
  r = Success "a.com/1" (Some 0%nat) 2 13 /\
  stats s = {| processed := 0; succeeded := 1; failed := 0; retried := 1;
               dead_lettered := 0 |} /\
  spider_calls s = 2%nat /\ dead_letters s = [].
Proof. vm_compute. repeat split. Qed.

(** One [process_task] call keeps the configuration and counts the task
    as processed. *)
Lemma process_task_config (s : FaultTolerantScraper) (e : Env) (t : Task) :
  retry_config (snd (process_task s e t)) = retry_config s.
Proof.
  unfold process_task, scrape_with_retry. rewrite retry_loop_config. reflexivity.
Qed.

(** When no page is [None], one [process_task] call counts the task once
    as processed and once as a success or as a dead-lettered failure. *)
Lemma process_task_stats (s : FaultTolerantScraper) (e : Env) (t : Task) :
  (1 <= MAX_RETRIES (retry_config s))%nat ->
  (forall i, page_is_none e i = false) ->
  let s' := snd (process_task s e t) in
  processed (stats s') = S (processed (stats s)) /\
  ((succeeded (stats s') = S (succeeded (stats s)) /\
    failed (stats s') = failed (stats s) /\
    dead_lettered (stats s') = dead_lettered (stats s)) \/
   (succeeded (stats s') = succeeded (stats s) /\
    failed (stats s') = S (failed (stats s)) /\
    dead_lettered (stats s') = S (dead_lettered (stats s)))).
Proof.
  intros Hmax Hsized. unfold process_task, scrape_with_retry.
  destruct (retry_loop_stats e (task_url t)
              (or_else (Some (or_else (task_metadata t) ∅)) ∅)
              (MAX_RETRIES (retry_config s)) 0
              (set_stats s (incr_processed (stats s))))
    as (Hproc & Hcases); [exact Hmax | reflexivity | intros i _; apply Hsized |].
  simpl in *. split; [exact Hproc | exact Hcases].
Qed.

Lemma process_tasks_stats (work : list (Env * Task)) :
  forall s : FaultTolerantScraper,
    (1 <= MAX_RETRIES (retry_config s))%nat ->
    Forall (fun et => forall i, page_is_none (fst et) i = false) work ->
    stats_invariant (stats s) ->
    stats_invariant (stats (process_tasks s work)) /\
    processed (stats (process_tasks s work))
    = (processed (stats s) + length work)%nat.
Proof.
  induction work as [|[e t] rest IH]; intros s Hmax Hsized Hinv; simpl.
  - split; [exact Hinv | lia].
  - inversion Hsized as [|? ? He Hrest]; subst. simpl in He.
    destruct (process_task_stats s e t Hmax He) as (Hproc & Hcases).
    destruct (IH (snd (process_task s e t))) as [Hinv' Hcount].
    + rewrite process_task_config. exact Hmax.
    + exact Hrest.
    + unfold stats_invariant in *. destruct Hinv as [H1 H2].
      destruct Hcases as [(Hs & Hf & Hd)|(Hs & Hf & Hd)]; lia.
    + split; [exact Hinv' | lia].
Qed.

(** The invariant of the counters holds as long as no fetch answers
    'success' with a page that is [None]. *)
Lemma process_tasks_invariant_sized (worker : string) (m : KafkaURLManager)
    (st : MongoDBStorage) (work : list (Env * Task)) :
  Forall (fun et => forall i, page_is_none (fst et) i = false) work ->
  stats_invariant (stats (process_tasks (init worker m st) work)) /\
  processed (stats (process_tasks (init worker m st) work)) = length work.
Proof.
  intros Hsized.
  destruct (process_tasks_stats work (init worker m st)) as [Hinv Hcount].
  - simpl. lia.
  - exact Hsized.
  - split; reflexivity.
  - split; [exact Hinv | exact Hcount].
Qed.



Example page_none_run :
  let '(r, s) := scrape_with_retry Sample.scraper Sample.page_none "a.com/1" None in
  r = Failed "a.com/1" "object of type 'NoneType' has no len()" 3 /\
  length (raw_data (storage s)) = 3%nat /\
  length (dead_letters s) = 1%nat.
Proof. vm_compute. repeat split. Qed.

End ScraperFacts.

(** ** The backlog query *)

Section PendingCountFacts.
Import Storage UrlManager Orchestrator Spec.

Lemma pending_loop_raises c offsets tps e :
  loop_raises c offsets tps e ->
  forall pending, pending_loop c offsets tps pending = Raise e.
Proof.
  induction 1 as [tp rest e Hc | tp rest co Hc Hoff
                 | tp rest co end_offset e Hc Hoff _ IH];
    intros pending; simpl; rewrite Hc; simpl.
  - reflexivity.
  - rewrite Hoff. reflexivity.
  - rewrite Hoff. apply IH.
Qed.

(** One call of the [try] block answered as [H] says. *)
Ltac answered H := rewrite H; cbn [mbind result_bind].

(** Every way the query can raise ends in the handler. *)
Lemma query_raises_sound m e :
  query_raises m e -> get_pending_count_try m = Raise e.
Proof.
  unfold get_pending_count_try.
  destruct 1 as [e Hc | c e Hc Hp | c ps e Hc Hp Hps Hcl | c tp tps e Hc Hp Ha
                | c tp tps u e Hc Hp Ha He | c tp tps u offsets e Hc Hp Ha He Hl
                | c tp tps u offsets pending e Hc Hp Ha He Hl Hcl];
    answered Hc; try reflexivity; answered Hp; try reflexivity.
  - destruct Hps as [->| ->]; answered Hcl; reflexivity.
  - answered Ha. reflexivity.
  - answered Ha. answered He. reflexivity.
  - answered Ha. answered He.
    rewrite (pending_loop_raises _ _ _ _ Hl). reflexivity.
  - answered Ha. answered He. answered Hl. answered Hcl. reflexivity.
Qed.

(** And the handler is entered in no other way. *)
Lemma pending_loop_raises_complete c offsets tps :
  forall pending e,
    pending_loop c offsets tps pending = Raise e -> loop_raises c offsets tps e.
Proof.
  induction tps as [|tp rest IH]; intros pending e; simpl; [discriminate|].
  destruct (committed c tp) as [co|x] eqn:Hc; simpl.
  - destruct (offsets !! tp) as [end_offset|] eqn:Hoff.
    + intros H. eapply later_raises; eauto.
    + intros [= <-]. eapply end_offset_missing; eauto.
  - intros [= <-]. apply committed_raises. exact Hc.
Qed.

Lemma query_raises_complete m e :
  get_pending_count_try m = Raise e -> query_raises m e.
Proof.
  unfold get_pending_count_try.
  destruct (connect m) as [c|x] eqn:Hc; cbn [mbind result_bind];
    [|intros [= <-]; apply broker_unavailable; exact Hc].
  destruct (partitions_for_topic c (scraping_topic m)) as [ps|x] eqn:Hp; cbn [mbind result_bind];
    [|intros [= <-]; eapply partitions_raise; eauto].
  destruct ps as [[|tp tps]|].
  - destruct (close c) as [[]|x] eqn:Hcl; cbn [mbind result_bind]; [discriminate|].
    intros [= <-]. eapply close_raises_without_partitions; eauto.
  - destruct (assign c (tp :: tps)) as [u|x] eqn:Ha; cbn [mbind result_bind];
      [|intros [= <-]; eapply assign_raises; eauto].
    destruct (end_offsets c (tp :: tps)) as [offsets|x] eqn:He; cbn [mbind result_bind];
      [|intros [= <-]; eapply end_offsets_raise; eauto].
    destruct (pending_loop c offsets (tp :: tps) 0) as [pending|x] eqn:Hl.
    + cbn [mbind result_bind]. destruct (close c) as [[]|y] eqn:Hcl; cbn [mbind result_bind]; [discriminate|].
      intros [= <-]. eapply close_raises; eauto.
    + cbn [mbind result_bind]. intros [= <-]. eapply offsets_raise; eauto.
      eapply pending_loop_raises_complete; eauto.
  - destruct (close c) as [[]|x] eqn:Hcl; cbn [mbind result_bind]; [discriminate|].
    intros [= <-]. eapply close_raises_without_partitions; eauto.
Qed.

Lemma get_pending_count_raises m e :
  query_raises m e -> get_pending_count m = 0.
Proof.
  intros H. unfold get_pending_count. rewrite (query_raises_sound m e H).
  reflexivity.
Qed.

Lemma get_pending_count_drained m : get_pending_count (drained m) = 0.
Proof. reflexivity. Qed.

(** The monitor sees of the queue what [get_pending_count] answers, and
    nothing else. *)
Lemma monitor_loop_queue (w w' : World) (timeout : Z) (fuel : nat) :
  (forall n, elapsed (w n) = elapsed (w' n)) ->
  (forall n, database (w n) = database (w' n)) ->
  (forall n, get_pending_count (queue (w n)) = get_pending_count (queue (w' n))) ->
  forall n last_count pending,
    monitor_loop fuel w timeout n last_count pending
    = monitor_loop fuel w' timeout n last_count pending.
Proof.
  intros Hel Hdb Hq. induction fuel as [|fuel IH]; intros n last_count pending;
    simpl; [reflexivity|].
  rewrite Hel, Hdb, Hq.
  destruct (elapsed (w' n) <? timeout); [|reflexivity].
  destruct (get_stats_count (database (w' n)) !! "processed_stats_count");
    [|reflexivity].
  destruct (_ && _); [reflexivity|]. apply IH.
Qed.

(** C8. Whenever an exception occurs while querying the broker, broker
    unavailability included, [get_pending_count] returns 0, which is what
    it returns for an empty backlog; and the progress monitor answers on
    a world whose queue cannot be queried exactly what it answers on the
    same world with a drained queue. *)
Theorem get_pending_count_swallows (w : World) :
  (forall n, exists e, query_raises (queue (w n)) e) ->
  (forall n, get_pending_count (queue (w n)) = 0) /\
  (forall n, get_pending_count (queue (w n))
             = get_pending_count (drained (queue (w n)))) /\
  (forall fuel timeout,
     monitor_job_progress fuel w timeout
     = monitor_job_progress fuel (map_queue drained w) timeout).
Proof.
  intros Hraise.
  assert (Hzero : forall n, get_pending_count (queue (w n)) = 0).
  { intros n. destruct (Hraise n) as [e He].
    exact (get_pending_count_raises _ e He). }
  split; [exact Hzero|].
  split; [intros n; rewrite Hzero; reflexivity|].
  intros fuel timeout. unfold monitor_job_progress.
  rewrite (monitor_loop_queue w (map_queue drained w) timeout fuel);
    [reflexivity | reflexivity | reflexivity |].
  intros n. rewrite Hzero. reflexivity.
Qed.

Lemma get_pending_count_swallows_witness :
  monitor_job_progress 2 Sample.unreachable_world 3
  = monitor_job_progress 2 (map_queue drained Sample.unreachable_world) 3.
Proof.
  assert (H : forall n, exists e, query_raises (queue (Sample.unreachable_world n)) e).
  { intros n. exists (KafkaError "NoBrokersAvailable").
    apply broker_unavailable. reflexivity. }
  exact (proj2 (proj2 (get_pending_count_swallows Sample.unreachable_world H)) 2%nat 3).
Defined.

End PendingCountFacts.

(** ** The progress monitor *)

Section MonitorFacts.
Import Storage UrlManager Orchestrator Spec.

(** The test that breaks the loop is the completion heuristic. *)
Lemma break_test_iff (w : World) (n : nat) (c : Z) :
  count_at w n = Some c ->
  ((pending_at w n =? 0) && (last_count_at w n <? c) = true
   <-> appears_complete w n).
Proof.
  intros Hc. unfold appears_complete.
  rewrite andb_true_iff, Z.eqb_eq, Z.ltb_lt. split.
  - intros [Hp Hlt]. split; [exact Hp|]. exists c. split; [exact Hc | exact Hlt].
  - intros [Hp (c' & Hc' & Hlt)]. rewrite Hc in Hc'. injection Hc' as <-.
    split; [exact Hp | exact Hlt].
Qed.

(** More fuel does not change an answer. *)
Lemma monitor_loop_fuel (w : World) (timeout : Z) (fuel : nat) :
  forall n last_count pending r,
    monitor_loop fuel w timeout n last_count pending = Some r ->
    forall fuel', (fuel <= fuel')%nat ->
      monitor_loop fuel' w timeout n last_count pending = Some r.
Proof.
  induction fuel as [|fuel IH]; intros n last_count pending r Hrun fuel' Hle;
    [discriminate|].
  destruct fuel' as [|fuel']; [lia|]. simpl in *.
  destruct (elapsed (w n) <? timeout); [|exact Hrun].
  destruct (get_stats_count (database (w n)) !! "processed_stats_count");
    [|exact Hrun].
  destruct (_ && _); [exact Hrun|].
  apply (IH _ _ _ _ Hrun). lia.
Qed.

Lemma monitor_job_progress_fuel (w : World) (timeout : Z) (fuel fuel' : nat) r r' :
  monitor_job_progress fuel w timeout = Some r ->
  monitor_job_progress fuel' w timeout = Some r' ->
  r' = r.
Proof.
  unfold monitor_job_progress. intros H H'.
  destruct (monitor_loop fuel w timeout 0 0 None) as [x|] eqn:Hx; [|discriminate].
  destruct (monitor_loop fuel' w timeout 0 0 None) as [x'|] eqn:Hx'; [|discriminate].
  assert (x' = x) as ->.
  { pose proof (monitor_loop_fuel _ _ _ _ _ _ _ Hx (max fuel fuel')
                  (Nat.le_max_l _ _)) as H1.
    pose proof (monitor_loop_fuel _ _ _ _ _ _ _ Hx' (max fuel fuel')
                  (Nat.le_max_r _ _)) as H2.
    congruence. }
  congruence.
Qed.

(** The loop ends once the clock has passed the deadline, as long as
    the database answers. *)
Lemma monitor_loop_terminates (w : World) (timeout : Z) (d : nat) :
  (forall n, is_Some (count_at w n)) ->
  forall n last_count pending,
    timeout <= elapsed (w (n + d)%nat) ->
    exists res,
      monitor_loop (S d) w timeout n last_count pending = Some (Ok res).
Proof.
  intros Hdb. induction d as [|d IH]; intros n last_count pending Hlate.
  - simpl. rewrite Nat.add_0_r in Hlate.
    destruct (elapsed (w n) <? timeout) eqn:Htest; [|eauto].
    apply Z.ltb_lt in Htest. lia.
  - cbn [monitor_loop].
    destruct (elapsed (w n) <? timeout); [|eauto].
    destruct (Hdb n) as [c Hc]. unfold count_at in Hc. rewrite Hc.
    destruct (_ && _); [eauto|].
    apply IH. replace (S n + d)%nat with (n + S d)%nat by lia. exact Hlate.
Qed.

(** What the loop leaves behind when it ends normally, started at
    reading [n] with the count of the observation before it: either no
    poll was made, or the value of [pending] is the backlog of the last
    observation. *)
Lemma monitor_loop_spec (w : World) (timeout : Z) (fuel : nat) :
  forall n pending p idx,
    monitor_loop fuel w timeout n (last_count_at w n) pending = Some (Ok (p, idx)) ->
    (idx = n /\ p = pending /\ timeout <= elapsed (w n)) \/
    (exists k,
       (n <= k)%nat /\ idx = S k /\ p = Some (pending_at w k) /\
       (forall j, (n <= j <= k)%nat -> elapsed (w j) < timeout) /\
       (forall j, (n <= j < k)%nat -> ~ appears_complete w j) /\
       (appears_complete w k \/
        (~ appears_complete w k /\ timeout <= elapsed (w (S k))))).
Proof.
  induction fuel as [|fuel IH]; intros n pending p idx Hrun; [discriminate|].
  cbn [monitor_loop] in Hrun.
  destruct (elapsed (w n) <? timeout) eqn:Htest.
  - apply Z.ltb_lt in Htest. right.
    fold (count_at w n) in Hrun. fold (pending_at w n) in Hrun.
    destruct (count_at w n) as [c|] eqn:Hc; [|discriminate].
    destruct ((pending_at w n =? 0) && (last_count_at w n <? c)) eqn:Hbreak.
    + injection Hrun as <- <-.
      apply (break_test_iff w n c Hc) in Hbreak.
      exists n. split; [lia|]. split; [reflexivity|]. split; [reflexivity|].
      split; [intros j Hj; replace j with n by lia; exact Htest|].
      split; [intros j Hj; lia|]. left. exact Hbreak.
    + assert (Hno : ~ appears_complete w n).
      { intros H. apply (break_test_iff w n c Hc) in H. congruence. }
      assert (Hlast : last_count_at w (S n) = c).
      { simpl. rewrite Hc. reflexivity. }
      rewrite <- Hlast in Hrun.
      destruct (IH _ _ _ _ Hrun) as [(-> & -> & Hlate)|(k & Hk & -> & -> & Hpoll & Hnot & Hend)].
      * exists n. split; [lia|]. split; [reflexivity|]. split; [reflexivity|].
        split; [intros j Hj; replace j with n by lia; exact Htest|].
        split; [intros j Hj; lia|]. right. split; [exact Hno | exact Hlate].
      * exists k. split; [lia|]. split; [reflexivity|]. split; [reflexivity|].
        split.
        { intros j Hj. destruct (decide (j = n)) as [->|Hne];
            [exact Htest | apply Hpoll; lia]. }
        split; [|exact Hend].
        intros j Hj. destruct (decide (j = n)) as [->|Hne];
          [exact Hno | apply Hnot; lia].
  - apply Z.ltb_ge in Htest. injection Hrun as <- <-. left. auto.
Qed.

(** Partial correctness of the monitor: a normal answer comes with a last
    observation, and the status tells whether its backlog was zero. *)
Lemma monitor_job_progress_spec (w : World) (timeout : Z) (fuel : nat)
    (r : Progress) :
  monitor_job_progress fuel w timeout = Some (Ok r) ->
  exists k,
    last_observation w timeout k /\
    progress_status r
    = (if pending_at w k =? 0 then "completed" else "timeout").
Proof.
  unfold monitor_job_progress. intros Hrun.
  destruct (monitor_loop fuel w timeout 0 0 None) as [[[p idx]|x]|] eqn:Hloop;
    try discriminate.
  change 0 with (last_count_at w 0) in Hloop.
  destruct (monitor_loop_spec _ _ _ _ _ _ _ Hloop)
    as [(-> & -> & _)|(k & _ & -> & -> & Hpoll & Hnot & Hend)];
    [discriminate|].
  injection Hrun as <-. exists k. simpl. split; [|reflexivity].
  split; [intros j Hj; apply Hpoll; lia|].
  split; [intros j Hj; apply Hnot; lia | exact Hend].
Qed.

(** What the status expression after the loop computes. When at least
    one poll runs, the clock reaches the deadline and the database answers,
    [monitor_job_progress] returns, and its status is 'completed' exactly
    when the backlog at the last observation is zero, 'timeout' exactly
    when it is not. The last observation is the first one at which the
    backlog is zero and the persisted-record count exceeds that of the
    observation before (0 before the first), where the loop breaks, or
    else the last one before the deadline. *)
Lemma monitor_job_progress_status (w : World) (timeout : Z) :
  elapsed (w 0%nat) < timeout ->
  (exists n, timeout <= elapsed (w n)) ->
  (forall n, is_Some (count_at w n)) ->
  exists fuel r k,
    monitor_job_progress fuel w timeout = Some (Ok r) /\
    (forall fuel' r', monitor_job_progress fuel' w timeout = Some r' -> r' = Ok r) /\
    last_observation w timeout k /\
    (progress_status r = "completed" <-> pending_at w k = 0) /\
    (progress_status r = "timeout" <-> pending_at w k ≠ 0) /\
    (appears_complete w k -> progress_status r = "completed").
Proof.
  intros Hfirst [n Hlate] Hdb.
  destruct (monitor_loop_terminates w timeout n Hdb 0 0 None Hlate)
    as [[p idx] Hloop].
  pose proof Hloop as Hloop'.
  change 0 with (last_count_at w 0) in Hloop'.
  destruct (monitor_loop_spec _ _ _ _ _ _ _ Hloop')
    as [(_ & _ & Hlate0)|(k & _ & -> & -> & _)]; [lia|].
  set (r := {| progress_status :=
                 if pending_at w k =? 0 then "completed" else "timeout";
               elapsed_time := elapsed (w (S k));
               final_stats := get_stats_count (database (w (S k))) |}).
  assert (Hrun : monitor_job_progress (S n) w timeout = Some (Ok r)).
  { unfold monitor_job_progress. rewrite Hloop. reflexivity. }
  exists (S n), r, k.
  split; [exact Hrun|].
  split; [intros fuel' r' H'; exact (monitor_job_progress_fuel _ _ _ _ _ _ Hrun H')|].
  destruct (monitor_job_progress_spec _ _ _ _ Hrun) as (k' & Hlast' & Hstatus').
  assert (k' = k) as ->.
  { destruct Hlast' as (Hp' & Hn' & He').
    change 0 with (last_count_at w 0) in Hloop.
    destruct (monitor_loop_spec _ _ _ _ _ _ _ Hloop)
      as [(_ & _ & Hl0)|(k2 & _ & Hidx & _ & Hp & Hn & He)]; [lia|].
    injection Hidx as <-.
    destruct (Nat.lt_trichotomy k' k) as [Hlt|[Heq|Hgt]]; [|exact Heq|].
    - exfalso. destruct He' as [Hc|[_ Hl]].
      + exact (Hn k' ltac:(lia) Hc).
      + specialize (Hp (S k') ltac:(lia)). lia.
    - exfalso. destruct He as [Hc|[_ Hl]].
      + exact (Hn' k ltac:(lia) Hc).
      + specialize (Hp' (S k) ltac:(lia)). lia. }
  split; [exact Hlast'|].
  simpl. destruct (pending_at w k =? 0) eqn:Hz.
  - apply Z.eqb_eq in Hz.
    split; [split; auto|]. split; [split; [discriminate | congruence]|]. auto.
  - apply Z.eqb_neq in Hz.
    split; [split; [discriminate | congruence]|].
    split; [split; auto|]. intros [Hp _]. congruence.
Qed.

Lemma monitor_job_progress_status_witness :
  exists fuel r k,
    monitor_job_progress fuel Sample.idle_world 3 = Some (Ok r) /\
    last_observation Sample.idle_world 3 k /\
    (progress_status r = "completed" <-> pending_at Sample.idle_world k = 0).
Proof.
  assert (H0 : elapsed (Sample.idle_world 0%nat) < 3) by reflexivity.
  assert (H1 : exists n, 3 <= elapsed (Sample.idle_world n)).
  { exists 1%nat. simpl. lia. }
  assert (H2 : forall n, is_Some (count_at Sample.idle_world n)).
  { intros n. exists 0. reflexivity. }
  destruct (monitor_job_progress_status Sample.idle_world 3 H0 H1 H2)
    as (fuel & r & k & Hrun & _ & Hlast & Hcompleted & _).
  exists fuel, r, k. split; [exact Hrun|]. split; [exact Hlast | exact Hcompleted].
Defined.

(** C1. The status is 'completed' although no observation saw the
    persisted-record count increase: with an empty backlog and no record
    at any poll, a timeout of 3 seconds and polls 5 seconds apart, the one
    observation made does not pass the loop's own test of completion
    (backlog zero and count above the last count), the deadline passes,
    and the status expression after the loop, which reads the backlog
    alone, answers 'completed' where the claim has 'timeout'. *)
Theorem completed_without_progress :
  exists r,
    monitor_job_progress 2 Sample.idle_world 3 = Some (Ok r) /\
    progress_status r = "completed" /\
    ~ status_as_stated Sample.idle_world 3 r.
Proof.
  eexists. split; [reflexivity|]. split; [reflexivity|].
  intros [Hiff _]. simpl in Hiff.
  destruct (proj1 Hiff eq_refl) as (n & _ & _ & c & Hc & Hlt).
  assert (c = 0) as -> by (vm_compute in Hc; congruence).
  destruct n as [|n]; vm_compute in Hlt; discriminate Hlt.
Qed.

(** C10. For every timeout <= 0 (the clock not running backwards), the
    loop body never runs and the call raises the unbound-variable error
    on [pending] instead of returning a result; and whenever the monitor
    does return a result, the first evaluation of the loop condition held:
    at least one poll ran. *)
Theorem monitor_unbound_pending (w : World) (timeout : Z) (fuel : nat) :
  timeout <= 0 ->
  0 <= elapsed (w 0%nat) ->
  monitor_job_progress (S fuel) w timeout
  = Some (Raise (UnboundLocalError "pending")) /\
  (forall fuel' timeout' r,
     monitor_job_progress fuel' w timeout' = Some (Ok r) ->
     elapsed (w 0%nat) < timeout').
Proof.
  intros Htimeout Hclock. split.
  - unfold monitor_job_progress. cbn [monitor_loop].
    destruct (elapsed (w 0%nat) <? timeout) eqn:Htest; [|reflexivity].
    apply Z.ltb_lt in Htest. lia.
  - intros fuel' timeout' r Hrun.
    destruct (monitor_job_progress_spec _ _ _ _ Hrun) as (k & (Hpoll & _) & _).
    apply Hpoll. lia.
Qed.

Lemma monitor_unbound_pending_witness :
  monitor_job_progress 1 Sample.idle_world 0
  = Some (Raise (UnboundLocalError "pending")).
Proof.
  assert (H0 : 0 <= 0) by lia.
  assert (H1 : 0 <= elapsed (Sample.idle_world 0%nat)) by (simpl; lia).
  exact (proj1 (monitor_unbound_pending Sample.idle_world 0 0 H0 H1)).
Defined.

End MonitorFacts.

(** ** The stores *)

Section StorageFacts.
Import Storage Spec.

Lemma pages_update_first (url : string) (new : RawDoc) (l : list RawDoc) (u : string) :
  raw_url new = url ->
  length (filter (fun d => raw_url d = u) (update_first url new l))
  = length (filter (fun d => raw_url d = u) l).
Proof.
  intros Hnew. induction l as [|d rest IH]; [reflexivity|].
  simpl. destruct (decide (raw_url d = url)) as [Hd|Hd].
  - rewrite !filter_cons.
    destruct (decide (raw_url new = u)), (decide (raw_url d = u));
      simpl; congruence.
  - rewrite !filter_cons. destruct (decide (raw_url d = u)); simpl; congruence.
Qed.





(** X2. With the unique index on the URL, [store_raw_html] keeps the
    invariant that no URL has more than one stored page: a second store of
    a URL replaces its page. *)
Theorem store_raw_html_at_most_one (st : MongoDBStorage)
    (url : string) (html : option string) (status : string) (md : option (gmap string value)) (now : Z) :
  unique_url_index st = true ->
  at_most_one_page st ->
  at_most_one_page (snd (store_raw_html st url html status md now)).
Proof.
  intros Hidx Hinv u. unfold pages, store_raw_html.
  destruct (online st); [|apply Hinv].
  rewrite Hidx. simpl.
  destruct (bool_decide (Exists (fun d => raw_url d = url) (raw_data st))) eqn:Hex;
    simpl.
  - rewrite pages_update_first by reflexivity. apply Hinv.
  - apply bool_decide_eq_false in Hex.
    rewrite filter_app, length_app, filter_cons. simpl.
    destruct (decide (url = u)) as [->|Hne]; simpl.
    + assert (Hnone : filter (fun d => raw_url d = u) (raw_data st) = []).
      { destruct (filter _ _) as [|d l] eqn:Hf; [reflexivity|].
        exfalso. apply Hex. apply Exists_exists. exists d.
        assert (Hd : d ∈ filter (fun d => raw_url d = u) (raw_data st))
          by (rewrite Hf; left).
        apply list_elem_of_filter in Hd as [Hu Hin]. auto. }
      rewrite Hnone. simpl. lia.
    + specialize (Hinv u). unfold pages in Hinv. lia.
Qed.

Lemma store_raw_html_at_most_one_witness :
  at_most_one_page
    (snd (store_raw_html
            {| online := true; unique_url_index := true;
               raw_data := [Sample.page "a.com/1"]; processed_data := [];
               Storage.metadata := []; dead_letter_queue := [] |}
            "a.com/1" (Some "<html></html>") "success" None 7)).
Proof.
  apply store_raw_html_at_most_one; [reflexivity|].
  intros u. unfold pages. simpl. rewrite filter_cons.
  destruct (decide (raw_url (Sample.page "a.com/1") = u)); simpl; lia.
Defined.

Lemma upsert_Some (new : ProcessedDoc) (l l' : list ProcessedDoc) :
  upsert new l = Some l' ->
  stats_key <$> l' = stats_key <$> l /\ new ∈ l' /\ upsert new l' = Some l'.
Proof.
  revert l'. induction l as [|d rest IH]; intros l'; simpl; [discriminate|].
  destruct (decide (doc_player_name d = doc_player_name new
                    /\ doc_season_type d = doc_season_type new)) as [[Hn Hs]|Hne].
  - intros [= <-]. split; [|split].
    + rewrite !fmap_cons. unfold stats_key. rewrite Hn, Hs. reflexivity.
    + left.
    + simpl. destruct (decide _) as [_|Hno]; [reflexivity|].
      exfalso. apply Hno. auto.
  - destruct (upsert new rest) as [r|] eqn:Hrest; [|discriminate].
    simpl. intros [= <-].
    destruct (IH r eq_refl) as (Hkeys & Hin & Hagain).
    split; [|split].
    + rewrite !fmap_cons, Hkeys. reflexivity.
    + right. exact Hin.
    + simpl. destruct (decide _) as [Hyes|_]; [contradiction|].
      rewrite Hagain. reflexivity.
Qed.


Lemma upsert_present (new : ProcessedDoc) (l : list ProcessedDoc) :
  stats_key new ∈ (stats_key <$> l) -> exists l', upsert new l = Some l'.
Proof.
  induction l as [|d rest IH]; intros Hin; [inversion Hin|].
  simpl. destruct (decide _) as [Hyes|Hne]; [eauto|].
  rewrite fmap_cons in Hin. apply elem_of_cons in Hin as [Heq|Hin].
  - exfalso. apply Hne. unfold stats_key in Heq. injection Heq as Hn Hs. auto.
  - destruct (IH Hin) as [l' ->]. simpl. eauto.
Qed.

(** After a store on a database that answers, the key of the record is
    in the store. *)
Lemma store_processed_stats_key (st : MongoDBStorage) (name : string)
    (stats : gmap string Normalizer.stat_value) (season_type : string) (now : Z) :
  online st = true ->
  (name, season_type)
  ∈ (stats_key <$> processed_data (snd (store_processed_stats st name stats
                                          season_type now))).
Proof.
  intros Hon. unfold store_processed_stats. rewrite Hon.
  set (doc := {| doc_player_name := name; doc_stats := stats;
                 doc_season_type := season_type; doc_scraped_at := now |}).
  change (name, season_type) with (stats_key doc).
  destruct (upsert doc (processed_data st)) as [l|] eqn:Hup; simpl.
  - destruct (upsert_Some _ _ _ Hup) as (_ & Hin & _).
    apply list_elem_of_fmap. exists doc. auto.
  - rewrite fmap_app. apply elem_of_app. right. left.
Qed.






Lemma length_remove_dups_le (l : list string) :
  (length (remove_dups l) <= length l)%nat.
Proof.
  induction l as [|x rest IH]; simpl; [lia|].
  destruct (decide_rel elem_of x rest); simpl; lia.
Qed.

(** X5. [get_stats_count] answers either the empty dictionary, when the
    database does not answer, or the counters, among which
    ['unique_players'] never exceeds ['processed_stats_count'] and both
    are non-negative. *)
Theorem get_stats_count_counters (st : MongoDBStorage) :
  (online st = false /\ get_stats_count st = ∅) \/
  (online st = true /\
   exists players count,
     get_stats_count st !! "unique_players" = Some players /\
     get_stats_count st !! "processed_stats_count" = Some count /\
     0 <= players <= count /\
     count = Z.of_nat (length (processed_data st))).
Proof.
  unfold get_stats_count. destruct (online st); [right | left; auto].
  split; [reflexivity|].
  eexists _, _. split; [|split; [|split]].
  - rewrite lookup_insert_ne by discriminate.
    rewrite lookup_insert_ne by discriminate.
    rewrite lookup_insert_eq. reflexivity.
  - rewrite lookup_insert_ne by discriminate.
    rewrite lookup_insert_eq. reflexivity.
  - pose proof (length_remove_dups_le (doc_player_name <$> processed_data st)) as H.
    rewrite length_fmap in H. lia.
  - reflexivity.
Qed.

End StorageFacts.

(** ** The queue *)

Section QueueFacts.
Import Storage UrlManager Spec.




(** A late send: the Task is written, and not counted. *)
Example late_send_not_counted :
  let '(n, m) := submit_urls_batch Sample.manager_late ["a.com/1"; "a.com/2"] None in
  n = 1%nat /\
  published m = [ (KAFKA_SCRAPING_TASKS_TOPIC, TaskMsg "a.com/1" ∅ 0);
                  (KAFKA_SCRAPING_TASKS_TOPIC, TaskMsg "a.com/2" ∅ 0) ] /\
  unacknowledged m = [].
Proof. vm_compute. repeat split. Qed.




Section ConsumeFacts.
Context {State : Type}.
Variable callback : Message -> State -> result unit * State.

Lemma consume_loop_zero (messages : list Message) :
  forall n o st,
    consume_loop callback messages (Some 0) n o st
    = consume_loop callback messages None n o st.
Proof.
  induction messages as [|message rest IH]; intros n o st; simpl; [reflexivity|].
  destruct (callback message st) as [[[]|x] st']; apply IH.
Qed.

Lemma consume_loop_unlimited (messages : list Message) :
  forall n o st,
    snd (fst (consume_loop callback messages None n o st))
    = (o + length messages)%nat.
Proof.
  induction messages as [|message rest IH]; intros n o st; simpl; [lia|].
  destruct (callback message st) as [[[]|x] st']; rewrite IH; lia.
Qed.

(** X8. [max_messages = 0] does not stop [consume_urls]: it behaves as
    without a limit, and then every message the consumer yields is handed
    to the callback, those on which the callback raises included. *)
Theorem consume_urls_zero_limit (m : KafkaURLManager) (messages : list Message)
    (st : State) :
  consume_urls callback m messages (Some 0) st
  = consume_urls callback m messages None st
  /\ offered (consume_urls callback m messages None st)
     = match create_consumer m with
       | Some _ => length messages
       | None => 0%nat
       end.
Proof.
  unfold consume_urls. destruct (create_consumer m) as [c|]; [|split; reflexivity].
  rewrite consume_loop_zero.
  pose proof (consume_loop_unlimited messages 0 0%nat st) as Hall.
  destruct (consume_loop callback messages None 0 0%nat st) as [[n o] st'].
  simpl in *. split; [reflexivity | exact Hall].
Qed.



End ConsumeFacts.


Example consume_two_of_four :
  let r := consume_urls Sample.counting_callback Sample.manager_three_partitions
             Sample.some_messages (Some 2) 0%nat in
  message_count r = 2 /\ offered r = 3%nat /\ final_state r = 2%nat
  /\ closed r = true.
Proof. repeat split. Qed.

End QueueFacts.

(** ** Jobs *)

Section JobFacts.
Import Storage UrlManager Orchestrator Spec.



(** X11. [run_scraping_job] does not monitor a job that submitted nothing:
    when the Dedup Store knows every URL, or when the manager has no
    producer, it returns the submission without a 'progress' entry and
    without one poll, whatever [monitor] and [timeout] are. *)
Theorem run_scraping_job_nothing_submitted (o : JobOrchestrator)
    (urls : list string) (md : option (gmap string value)) (fuel : nat)
    (w : World) (monitor : bool) (timeout : Z) :
  fresh (storage o) urls = [] \/ producer (url_manager o) = None ->
  run_scraping_job fuel w o urls md monitor timeout
  = (Some (Ok {| submission := fst (submit_scraping_job o urls md);
                 progress := None |}),
     snd (submit_scraping_job o urls md))
  /\ submitted (fst (submit_scraping_job o urls md)) = 0%nat.
Proof.
  intros Hcase. unfold run_scraping_job, submit_scraping_job.
  rewrite filter_loop_spec. simpl.
  destruct (fresh (storage o) urls) as [|u l] eqn:Hfresh.
  - simpl. split; reflexivity.
  - destruct Hcase as [Hnone|Hprod]; [discriminate|].
    unfold submit_urls_batch. rewrite Hprod. simpl.
    rewrite andb_false_r. split; reflexivity.
Qed.

Lemma run_scraping_job_nothing_submitted_witness :
  fst (run_scraping_job 0 Sample.idle_world Sample.orchestrator_without_producer
         Sample.two_urls None true 300)
  = Some (Ok {| submission :=
                  {| status := "success"; total_urls := 2; skipped := 1;
                     submitted := 0; new_urls := Some ["a.com/2"] |};
                progress := None |}).
Proof.
  assert (H : fresh (storage Sample.orchestrator_without_producer) Sample.two_urls = []
              \/ producer (url_manager Sample.orchestrator_without_producer) = None)
    by (right; reflexivity).
  rewrite (proj1 (run_scraping_job_nothing_submitted
                    Sample.orchestrator_without_producer Sample.two_urls None
                    0 Sample.idle_world true 300 H)).
  reflexivity.
Defined.

(** X12. A monitored job with a timeout of 0 or less publishes its Tasks
    and then raises: with a working producer and at least one URL the Dedup
    Store does not know, [run_scraping_job] with [monitor] set and
    [timeout <= 0] ends in the unbound-variable error of the monitor, after
    the Tasks of all new URLs were published. *)
Theorem run_scraping_job_unbound_pending (o : JobOrchestrator)
    (urls : list string) (md : option (gmap string value)) (p : KafkaProducer)
    (fuel : nat) (w : World) (timeout : Z) :
  producer (url_manager o) = Some p ->
  Forall (fun f => f = Acked) (send_faults p) ->
  fresh (storage o) urls ≠ [] ->
  timeout <= 0 ->
  0 <= elapsed (w 0%nat) ->
  fst (run_scraping_job (S fuel) w o urls md true timeout)
  = Some (Raise (UnboundLocalError "pending"))
  /\ published (url_manager (snd (run_scraping_job (S fuel) w o urls md true timeout)))
     = published (url_manager o)
       ++ (task_of (url_manager o) md <$> fresh (storage o) urls).
Proof.
  intros Hp Hok Hfresh Htimeout Hclock.
  unfold run_scraping_job, submit_scraping_job.
  rewrite filter_loop_spec. simpl.
  destruct (fresh (storage o) urls) as [|u l] eqn:Hf; [congruence|].
  destruct (submit_urls_batch_healthy (url_manager o) (u :: l) md p Hp Hok)
    as (Hcount & Hpub).
  destruct (submit_urls_batch (url_manager o) (u :: l) md) as [n m'].
  simpl in Hcount, Hpub. subst n. simpl.
  unfold monitor_job_progress. cbn [monitor_loop].
  destruct (elapsed (w 0%nat) <? timeout) eqn:Htest;
    [apply Z.ltb_lt in Htest; lia|].
  simpl. split; [reflexivity | exact Hpub].
Qed.

Lemma run_scraping_job_unbound_pending_witness :
  fst (run_scraping_job 1 Sample.idle_world Sample.orchestrator Sample.two_urls
         None true 0)
  = Some (Raise (UnboundLocalError "pending")).
Proof.
  assert (Hp : producer (url_manager Sample.orchestrator)
               = Some {| sent := []; in_flight := []; send_faults := [] |}) by reflexivity.
  assert (Hok : Forall (fun f => f = Acked)
                  (send_faults {| sent := []; in_flight := []; send_faults := [] |}))
    by constructor.
  assert (Hfresh : fresh (storage Sample.orchestrator) Sample.two_urls ≠ [])
    by (vm_compute; discriminate).
  assert (Ht : 0 <= 0) by lia.
  assert (Hc : 0 <= elapsed (Sample.idle_world 0%nat)) by (simpl; lia).
  exact (proj1 (run_scraping_job_unbound_pending Sample.orchestrator
                  Sample.two_urls None _ 0 Sample.idle_world 0 Hp Hok Hfresh Ht Hc)).
Defined.

Lemma count_at_offline (w : World) (n : nat) :
  online (database (w n)) = false -> count_at w n = None.
Proof.
  intros Hoff. unfold count_at, get_stats_count. rewrite Hoff. reflexivity.
Qed.

Lemma monitor_loop_key_error (w : World) (timeout : Z) (k : nat) (fuel : nat) :
  forall n pending,
    (n <= k)%nat -> (k - n < fuel)%nat ->
    (forall j, (n <= j <= k)%nat -> elapsed (w j) < timeout) ->
    (forall j, (n <= j < k)%nat ->
               ~ appears_complete w j /\ is_Some (count_at w j)) ->
    count_at w k = None ->
    monitor_loop fuel w timeout n (last_count_at w n) pending
    = Some (Raise (KeyError "processed_stats_count")).
Proof.
  induction fuel as [|fuel IH]; intros n pending Hnk Hfuel Hpoll Hbefore Hdown;
    [lia|].
  cbn [monitor_loop].
  destruct (elapsed (w n) <? timeout) eqn:Htest;
    [|apply Z.ltb_ge in Htest; specialize (Hpoll n ltac:(lia)); lia].
  fold (count_at w n). fold (pending_at w n).
  destruct (decide (n = k)) as [->|Hne].
  - rewrite Hdown. reflexivity.
  - destruct (Hbefore n ltac:(lia)) as [Hno [c Hc]]. rewrite Hc.
    destruct ((pending_at w n =? 0) && (last_count_at w n <? c)) eqn:Hbreak.
    + apply (break_test_iff w n c Hc) in Hbreak. contradiction.
    + assert (Hlast : last_count_at w (S n) = c) by (simpl; rewrite Hc; reflexivity).
      rewrite <- Hlast. apply IH; try lia; try assumption.
      * intros j Hj. apply Hpoll. lia.
      * intros j Hj. apply Hbefore. lia.
Qed.

(** X13. When the database stops answering at a poll the monitor makes
    (every reading up to it is before the deadline and no earlier
    observation appeared complete), [monitor_job_progress] does not return
    a status: the empty dictionary of [get_stats_count] has no
    ['processed_stats_count'] and the call raises KeyError. *)
Theorem monitor_job_progress_key_error (w : World) (timeout : Z) (k fuel : nat) :
  (k < fuel)%nat ->
  (forall j, (j <= k)%nat -> elapsed (w j) < timeout) ->
  (forall j, (j < k)%nat -> ~ appears_complete w j /\ online (database (w j)) = true) ->
  online (database (w k)) = false ->
  monitor_job_progress fuel w timeout
  = Some (Raise (KeyError "processed_stats_count")).
Proof.
  intros Hfuel Hpoll Hbefore Hdown. unfold monitor_job_progress.
  change 0 with (last_count_at w 0) at 1.
  rewrite (monitor_loop_key_error w timeout k fuel 0 None); try lia.
  - reflexivity.
  - intros j Hj. apply Hpoll. lia.
  - intros j Hj. destruct (Hbefore j ltac:(lia)) as [Hno Hon].
    split; [exact Hno|].
    unfold count_at, get_stats_count. rewrite Hon.
    rewrite lookup_insert_ne by discriminate.
    rewrite lookup_insert_eq. eauto.
  - apply count_at_offline. exact Hdown.
Qed.

Lemma monitor_job_progress_key_error_witness :
  monitor_job_progress 2 Sample.failing_world 300
  = Some (Raise (KeyError "processed_stats_count")).
Proof.
  apply (monitor_job_progress_key_error Sample.failing_world 300 1 2).
  - lia.
  - intros j Hj. simpl. lia.
  - intros j Hj. assert (j = 0%nat) as -> by lia.
    split; [|reflexivity].
    intros [Hp _]. vm_compute in Hp. discriminate Hp.
  - reflexivity.
Defined.

(** X14. Records persisted before the job started make the first poll
    look complete: the count is compared with 0 at the first observation,
    so when the first poll finds an empty backlog and any persisted record
    at all, [monitor_job_progress] returns 'completed' after that single
    poll. *)
Theorem monitor_job_progress_first_poll (w : World) (timeout : Z) (fuel : nat)
    (count : Z) :
  elapsed (w 0%nat) < timeout ->
  pending_at w 0 = 0 ->
  count_at w 0 = Some count ->
  0 < count ->
  monitor_job_progress (S fuel) w timeout
  = Some (Ok {| progress_status := "completed";
                elapsed_time := elapsed (w 1%nat);
                final_stats := get_stats_count (database (w 1%nat)) |}).
Proof.
  intros Htest Hpending Hcount Hpos.
  unfold monitor_job_progress. cbn [monitor_loop].
  apply Z.ltb_lt in Htest. rewrite Htest.
  fold (count_at w 0). fold (pending_at w 0).
  rewrite Hcount, Hpending.
  apply Z.ltb_lt in Hpos. rewrite Hpos. reflexivity.
Qed.

Lemma monitor_job_progress_first_poll_witness :
  exists r,
    monitor_job_progress 1 Sample.stale_world 300 = Some (Ok r)
    /\ progress_status r = "completed".
Proof.
  assert (H0 : elapsed (Sample.stale_world 0%nat) < 300) by reflexivity.
  assert (H1 : pending_at Sample.stale_world 0 = 0) by reflexivity.
  assert (H2 : count_at Sample.stale_world 0 = Some 1) by reflexivity.
  assert (H3 : 0 < 1) by lia.
  eexists. split.
  - exact (monitor_job_progress_first_poll Sample.stale_world 300 0 1 H0 H1 H2 H3).
  - reflexivity.
Defined.

End JobFacts.

(** ** The worker's retries, sleeps and rates *)

Section WorkerFacts.
Import Storage UrlManager Scraper Spec.

Lemma send_to_dead_letter_queue_slept s e url err md :
  slept (send_to_dead_letter_queue s e url err md) = slept s /\
  worker_id (send_to_dead_letter_queue s e url err md) = worker_id s.
Proof.
  unfold send_to_dead_letter_queue.
  destruct (dead_letter_insert_one _ _) as [st|x]; [|split; reflexivity].
  simpl. destruct (producer (url_manager s)); split; reflexivity.
Qed.

(** The delays the loop sleeps when the attempts [k], [k+1], ... fail. *)
Lemma retry_loop_all_fail_state e url md (n : nat) :
  forall (k : nat) (s : FaultTolerantScraper),
    (1 <= n)%nat -> (k + n = MAX_RETRIES (retry_config s))%nat ->
    (forall i, (k <= i < k + n)%nat -> fetch_ok e i = false) ->
    exists (s0 : FaultTolerantScraper) (err : string),
      storage s0 = storage s /\ url_manager s0 = url_manager s /\
      worker_id s0 = worker_id s /\ retry_config s0 = retry_config s /\
      slept s0
      = slept s ++ ((fun i => exponential_backoff (retry_config s) i (random e i))
                      <$> seq k (n - 1)) /\
      retried (stats s0) = (retried (stats s) + (n - 1))%nat /\
      snd (retry_loop (seq k n) s e url md)
      = set_stats
          (set_stats (send_to_dead_letter_queue s0 e url err (Some md))
             (incr_failed (stats (send_to_dead_letter_queue s0 e url err (Some md)))))
          (incr_dead_lettered
             (incr_failed (stats (send_to_dead_letter_queue s0 e url err (Some md))))) /\
      fst (retry_loop (seq k n) s e url md)
      = Failed url err (MAX_RETRIES (retry_config s)).
Proof.
  induction n as [|n IH]; intros k s Hn Hk Hfail; [lia|].
  cbn [seq retry_loop].
  destruct (try_attempt_fails s e url md k) as (x & ->); [apply Hfail; lia|].
  cbn beta iota.
  change (retry_config (count_spider_call s)) with (retry_config s).
  destruct (Z.of_nat k <? Z.of_nat (MAX_RETRIES (retry_config s)) - 1) eqn:Hlast.
  - apply Z.ltb_lt in Hlast.
    destruct (IH (S k)
                (set_stats
                   (sleep (count_spider_call s)
                      (exponential_backoff (retry_config s) k (random e k)))
                   (incr_retried (stats s))))
      as (s0 & err & Hst & Hum & Hid & Hcfg & Hslept & Hret & Hsnd & Hfst);
      [lia | simpl; lia | intros i Hi; apply Hfail; lia |].
    simpl in Hst, Hum, Hid, Hcfg, Hslept, Hret, Hsnd, Hfst.
    exists s0, err.
    split; [exact Hst|]. split; [exact Hum|]. split; [exact Hid|].
    split; [exact Hcfg|].
    split.
    { rewrite Hslept. destruct n as [|n]; [lia|].
      replace (S (S n) - 1)%nat with (S (S n - 1)) by lia.
      cbn [seq]. rewrite fmap_cons, <- (assoc_L (++)). reflexivity. }
    split; [lia|]. split; [exact Hsnd | exact Hfst].
  - apply Z.ltb_ge in Hlast.
    assert (n = 0%nat) as -> by lia.
    exists (count_spider_call s), (str x). simpl.
    rewrite app_nil_r.
    split; [reflexivity|]. split; [reflexivity|]. split; [reflexivity|].
    split; [reflexivity|]. split; [reflexivity|]. split; [lia|].
    split; [reflexivity|].
    destruct (send_to_dead_letter_queue_frame (count_spider_call s) e url
                (str x) (Some md)) as (_ & Hcfg & _).
    rewrite Hcfg. reflexivity.
Qed.

(** X15. A task whose fetch fails on every attempt sleeps exactly
    MAX_RETRIES - 1 = 2 times, after the first and after the second
    attempt and not after the last one; with draws of the random generator
    in [0, 1) the first delay lies between 5 and 5.5 seconds and the second
    between 10 and 11. *)
Theorem scrape_with_retry_sleeps (s : FaultTolerantScraper) (e : Env)
    (url : string) (md : option (gmap string value)) :
  retry_config s = defaults ->
  (forall i, (i < 3)%nat -> fetch_ok e i = false) ->
  (forall i, (0 <= random e i)%Q /\ (random e i < 1)%Q) ->
  exists d0 d1 : Q,
    slept (snd (scrape_with_retry s e url md)) = slept s ++ [d0; d1] /\
    (5 <= d0)%Q /\ (d0 <= 11 # 2)%Q /\ (10 <= d1)%Q /\ (d1 <= 11)%Q.
Proof.
  intros Hcfg Hfail Hrandom. unfold scrape_with_retry. rewrite Hcfg.
  change (MAX_RETRIES defaults) with 3%nat.
  destruct (retry_loop_all_fail_state e url (or_else md ∅) 3 0 s)
    as (s0 & err & _ & _ & _ & _ & Hslept & _ & -> & _);
    [lia | rewrite Hcfg; reflexivity | intros i Hi; apply Hfail; lia |].
  rewrite Hcfg in Hslept. simpl in Hslept.
  exists (exponential_backoff defaults 0 (random e 0%nat)),
         (exponential_backoff defaults 1 (random e 1%nat)).
  split.
  { simpl.
    destruct (send_to_dead_letter_queue_slept s0 e url err (Some (or_else md ∅)))
      as [-> _]. exact Hslept. }
  destruct (Hrandom 0%nat) as [H00 H01]. destruct (Hrandom 1%nat) as [H10 H11].
  destruct (jitter_range 5 (random e 0%nat) ltac:(lia) H00 H01) as [Ha Hb].
  destruct (jitter_range 10 (random e 1%nat) ltac:(lia) H10 H11) as [Hc Hd].
  unfold exponential_backoff.
  change (base_delay defaults 0) with 5. change (base_delay defaults 1) with 10.
  change (inject_Z 5) with 5%Q in *. change (inject_Z 10) with 10%Q in *.
  repeat split; lra.
Qed.

Lemma scrape_with_retry_sleeps_witness :
  exists d0 d1 : Q,
    slept (snd (scrape_with_retry Sample.scraper Sample.always_failing "a.com/1" None))
    = [d0; d1] /\ (5 <= d0)%Q /\ (d1 <= 11)%Q.
Proof.
  assert (Hcfg : retry_config Sample.scraper = defaults) by reflexivity.
  assert (Hfail : forall i, (i < 3)%nat -> fetch_ok Sample.always_failing i = false)
    by (intros i _; reflexivity).
  assert (Hrandom : forall i, (0 <= random Sample.always_failing i)%Q
                              /\ (random Sample.always_failing i < 1)%Q).
  { intros i. split; [discriminate | reflexivity]. }
  destruct (scrape_with_retry_sleeps Sample.scraper Sample.always_failing
              "a.com/1" None Hcfg Hfail Hrandom)
    as (d0 & d1 & Hslept & H0 & _ & _ & H1).
  exists d0, d1. split; [exact Hslept|]. split; [exact H0 | exact H1].
Defined.

(** What one call of [send_to_dead_letter_queue] does to the outside. *)
Lemma send_to_dead_letter_queue_cases s e url err md :
  (online (storage s) = false /\ send_to_dead_letter_queue s e url err md = s) \/
  (online (storage s) = true /\
   (exists doc,
      dead_letters (send_to_dead_letter_queue s e url err md)
      = dead_letters s ++ [doc] /\ dl_error doc = err) /\
   (published (url_manager (send_to_dead_letter_queue s e url err md))
    = published (url_manager s) \/
    published (url_manager (send_to_dead_letter_queue s e url err md))
    = published (url_manager s)
      ++ [("dead-letter-queue", DeadLetterMsg url err (utcnow e))])).
Proof.
  unfold send_to_dead_letter_queue, dead_letter_insert_one, dead_letters.
  destruct (online (storage s)) eqn:Hon; [right | left; auto].
  split; [reflexivity|]. cbn [url_manager set_storage].
  destruct (producer (url_manager s)) as [p|] eqn:Hp.
  - split; [eexists; split; reflexivity|].
    unfold published. cbn. rewrite Hp.
    unfold send, send_and_get.
    destruct (send_faults p) as [|[| |] faults]; cbn; auto.
  - split; [eexists; split; reflexivity|]. left. reflexivity.
Qed.

(** X16. The advisory dead-letter message follows the record and never
    precedes it: for a task whose fetch fails on every attempt, the manager
    receives at most one new message, a dead-letter message for the URL on
    the topic 'dead-letter-queue', and only when the record was written;
    when the dead letter store does not answer, nothing is published and
    nothing is stored. *)
Theorem scrape_with_retry_advisory (s : FaultTolerantScraper) (e : Env)
    (url : string) (md : option (gmap string value)) :
  (1 <= MAX_RETRIES (retry_config s))%nat ->
  (forall i, (i < MAX_RETRIES (retry_config s))%nat -> fetch_ok e i = false) ->
  let s' := snd (scrape_with_retry s e url md) in
  (published (url_manager s') = published (url_manager s) \/
   exists err,
     published (url_manager s')
     = published (url_manager s)
       ++ [("dead-letter-queue", DeadLetterMsg url err (utcnow e))] /\
     exists doc, dead_letters s' = dead_letters s ++ [doc] /\ dl_error doc = err) /\
  (online (storage s) = false ->
   url_manager s' = url_manager s /\ storage s' = storage s).
Proof.
  intros Hmax Hfail s'. subst s'. unfold scrape_with_retry.
  destruct (retry_loop_all_fail_state e url (or_else md ∅)
              (MAX_RETRIES (retry_config s)) 0 s)
    as (s0 & err & Hst & Hum & _ & _ & _ & _ & -> & _);
    [exact Hmax | reflexivity | intros i Hi; apply Hfail; lia |].
  cbn [url_manager storage set_stats]. unfold dead_letters.
  cbn [url_manager storage set_stats].
  destruct (send_to_dead_letter_queue_cases s0 e url err (Some (or_else md ∅)))
    as [[Hoff ->]|(Hon & (doc & Hdoc & Herr) & Hpub)].
  - rewrite Hum, Hst. split; [left; reflexivity | intros _; split; reflexivity].
  - rewrite Hst in Hon. split; [|rewrite Hon; discriminate].
    unfold dead_letters in Hdoc. rewrite Hst, Hum in *.
    destruct Hpub as [Hpub|Hpub]; [left; exact Hpub|].
    right. exists err. split; [exact Hpub|]. exists doc. auto.
Qed.

Lemma scrape_with_retry_advisory_witness :
  url_manager
    (snd (scrape_with_retry Sample.scraper_offline Sample.always_failing "a.com/1" None))
  = url_manager Sample.scraper_offline.
Proof.
  assert (Hmax : (1 <= MAX_RETRIES (retry_config Sample.scraper_offline))%nat)
    by (simpl; lia).
  assert (Hfail : forall i,
             (i < MAX_RETRIES (retry_config Sample.scraper_offline))%nat ->
             fetch_ok Sample.always_failing i = false)
    by (intros i _; reflexivity).
  destruct (scrape_with_retry_advisory Sample.scraper_offline Sample.always_failing
              "a.com/1" None Hmax Hfail) as [_ Hoff].
  exact (proj1 (Hoff eq_refl)).
Defined.

















End WorkerFacts.

(** ** Normalization *)

Section NormalizationFacts.
Import Normalizer Spec.

Variable float : string -> option pyfloat.
Variable int : string -> option Z.
Variable round : Q -> nat -> Q.
Variable truediv : number -> number -> result pyfloat.
Variable lower title join_split : string -> string.
Variable isoformat : Z -> string.

Lemma normalize_loop_raw (items : list (string * string)) :
  forall raw nums,
    fst (normalize_loop float int round lower items raw nums)
    = raw ++ filter (fun kv => fst kv ∉ non_stat_fields) items.
Proof.
  induction items as [|[key v] rest IH]; intros raw nums; cbn [normalize_loop].
  - rewrite filter_nil, app_nil_r. reflexivity.
  - rewrite filter_cons. cbn [fst]. fold non_stat_fields.
    destruct (bool_decide (key ∈ non_stat_fields)) eqn:Hskip.
    + apply bool_decide_eq_true in Hskip.
      destruct (decide (key ∉ non_stat_fields)); [contradiction|]. apply IH.
    + apply bool_decide_eq_false in Hskip.
      destruct (decide (key ∉ non_stat_fields)); [|contradiction].
      destruct (_normalize_stat_value float int round key v);
        rewrite IH, <- (assoc_L (++)); reflexivity.
Qed.

(** The two ways [normalize_player_stats] ends: with the record its
    [try] block builds, or with the empty dictionary of its handler when
    the per-game averages raise. *)
Lemma normalize_player_stats_cases (name : string) (row : list (string * string))
    (md : option (gmap string value)) (now : Z) :
  let r := normalize_player_stats float int round truediv lower title join_split
             isoformat name row md now in
  let raw := fst (normalize_loop float int round lower row [] ∅) in
  let nums := snd (normalize_loop float int round lower row [] ∅) in
  (is_Some (nums !! "games_played") /\
   (exists e, _calculate_per_game_stats round truediv nums = Raise e) /\
   r = empty_dict) \/
  (player_name r = Some (_normalize_player_name title join_split name) /\
   stats_raw r = Some raw /\
   ((nums !! "games_played" = None /\ stats r = Some (Num <$> nums)) \/
    (is_Some (nums !! "games_played") /\
     exists per_game,
       _calculate_per_game_stats round truediv nums = Ok per_game /\
       stats r = Some (<["per_game" := PerGame per_game]> (Num <$> nums))))).
Proof.
  intros r raw nums. subst r raw nums.
  unfold normalize_player_stats, normalize_player_stats_try.
  destruct (normalize_loop float int round lower row [] ∅) as [raw nums].
  cbn [fst snd].
  destruct (nums !! "games_played") as [games|] eqn:Hgames.
  - destruct (_calculate_per_game_stats round truediv nums) as [per_game|e].
    + right. cbn. split; [reflexivity|]. split; [reflexivity|].
      right. split; [eauto|]. exists per_game. split; reflexivity.
    + left. cbn. split; [eauto|]. split; [eauto | reflexivity].
  - right. cbn. split; [reflexivity|]. split; [reflexivity|].
    left. split; reflexivity.
Qed.

(** X19. [normalize_player_stats] answers either the empty dictionary of
    its exception handler or a record that keeps under ['stats_raw'] the
    row as it was scraped, minus the five fields that are not statistics,
    in the order of the row: values that do not parse are kept there too.
    It answers the empty dictionary exactly when the row has a games
    played figure and the computation of the per-game averages raises. *)
Theorem normalize_player_stats_raw (name : string) (row : list (string * string))
    (md : option (gmap string value)) (now : Z) :
  let r := normalize_player_stats float int round truediv lower title join_split
             isoformat name row md now in
  let nums := snd (normalize_loop float int round lower row [] ∅) in
  (r = empty_dict \/
   stats_raw r = Some (filter (fun kv => fst kv ∉ non_stat_fields) row)) /\
  (r = empty_dict <->
   is_Some (nums !! "games_played") /\
   exists e, _calculate_per_game_stats round truediv nums = Raise e).
Proof.
  cbv zeta.
  pose proof (normalize_loop_raw row [] ∅) as Hraw. cbn [app] in Hraw.
  destruct (normalize_player_stats_cases name row md now)
    as [(Hgames & Hraise & Hempty)|(Hname & Hrow & Hstats)].
  - split; [left; exact Hempty|]. split; [intros _; split; assumption|].
    intros _. exact Hempty.
  - split; [right; rewrite Hrow, Hraw; reflexivity|]. split.
    + intros Hempty. rewrite Hempty in Hname. discriminate Hname.
    + intros [Hgames (e & Hraise)].
      destruct Hstats as [[Hnone _]|(_ & per_game & Hok & _)].
      * rewrite Hnone in Hgames. destruct Hgames as [x Hx]. discriminate Hx.
      * rewrite Hok in Hraise. discriminate Hraise.
Qed.

Lemma replace_spaceless (s : string) : spaceless (replace " " "_" s).
Proof.
  unfold spaceless. induction s as [|c s IH]; [reflexivity|].
  simpl. destruct (decide (c = " "%char)) as [->|Hc].
  - simpl. exact IH.
  - rewrite IH, orb_false_r. apply bool_decide_eq_false. exact Hc.
Qed.

Lemma STAT_MAPPING_spaceless (key v : string) :
  STAT_MAPPING !! key = Some v -> spaceless v.
Proof.
  intros H. apply elem_of_list_to_map_2 in H.
  repeat (apply elem_of_cons in H as [H|H]; [injection H as _ ->; reflexivity|]).
  inversion H.
Qed.

Lemma normalize_loop_spaceless (items : list (string * string)) :
  forall raw nums,
    map_Forall (fun k _ => spaceless k) nums ->
    map_Forall (fun k _ => spaceless k)
      (snd (normalize_loop float int round lower items raw nums)).
Proof.
  induction items as [|[key v] rest IH]; intros raw nums Hnums;
    cbn [normalize_loop]; [exact Hnums|].
  destruct (bool_decide _); [apply IH; exact Hnums|].
  destruct (_normalize_stat_value float int round key v); [|apply IH; exact Hnums].
  apply IH. apply map_Forall_insert_2; [|exact Hnums].
  destruct (STAT_MAPPING !! key) as [k|] eqn:Hmap; cbn [or_else].
  - exact (STAT_MAPPING_spaceless key k Hmap).
  - apply replace_spaceless.
Qed.

(** X20. No key of the normalized statistics contains a space, whatever
    the column names of the scraped row are: a column is renamed through
    [STAT_MAPPING] or lower-cased with its spaces replaced by underscores. *)
Theorem normalize_player_stats_spaceless (name : string)
    (row : list (string * string)) (md : option (gmap string value)) (now : Z) :
  map_Forall (fun k _ => spaceless k)
    (or_else (stats (normalize_player_stats float int round truediv lower title join_split
                       isoformat name row md now)) ∅).
Proof.
  pose proof (normalize_loop_spaceless row [] ∅ (map_Forall_empty _)) as Hkeys.
  assert (Hnum : map_Forall (fun k (_ : stat_value) => spaceless k)
                   (Num <$> snd (normalize_loop float int round lower row [] ∅))).
  { apply map_Forall_fmap. exact Hkeys. }
  destruct (normalize_player_stats_cases name row md now)
    as [(_ & _ & ->)|(_ & _ & [[_ ->]|(_ & per_game & _ & ->)])]; cbn [or_else].
  - apply map_Forall_empty.
  - exact Hnum.
  - apply map_Forall_insert_2; [reflexivity | exact Hnum].
Qed.

(** The loop of the per-game averages when every division answers. *)
Lemma per_game_loop_ok (nums : gmap string number) (games : number)
    (keys : list string) :
  forall acc : gmap string pyfloat,
    (forall k v, k ∈ keys -> nums !! k = Some v ->
                 exists q, truediv v games = Ok q) ->
    exists per_game,
      per_game_loop round truediv nums games keys acc = Ok per_game /\
      (forall k v q, k ∈ keys -> nums !! k = Some v -> truediv v games = Ok q ->
                     per_game !! k = Some (round_float round q 2)) /\
      (forall k, k ∉ keys \/ nums !! k = None -> per_game !! k = acc !! k).
Proof.
  induction keys as [|key rest IH]; intros acc Hdiv; cbn [per_game_loop].
  - exists acc. split; [reflexivity|]. split; [|reflexivity].
    intros k v q Hk. inversion Hk.
  - destruct (nums !! key) as [value|] eqn:Hkey.
    + destruct (Hdiv key value) as [q0 Hq0]; [left | exact Hkey |].
      rewrite Hq0. cbn [mbind result_bind].
      destruct (IH (<[key := round_float round q0 2]> acc)) as (pg & Hrun & Hin & Hout).
      { intros k v Hk. apply Hdiv. right. exact Hk. }
      exists pg. split; [exact Hrun|]. split.
      * intros k v q Hk Hv Hq.
        destruct (decide (k ∈ rest)) as [Hrest|Hrest]; [eapply Hin; eassumption|].
        apply elem_of_cons in Hk as [->|Hk]; [|contradiction].
        rewrite Hkey in Hv. injection Hv as <-.
        rewrite Hq0 in Hq. injection Hq as <-.
        rewrite (Hout key (or_introl Hrest)). apply lookup_insert_eq.
      * intros k Hk. rewrite Hout.
        -- apply lookup_insert_ne. intros <-.
           destruct Hk as [Hk|Hk]; [apply Hk; left | congruence].
        -- destruct Hk as [Hk|Hk]; [left; intros Hr; apply Hk; right; exact Hr|].
           right. exact Hk.
    + destruct (IH acc) as (pg & Hrun & Hin & Hout).
      { intros k v Hk. apply Hdiv. right. exact Hk. }
      exists pg. split; [exact Hrun|]. split.
      * intros k v q Hk Hv Hq.
        apply elem_of_cons in Hk as [->|Hk]; [congruence|].
        eapply Hin; eassumption.
      * intros k Hk. apply Hout.
        destruct Hk as [Hk|Hk]; [left; intros Hr; apply Hk; right; exact Hr|].
        right. exact Hk.
Qed.

(** A division that raises ends the loop of the per-game averages. *)
Lemma per_game_loop_raises (nums : gmap string number) (games : number)
    (keys : list string) (k : string) (v : number) (e : exn) :
  k ∈ keys -> nums !! k = Some v -> truediv v games = Raise e ->
  forall acc : gmap string pyfloat,
    exists e', per_game_loop round truediv nums games keys acc = Raise e'.
Proof.
  intros Hk Hv He.
  induction keys as [|key rest IH]; intros acc; [inversion Hk|].
  cbn [per_game_loop].
  destruct (nums !! key) as [value|] eqn:Hkey.
  - destruct (truediv value games) as [q|e0] eqn:Hdiv; cbn [mbind result_bind];
      [|eauto].
    apply elem_of_cons in Hk as [->|Hk]; [congruence|].
    apply IH. exact Hk.
  - apply elem_of_cons in Hk as [->|Hk]; [congruence|].
    apply IH. exact Hk.
Qed.

(** X21. The per-game averages. With 0 games, or none, the dictionary
    [_calculate_per_game_stats] answers is empty: no division by zero.
    Otherwise, when every division answers, it has an entry for a key
    exactly when the key is one of the fifteen averaged statistics and the
    player has that statistic, and the entry is the statistic divided by
    the games played, rounded to two digits; and when the division of one
    of these statistics raises, as it does for an [int] beyond the range of
    floats, the function raises. *)
Theorem calculate_per_game_stats_spec (nums : gmap string number) :
  match nums !! "games_played" with
  | None => _calculate_per_game_stats round truediv nums = Ok ∅
  | Some games =>
      if num_eq games 0
      then _calculate_per_game_stats round truediv nums = Ok ∅
      else
        ((forall k v, k ∈ avg_stats -> nums !! k = Some v ->
                      exists q, truediv v games = Ok q) ->
         exists per_game,
           _calculate_per_game_stats round truediv nums = Ok per_game /\
           (forall k v q, k ∈ avg_stats -> nums !! k = Some v ->
                          truediv v games = Ok q ->
                          per_game !! k = Some (round_float round q 2)) /\
           (forall k, k ∉ avg_stats \/ nums !! k = None -> per_game !! k = None))
        /\
        (forall k v e, k ∈ avg_stats -> nums !! k = Some v ->
                       truediv v games = Raise e ->
                       exists e', _calculate_per_game_stats round truediv nums
                                  = Raise e')
  end.
Proof.
  unfold _calculate_per_game_stats.
  destruct (nums !! "games_played") as [games|]; cbn [or_else];
    [|reflexivity].
  destruct (num_eq games 0); [reflexivity|].
  split.
  - intros Hdiv.
    destruct (per_game_loop_ok nums games avg_stats ∅ Hdiv)
      as (pg & Hrun & Hin & Hout).
    exists pg. split; [exact Hrun|]. split; [exact Hin|].
    intros k Hk. rewrite (Hout k Hk). apply lookup_empty.
  - intros k v e Hk Hv He.
    exact (per_game_loop_raises nums games avg_stats k v e Hk Hv He ∅).
Qed.

Lemma normalize_loop_placeholders (items : list (string * string)) :
  Forall (fun kv => fst kv ∈ non_stat_fields \/ snd kv ∈ placeholders) items ->
  forall raw nums,
    snd (normalize_loop float int round lower items raw nums) = nums.
Proof.
  induction 1 as [|[key v] rest Hkv _ IH]; intros raw nums;
    cbn [normalize_loop]; [reflexivity|].
  fold non_stat_fields.
  destruct (bool_decide (key ∈ non_stat_fields)) eqn:Hskip; [apply IH|].
  apply bool_decide_eq_false in Hskip.
  destruct Hkv as [Hk|Hv]; [contradiction|]. cbn [snd] in Hv.
  assert (Hnone : _normalize_stat_value float int round key v = None).
  { unfold _normalize_stat_value.
    destruct (decide (v = "" \/ v = "-" \/ v = "N/A")) as [_|Hno]; [reflexivity|].
    exfalso. apply Hno. unfold placeholders in Hv.
    repeat (apply elem_of_cons in Hv as [Hv|Hv]; [auto|]). inversion Hv. }
  rewrite Hnone. apply IH.
Qed.

(** X22. A row without a single filled-in statistic does not pass
    validation: when every field of the row is either one of the fields
    that are not statistics or holds a placeholder ('', '-' or 'N/A'), the
    normalized record has no statistics and [validate_stats] rejects it,
    whatever the player's name. *)
Theorem blank_row_rejected (name : string) (row : list (string * string))
    (md : option (gmap string value)) (now : Z) :
  Forall (fun kv => fst kv ∈ non_stat_fields \/ snd kv ∈ placeholders) row ->
  stats (normalize_player_stats float int round truediv lower title join_split
           isoformat name row md now) = Some ∅
  /\ validate_stats
       (normalize_player_stats float int round truediv lower title join_split
          isoformat name row md now) = false.
Proof.
  intros Hblank.
  assert (Hstats : stats (normalize_player_stats float int round truediv lower title
                            join_split isoformat name row md now) = Some ∅).
  { pose proof (normalize_loop_placeholders row Hblank [] ∅) as Hnums.
    destruct (normalize_player_stats_cases name row md now)
      as [(Hgames & _)|(_ & _ & [[_ ->]|(Hgames & _)])].
    - rewrite Hnums, lookup_empty in Hgames. destruct Hgames as [x Hx].
      discriminate Hx.
    - rewrite Hnums, fmap_empty. reflexivity.
    - rewrite Hnums, lookup_empty in Hgames. destruct Hgames as [x Hx].
      discriminate Hx. }
  split; [exact Hstats|].
  unfold validate_stats, validate_stats_try. rewrite Hstats.
  destruct (player_name _) as [[|c n]|]; reflexivity.
Qed.

End NormalizationFacts.

Lemma blank_row_rejected_witness :
  Normalizer.validate_stats
    (Normalizer.normalize_player_stats Sample.no_float Sample.no_int
       Sample.no_round Sample.no_truediv id id id (fun _ => "") "LeBron James" Sample.blank_row
       None 0) = false.
Proof.
  assert (H : Forall (fun kv => fst kv ∈ Spec.non_stat_fields
                                \/ snd kv ∈ Spec.placeholders) Sample.blank_row).
  { unfold Sample.blank_row, Spec.non_stat_fields, Spec.placeholders.
    repeat (constructor; [first [left; set_solver | right; set_solver]|]).
    constructor. }
  exact (proj2 (blank_row_rejected Sample.no_float Sample.no_int Sample.no_round Sample.no_truediv
                  id id id (fun _ => "") "LeBron James" Sample.blank_row None 0 H)).
Defined.

(** A total beyond the range of floats: the division of the per-game
    averages raises [OverflowError], and the whole row is answered [{}],
    which does not pass validation. *)
Example overflow_row_dropped :
  let r := Normalizer.normalize_player_stats Sample.no_float Sample.int_of_digits
             Sample.no_round Sample.int_truediv id id id (fun _ => "")
             "Big Total" Sample.big_row None 0 in
  r = Normalizer.empty_dict /\ Normalizer.validate_stats r = false.
Proof. vm_compute. split; reflexivity. Qed.

(** ** The processor *)

Section ProcessingFacts.
Import Storage Normalizer Processor Spec.

Variable float : string -> option Normalizer.pyfloat.
Variable int : string -> option Z.
Variable round : Q -> nat -> Q.
Variable truediv : Normalizer.number -> Normalizer.number -> result Normalizer.pyfloat.
Variable lower title join_split : string -> string.
Variable isoformat : Z -> string.
Variable decode : option string -> result (list (list (string * string))).
Variable embed_players_batch : list NormalizedStats -> result (list Embedded).
Variable add_embeddings_ok : bool.
Variable utcnow : Z.

Local Abbreviation process :=
  (process_scraped_data float int round truediv lower title join_split isoformat
     decode embed_players_batch add_embeddings_ok utcnow).
Local Abbreviation loop :=
  (players_loop float int round truediv lower title join_split isoformat utcnow).
Local Abbreviation recs :=
  (records float int round truediv lower title join_split isoformat utcnow).

(** The player loop stores the records of the rows and counts them, in
    both of its counters. *)
Lemma players_loop_records (url : option string)
    (data : list (list (string * string))) :
  forall st n emb,
    exists emb',
      loop data url st n emb
      = (store_all utcnow st (recs url data),
         (n + length (recs url data))%nat, emb ++ emb')
      /\ length emb' = length (recs url data).
Proof.
  induction data as [|row rest IH]; intros st n emb.
  - exists []. cbn [players_loop]. unfold records, store_all. cbn.
    rewrite app_nil_r. split; [repeat f_equal; lia | reflexivity].
  - cbn [players_loop]. unfold records. cbn [omap list_omap].
    fold (omap (row_record float int round truediv lower title join_split isoformat
                  utcnow url) rest).
    fold (recs url rest).
    unfold row_record at 1 2 3.
    destruct (decide (get_player row = "")) as [Hname|Hname].
    + destruct (IH st n emb) as (emb' & -> & Hlen). exists emb'. auto.
    + destruct (validate_stats _) eqn:Hvalid.
      * destruct (store_processed_stats st _ _ "Regular Season" utcnow)
          as [answer st1] eqn:Hstore.
        destruct (IH st1 (S n) (emb ++ [normalize_player_stats float int round truediv lower
                    title join_split isoformat (get_player row) row
                    (Some match url with
                          | Some u => {[ "season_type" := VStr "Regular Season";
                                         "source_url" := VStr u ]}
                          | None => {[ "season_type" := VStr "Regular Season" ]}
                          end) utcnow]))
          as (emb' & -> & Hlen).
        eexists (_ :: emb'). split.
        -- unfold store_all. cbn [foldl fst snd length]. rewrite Hstore. cbn [snd].
           rewrite <- (assoc_L (++)), Nat.add_succ_r. reflexivity.
        -- cbn [length]. rewrite Hlen. reflexivity.
      * destruct (IH st n emb) as (emb' & -> & Hlen). exists emb'. auto.
Qed.

Local Abbreviation job :=
  (job_records float int round truediv lower title join_split isoformat utcnow decode).

Lemma store_processed_stats_frame (st : MongoDBStorage) (name : string)
    (stt : gmap string stat_value) (season : string) (now : Z) :
  let st' := snd (store_processed_stats st name stt season now) in
  online st' = online st /\ raw_data st' = raw_data st /\
  dead_letter_queue st' = dead_letter_queue st /\
  (length (processed_data st) <= length (processed_data st') <= 
   S (length (processed_data st)))%nat /\
  (forall k, k ∈ (stats_key <$> processed_data st) ->
             k ∈ (stats_key <$> processed_data st')).
Proof.
  unfold store_processed_stats.
  destruct (online st) eqn:Hon; [|cbn; rewrite Hon; repeat split; auto; lia].
  destruct (upsert _ (processed_data st)) as [l|] eqn:Hup; cbn.
  - destruct (upsert_Some _ _ _ Hup) as (Hkeys & _ & _).
    pose proof (f_equal length Hkeys) as Hlen. rewrite !length_fmap in Hlen.
    repeat split; auto; try lia. intros k Hk. rewrite Hkeys. exact Hk.
  - rewrite length_app. cbn. repeat split; auto; try lia.
    intros k Hk. rewrite fmap_app. apply elem_of_app. left. exact Hk.
Qed.

Lemma store_all_cons (st : MongoDBStorage) (r : string * gmap string stat_value)
    (rest : list (string * gmap string stat_value)) :
  store_all utcnow st (r :: rest)
  = store_all utcnow
      (snd (store_processed_stats st (fst r) (snd r) "Regular Season" utcnow)) rest.
Proof. reflexivity. Qed.

Lemma store_all_frame (rs : list (string * gmap string stat_value)) :
  forall st,
    online (store_all utcnow st rs) = online st /\
    raw_data (store_all utcnow st rs) = raw_data st /\
    dead_letter_queue (store_all utcnow st rs) = dead_letter_queue st /\
    (length (processed_data st) <= length (processed_data (store_all utcnow st rs))
     <= length (processed_data st) + length rs)%nat /\
    (forall k, k ∈ (stats_key <$> processed_data st) ->
               k ∈ (stats_key <$> processed_data (store_all utcnow st rs))).
Proof.
  induction rs as [|r rest IH]; intros st.
  - cbn. repeat split; auto; lia.
  - rewrite store_all_cons.
    destruct (store_processed_stats_frame st (fst r) (snd r) "Regular Season" utcnow)
      as (Hon & Hraw & Hdl & Hlen & Hkeys).
    destruct (IH (snd (store_processed_stats st (fst r) (snd r) "Regular Season" utcnow)))
      as (Hon' & Hraw' & Hdl' & Hlen' & Hkeys').
    cbn [length].
    split; [congruence|]. split; [congruence|]. split; [congruence|].
    split; [lia|]. intros k Hk. apply Hkeys', Hkeys, Hk.
Qed.

Lemma find_raw_frame (st st' : MongoDBStorage) (url : option string) :
  online st' = online st -> raw_data st' = raw_data st ->
  find_raw st' url = find_raw st url.
Proof.
  intros Hon Hraw. unfold find_raw, find_one_url. rewrite Hon, Hraw. reflexivity.
Qed.

(** One call of the processor: the database afterwards holds the records
    of the fetch result on top of what it held, and a 'success' outcome
    counts those records in both counters. *)
Lemma process_run (w : ProcessorWorker) (r : FetchResult) :
  storage (snd (process w r)) = store_all utcnow (storage w) (job (storage w) r)
  /\ forall u n k who,
       fst (process w r) = Success u n k who ->
       n = k /\ n = length (job (storage w) r).
Proof.
  unfold process_scraped_data, job_records.
  destruct (decide (result_status r ≠ Some "success")) as [Hskip|Hok];
    [split; [reflexivity | intros u n k who H; discriminate H]|].
  unfold process_success.
  destruct (find_raw (storage w) (result_url r)) as [[raw_doc|]|x];
    try (split; [reflexivity | intros u n k who H; discriminate H]).
  destruct (decode (raw_html_content raw_doc)) as [[|row rest]|x];
    try (split; [reflexivity | intros u n k who H; discriminate H]).
  destruct (players_loop_records (result_url r) (row :: rest) (storage w) 0 [])
    as (emb' & Hloop & Hlen).
  rewrite Hloop. cbn [app].
  destruct emb' as [|x emb'].
  - split; [reflexivity|]. intros u n k who [= <- <- <- <-].
    split; [symmetry; exact Hlen | reflexivity].
  - destruct (embed_players_batch (x :: emb')) as [[|p ps]|y].
    + split; [reflexivity|]. intros u n k who [= <- <- <- <-].
      split; [symmetry; exact Hlen | reflexivity].
    + destruct add_embeddings_ok;
        (split; [reflexivity|]; intros u n k who [= <- <- <- <-];
         split; [symmetry; exact Hlen | reflexivity]).
    + split; [reflexivity | intros u n k who H; discriminate H].
Qed.

(** X23. A 'success' outcome of [process_scraped_data] reports the same
    number in 'players_processed' and 'players_embedded', and the
    processed statistics hold at most that many records more than
    before. *)
Theorem process_scraped_data_counters (w : ProcessorWorker) (r : FetchResult)
    (u : option string) (n k : nat) (who : string) :
  fst (process w r) = Success u n k who ->
  n = k /\
  (length (processed_data (storage (snd (process w r))))
   <= length (processed_data (storage w)) + n)%nat.
Proof.
  intros Hout. destruct (process_run w r) as [Hst Hcount].
  destruct (Hcount u n k who Hout) as [Hnk Hn].
  split; [exact Hnk|]. rewrite Hst.
  destruct (store_all_frame (job (storage w) r) (storage w)) as (_ & _ & _ & Hlen & _).
  lia.
Qed.

(** X24. [process_scraped_data] only adds to or updates the processed
    statistics: for every fetch result and whatever the collaborators
    answer, the stored pages and the dead letters are untouched, no
    processed record is removed and every key present before is present
    afterwards. *)
Theorem process_scraped_data_frame (w : ProcessorWorker) (r : FetchResult) :
  let st := storage w in
  let st' := storage (snd (process w r)) in
  raw_data st' = raw_data st /\
  dead_letter_queue st' = dead_letter_queue st /\
  (length (processed_data st) <= length (processed_data st'))%nat /\
  (forall key, key ∈ (stats_key <$> processed_data st) ->
               key ∈ (stats_key <$> processed_data st')).
Proof.
  intros st st'. subst st st'.
  destruct (process_run w r) as [-> _].
  destruct (store_all_frame (job (storage w) r) (storage w))
    as (_ & Hraw & Hdl & Hlen & Hkeys).
  split; [exact Hraw|]. split; [exact Hdl|]. split; [lia | exact Hkeys].
Qed.

Lemma store_all_offline (rs : list (string * gmap string stat_value)) :
  forall st, online st = false -> store_all utcnow st rs = st.
Proof.
  induction rs as [|r rest IH]; intros st Hoff; [reflexivity|].
  rewrite store_all_cons.
  unfold store_processed_stats at 1. rewrite Hoff. cbn [snd]. apply IH. exact Hoff.
Qed.

Lemma store_all_keys_present (rs : list (string * gmap string stat_value)) :
  forall st,
    online st = true ->
    forall r, r ∈ rs ->
      (fst r, "Regular Season")
      ∈ (stats_key <$> processed_data (store_all utcnow st rs)).
Proof.
  induction rs as [|x rest IH]; intros st Hon r Hin; [inversion Hin|].
  rewrite store_all_cons.
  destruct (store_processed_stats_frame st (fst x) (snd x) "Regular Season" utcnow)
    as (Hon' & _).
  apply elem_of_cons in Hin as [->|Hin].
  - apply store_all_frame.
    apply store_processed_stats_key. exact Hon.
  - apply IH; [congruence | exact Hin].
Qed.

Lemma store_all_keys_same (rs : list (string * gmap string stat_value)) :
  forall st,
    (forall r, r ∈ rs ->
       (fst r, "Regular Season") ∈ (stats_key <$> processed_data st)) ->
    (stats_key <$> processed_data (store_all utcnow st rs))
    = (stats_key <$> processed_data st).
Proof.
  induction rs as [|x rest IH]; intros st Hpresent; [reflexivity|].
  rewrite store_all_cons.
  assert (Hstep : (stats_key <$> processed_data
                     (snd (store_processed_stats st (fst x) (snd x)
                             "Regular Season" utcnow)))
                  = (stats_key <$> processed_data st)).
  { unfold store_processed_stats. destruct (online st); [|reflexivity].
    set (doc := {| doc_player_name := fst x; doc_stats := snd x;
                   doc_season_type := "Regular Season";
                   doc_scraped_at := utcnow |}).
    destruct (upsert_present doc (processed_data st)) as [l Hup];
      [apply Hpresent; left|].
    rewrite Hup. cbn. apply (upsert_Some _ _ _ Hup). }
  rewrite IH; [exact Hstep|].
  intros r Hr. rewrite Hstep. apply Hpresent. right. exact Hr.
Qed.

(** X25. Redelivery of a fetch result creates no duplicate: processing
    the same result a second time, the collaborators answering as before,
    leaves the keys of the processed statistics, and so their number,
    exactly as the first processing left them. *)
Theorem process_scraped_data_redelivery (w : ProcessorWorker) (r : FetchResult) :
  let w1 := snd (process w r) in
  let w2 := snd (process w1 r) in
  (stats_key <$> processed_data (storage w2))
  = (stats_key <$> processed_data (storage w1))
  /\ length (processed_data (storage w2)) = length (processed_data (storage w1)).
Proof.
  intros w1 w2.
  assert (Hkeys : (stats_key <$> processed_data (storage w2))
                  = (stats_key <$> processed_data (storage w1))).
  { subst w2 w1.
    destruct (process_run w r) as [Hst1 _].
    destruct (process_run (snd (process w r)) r) as [Hst2 _].
    rewrite Hst2, Hst1.
    destruct (store_all_frame (job (storage w) r) (storage w))
      as (Hon & Hraw & _ & _ & _).
    assert (Hjob : job (store_all utcnow (storage w) (job (storage w) r)) r
                   = job (storage w) r).
    { unfold job_records. rewrite (find_raw_frame _ _ _ Hon Hraw). reflexivity. }
    rewrite Hjob.
    destruct (online (storage w)) eqn:Honline.
    - apply store_all_keys_same. intros x Hx.
      apply store_all_keys_present; [exact Honline | exact Hx].
    - rewrite (store_all_offline _ (storage w) Honline).
      rewrite (store_all_offline _ (storage w) Honline). reflexivity. }
  split; [exact Hkeys|].
  apply (f_equal length) in Hkeys. rewrite !length_fmap in Hkeys. exact Hkeys.
Qed.

End ProcessingFacts.

Lemma process_scraped_data_counters_witness :
  (length
     (Storage.processed_data
        (Processor.storage
           (snd (Processor.process_scraped_data Sample.no_float Sample.int_of_points
                   Sample.no_round Sample.no_truediv id id id (fun _ => "") Sample.one_row_page
                   Sample.no_embed true 0 Sample.processor_with_page
                   Sample.successful_fetch)))) <= 1)%nat.
Proof.
  assert (H : fst (Processor.process_scraped_data Sample.no_float
                     Sample.int_of_points Sample.no_round Sample.no_truediv id id id (fun _ => "")
                     Sample.one_row_page Sample.no_embed true 0
                     Sample.processor_with_page Sample.successful_fetch)
              = Processor.Success (Some "a.com/1") 1 1 "processor-1")
    by (vm_compute; reflexivity).
  pose proof (proj2 (process_scraped_data_counters Sample.no_float
                       Sample.int_of_points Sample.no_round Sample.no_truediv id id id (fun _ => "")
                       Sample.one_row_page Sample.no_embed true 0
                       Sample.processor_with_page Sample.successful_fetch
                       _ _ _ _ H)) as Hlen.
  simpl in Hlen. lia.
Defined.
